(** * URANUS agent runtime: a shallow embedding of the dispatch engine,
      the tool registry and the sandboxed tools, with the properties of
      the specification stated over it.

    Python values are modelled as follows.
    - [str] is [string]; the text functions below implement the behaviour
      of the Python methods on ASCII text.
    - [int] is [Z].
    - A call that may raise returns an [outcome]: [Return v] or [Raise e],
      where [e] ranges over the classes caught by [except Exception].
    - Mutable objects (the memory, the agent state, the terminal's stored
      path, the file system, the process working directory) are threaded
      explicitly. *)

From Stdlib Require Import ZArith Ascii String List Lia Bool.
From stdpp Require Import base tactics option list strings gmap pretty.

Local Set Warnings "-register-all".
Local Open Scope string_scope.
Local Open Scope Z_scope.

(** ** Python text operations *)

Module PyStr.

Definition is_upper (c : ascii) : bool :=
  let n := nat_of_ascii c in (Nat.leb 65 n && Nat.leb n 90)%bool.

Definition lower_char (c : ascii) : ascii :=
  if is_upper c then ascii_of_nat (nat_of_ascii c + 32) else c.

(** [s.lower()] *)
Fixpoint lower (s : string) : string :=
  match s with
  | EmptyString => EmptyString
  | String c r => String (lower_char c) (lower r)
  end.

(** [s.startswith(p)] *)
Fixpoint startswith (s p : string) {struct p} : bool :=
  match p, s with
  | EmptyString, _ => true
  | String a p', String b s' => if Ascii.eqb a b then startswith s' p' else false
  | String _ _, EmptyString => false
  end.

(** [s.startswith((p1, p2, ...))] *)
Definition startswith_any (s : string) (ps : list string) : bool :=
  existsb (startswith s) ps.

(** [s[n:]] for a non-negative literal [n] *)
Fixpoint drop (n : nat) (s : string) : string :=
  match n, s with
  | O, _ => s
  | S n', String _ r => drop n' r
  | S _, EmptyString => EmptyString
  end.

(** [str.isspace] on one ASCII character *)
Definition is_space (c : ascii) : bool :=
  let n := nat_of_ascii c in
  ((Nat.leb 9 n && Nat.leb n 13) || (Nat.leb 28 n && Nat.leb n 32))%bool.

Fixpoint lstrip (s : string) : string :=
  match s with
  | EmptyString => EmptyString
  | String c r => if is_space c then lstrip r else s
  end.

Fixpoint rstrip (s : string) : string :=
  match s with
  | EmptyString => EmptyString
  | String c r =>
      match rstrip r with
      | EmptyString => if is_space c then EmptyString else String c EmptyString
      | r' => String c r'
      end
  end.

(** [s.strip()] *)
Definition strip (s : string) : string := rstrip (lstrip s).

(** [s.partition(sep)] for a separator that occurs: the text before the
    first occurrence and the text after it; [None] when [sep] is absent. *)
Fixpoint partition (sep s : string) : option (string * string) :=
  if startswith s sep then Some (EmptyString, drop (String.length sep) s)
  else match s with
       | EmptyString => None
       | String c r =>
           match partition sep r with
           | Some (a, b) => Some (String c a, b)
           | None => None
           end
       end.

(** [sub in s] *)
Definition contains (s sub : string) : bool :=
  match partition sub s with Some _ => true | None => false end.

(** [s.split(sep, maxsplit)] with a non-empty [sep] *)
Fixpoint split_max (sep : string) (maxsplit : nat) (s : string) : list string :=
  match maxsplit with
  | O => [s]
  | S k =>
      match partition sep s with
      | None => [s]
      | Some (a, b) => a :: split_max sep k b
      end
  end.

(** [s.split(sep)] with a non-empty [sep]: no more splits than characters. *)
Definition split (sep s : string) : list string :=
  split_max sep (String.length s) s.

(** [sep.join(parts)] *)
Fixpoint join (sep : string) (parts : list string) : string :=
  match parts with
  | [] => EmptyString
  | [p] => p
  | p :: rest => p +:+ sep +:+ join sep rest
  end.

(** [s in [a, b, ...]] *)
Definition mem (s : string) (l : list string) : bool :=
  existsb (String.eqb s) l.

Definition newline : string := String (ascii_of_nat 10) EmptyString.

Definition LF : ascii := ascii_of_nat 10.
Definition CR : ascii := ascii_of_nat 13.

(** What reading in text mode makes of the stored text: with universal
    newlines a carriage return followed by a line feed, and a carriage
    return alone, are read as one line feed. *)
Fixpoint universal_newlines (s : string) : string :=
  match s with
  | EmptyString => EmptyString
  | String c r =>
      if Ascii.eqb c CR
      then match r with
           | String d r' =>
               if Ascii.eqb d LF then String LF (universal_newlines r')
               else String LF (universal_newlines r)
           | EmptyString => String LF EmptyString
           end
      else String c (universal_newlines r)
  end.

End PyStr.

(** ** Exceptions and outcomes *)

(** The exceptions the handlers of the source distinguish: [ToolError]
    (tool_registry.py) and every other class derived from [Exception],
    tagged with its class name.  [str(e)] is the message. *)
Inductive exn : Type :=
  | ToolError (msg : string)
  | PyException (cls : string) (msg : string).

Definition exn_str (e : exn) : string :=
  match e with
  | ToolError m => m
  | PyException _ m => m
  end.

Inductive outcome (A : Type) : Type :=
  | Return (a : A)
  | Raise (e : exn).
Arguments Return {A} a.
Arguments Raise {A} e.

(** Python's list slice [l[start:]]. *)
Definition slice_from {A : Type} (start : Z) (l : list A) : list A :=
  let n := Z.of_nat (length l) in
  let i := if start <? 0 then Z.max (n + start) 0 else Z.min start n in
  drop (Z.to_nat i) l.

(** ** schema/message.py and schema/memory.py *)

Module Schema.

(** [MessageRole]: a [str] enumeration; the members are their values. *)
Module MessageRole.
Definition SYSTEM : string := "system".
Definition USER : string := "user".
Definition ASSISTANT : string := "assistant".
Definition TOOL : string := "tool".
End MessageRole.

(** [AgentState]: a [str] enumeration; the members are their values. *)
Module AgentState.
Definition IDLE : string := "idle".
Definition RUNNING : string := "running".
Definition PAUSED : string := "paused".
Definition FINISHED : string := "finished".
Definition ERROR : string := "error".
End AgentState.

Record Message : Type := mkMessage {
  role : string;
  content : string;
  name : option string
}.

Record Memory : Type := mkMemory {
  messages : list Message;
  max_messages : Z
}.

(** [Memory._trim_memory] *)
Definition _trim_memory (m : Memory) : Memory :=
  if Z.of_nat (length (messages m)) >? max_messages m
  then mkMemory (slice_from (- max_messages m) (messages m)) (max_messages m)
  else m.

(** [Memory.add_message] *)
Definition add_message (m : Memory) (msg : Message) : Memory :=
  _trim_memory (mkMemory (messages m ++ [msg]) (max_messages m)).

(** A sequence of calls of [add_message], oldest first. *)
Definition add_messages (m : Memory) (msgs : list Message) : Memory :=
  fold_left add_message msgs m.

(** [Memory.clear] *)
Definition clear (m : Memory) : Memory := mkMemory [] (max_messages m).

(** The last [k] elements of a list, in their order. *)
Definition lastn {A : Type} (k : nat) (l : list A) : list A :=
  drop (length l - k) l.

End Schema.

(** ** tool/tool_registry.py *)

(** The values a tool receives as keyword arguments and returns in the
    [data] mapping of its result. *)
Inductive pyval : Type :=
  | VNone
  | VBool (b : bool)
  | VInt (z : Z)
  | VStr (s : string)
  | VList (l : list pyval)
  | VDict (d : list (string * pyval)).

(** Keyword arguments of a call, in the order they are written. *)
Definition kwargs : Type := list (string * pyval).

(** [d.get(key)] on a mapping kept as an association list. *)
Fixpoint assoc {A : Type} (key : string) (d : list (string * A)) : option A :=
  match d with
  | [] => None
  | (k, v) :: rest => if String.eqb k key then Some v else assoc key rest
  end.

(** ** Python values: truth value, [str.join], module globals *)

Module Py.

(** [bool(v)] *)
Definition truthy (v : pyval) : bool :=
  match v with
  | VNone => false
  | VBool b => b
  | VInt z => negb (z =? 0)
  | VStr s => negb (String.eqb s "")
  | VList l => match l with [] => false | _ => true end
  | VDict d => match d with [] => false | _ => true end
  end.

(** [type(v).__name__] *)
Definition type_name (v : pyval) : string :=
  match v with
  | VNone => "NoneType"
  | VBool _ => "bool"
  | VInt _ => "int"
  | VStr _ => "str"
  | VList _ => "list"
  | VDict _ => "dict"
  end.

Definition hex_digit (n : nat) : ascii :=
  ascii_of_nat (if (n <? 10)%nat then 48 + n else 87 + n).

(** [c.isprintable()] for a character below 256. *)
Definition is_printable (n : nat) : bool :=
  ((Nat.leb 32 n && Nat.ltb n 127) || (Nat.leb 161 n && negb (Nat.eqb n 173)))%bool.

(** One character inside [repr(s)] for the quote character [q]. *)
Definition repr_char (q c : ascii) : string :=
  let n := nat_of_ascii c in
  if (Ascii.eqb c q || Nat.eqb n 92)%bool then String (ascii_of_nat 92) (String c "")
  else if Nat.eqb n 9 then String (ascii_of_nat 92) "t"
  else if Nat.eqb n 10 then String (ascii_of_nat 92) "n"
  else if Nat.eqb n 13 then String (ascii_of_nat 92) "r"
  else if is_printable n then String c ""
  else String (ascii_of_nat 92)
         (String "x" (String (hex_digit (n / 16)) (String (hex_digit (n mod 16)) ""))).

Fixpoint has_char (c : ascii) (s : string) : bool :=
  match s with
  | EmptyString => false
  | String d r => (Ascii.eqb c d || has_char c r)%bool
  end.

Fixpoint repr_chars (q : ascii) (s : string) : string :=
  match s with
  | EmptyString => EmptyString
  | String c r => repr_char q c +:+ repr_chars q r
  end.

(** [repr(s)] for a text: in single quotes, or in double quotes when the
    text holds a single quote and no double quote. *)
Definition repr_str (s : string) : string :=
  let single := ascii_of_nat 39 in
  let double := ascii_of_nat 34 in
  let q := if (has_char single s && negb (has_char double s))%bool then double else single in
  String q (repr_chars q s +:+ String q "").

(** [repr(v)] *)
Fixpoint repr (v : pyval) : string :=
  match v with
  | VNone => "None"
  | VBool true => "True"
  | VBool false => "False"
  | VInt z => pretty z
  | VStr s => repr_str s
  | VList l => "[" +:+ PyStr.join ", " (map repr l) +:+ "]"
  | VDict d =>
      "{" +:+ PyStr.join ", "
                (map (fun kv => match kv with
                                | (k, x) => repr_str k +:+ ": " +:+ repr x
                                end) d)
          +:+ "}"
  end.

(** [str(v)], which is also what an f-string makes of [v]. *)
Definition str (v : pyval) : string :=
  match v with
  | VStr s => s
  | _ => repr v
  end.

(** The items of the iterable handed to [sep.join]: every one has to be a
    [str]; the first that is not raises [TypeError]. *)
Fixpoint join_items (i : nat) (items : list pyval) : outcome (list string) :=
  match items with
  | [] => Return []
  | VStr s :: rest =>
      match join_items (S i) rest with
      | Return ss => Return (s :: ss)
      | Raise e => Raise e
      end
  | v :: _ =>
      Raise (PyException "TypeError"
               ("sequence item " +:+ pretty i +:+ ": expected str instance, "
                  +:+ type_name v +:+ " found"))
  end.

Fixpoint chars (s : string) : list string :=
  match s with
  | EmptyString => []
  | String c r => String c EmptyString :: chars r
  end.

(** [sep.join(v)] *)
Definition str_join (sep : string) (v : pyval) : outcome string :=
  match v with
  | VList l =>
      match join_items 0 l with
      | Return ss => Return (PyStr.join sep ss)
      | Raise e => Raise e
      end
  | VStr s => Return (PyStr.join sep (chars s))
  | VDict d => Return (PyStr.join sep (map fst d))
  | _ => Raise (PyException "TypeError" "can only join an iterable")
  end.

(** Evaluating a global name in a module whose top level binds [globals]
    (no builtin is called [logger]). *)
Definition load_global (globals : list string) (n : string) : outcome unit :=
  if PyStr.mem n globals then Return tt
  else Raise (PyException "NameError" ("name '" +:+ n +:+ "' is not defined")).

End Py.

Module Tool.

Record ToolResult : Type := mkToolResult {
  success : bool;
  output : string;
  data : option (list (string * pyval))
}.

Section WithWorld.
Context {W : Type}.

(** A tool instance: its name and description, what [execute] called with
    keyword arguments does to the world [W] the tools act on (the world
    after the call is returned also when the call raises), and what
    [get_parameters_schema()] evaluates to. *)
Record BaseTool : Type := mkTool {
  name : string;
  description : string;
  execute : kwargs -> W -> outcome ToolResult * W;
  get_parameters_schema : outcome pyval
}.

(** [BaseTool.to_param] *)
Definition to_param (tool : BaseTool) : outcome pyval :=
  match get_parameters_schema tool with
  | Raise e => Raise e
  | Return schema =>
      Return (VDict [("type", VStr "function");
                     ("function", VDict [("name", VStr (name tool));
                                         ("description", VStr (description tool));
                                         ("parameters", schema)])])
  end.

End WithWorld.
Arguments BaseTool W : clear implicits.

End Tool.

Module Registry.

Section WithWorld.
Context {W : Type}.

(** [ToolRegistry.tools]: a [dict], which keeps its keys in the order of
    their first insertion. *)
Definition ToolRegistry : Type := list (string * Tool.BaseTool W).

(** [self.tools[key] = tool] *)
Fixpoint dict_set (key : string) (tool : Tool.BaseTool W) (reg : ToolRegistry)
  : ToolRegistry :=
  match reg with
  | [] => [(key, tool)]
  | (k, t) :: rest =>
      if String.eqb k key then (k, tool) :: rest else (k, t) :: dict_set key tool rest
  end.

(** [ToolRegistry.register] *)
Definition register (reg : ToolRegistry) (tool : Tool.BaseTool W) : ToolRegistry :=
  dict_set (Tool.name tool) tool reg.

(** [ToolRegistry.get] *)
Definition get (reg : ToolRegistry) (tool_name : string) : option (Tool.BaseTool W) :=
  assoc tool_name reg.

(** [ToolRegistry.list_tools] *)
Definition list_tools (reg : ToolRegistry) : list string := map fst reg.

(** [ToolRegistry.get_tools_description] *)
Definition get_tools_description (reg : ToolRegistry) : string :=
  PyStr.join PyStr.newline
    (map (fun kt => "- " +:+ Tool.name (snd kt) +:+ ": " +:+ Tool.description (snd kt)) reg).

(** [ToolRegistry.to_params] *)
Fixpoint to_params (reg : ToolRegistry) : outcome (list pyval) :=
  match reg with
  | [] => Return []
  | (_, tool) :: rest =>
      match Tool.to_param tool with
      | Raise e => Raise e
      | Return p =>
          match to_params rest with
          | Raise e => Raise e
          | Return ps => Return (p :: ps)
          end
      end
  end.

(** The keywords of a call [registry.execute(tool_name, k=v, ...)] that
    name a parameter the call has bound already: [self], bound by the
    method call, and [name], bound by the positional argument.  The
    signature is [execute(self, name, **kwargs)]. *)
Definition bound_twice (kw : kwargs) : list string :=
  List.filter (fun k => String.eqb k "self" || String.eqb k "name") (map fst kw).

(** [ToolRegistry.execute]: the call binds its arguments first, and raises
    [TypeError] for the first keyword that names [self] or [name]; the
    other keywords are passed on to the tool. *)
Definition execute (reg : ToolRegistry) (tool_name : string) (kw : kwargs) (w : W)
  : outcome Tool.ToolResult * W :=
  match bound_twice kw with
  | k :: _ =>
      (Raise (PyException "TypeError"
                ("ToolRegistry.execute() got multiple values for argument '"
                   +:+ k +:+ "'")), w)
  | [] =>
      match get reg tool_name with
      | None =>
          (Return (Tool.mkToolResult false
                     ("Tool '" +:+ tool_name +:+ "' not found. Available tools: "
                        +:+ PyStr.join ", " (list_tools reg))
                     None), w)
      | Some tool =>
          match Tool.execute tool kw w with
          | (Return r, w') => (Return r, w')
          | (Raise (ToolError m), w') => (Return (Tool.mkToolResult false m None), w')
          | (Raise e, w') =>
              (Return (Tool.mkToolResult false
                         ("Error executing tool '" +:+ tool_name +:+ "': " +:+ exn_str e)
                         None), w')
          end
      end
  end.

End WithWorld.
Arguments ToolRegistry W : clear implicits.

End Registry.

(** ** Binding keyword arguments to the parameters of a function *)

Module Call.

(** The parameters a function declares after [self]: the name and, when
    the parameter has one, its default value. *)
Definition signature : Type := list (string * option pyval).

Definition quote (s : string) : string := "'" +:+ s +:+ "'".

(** The list of names in the message for missing arguments. *)
Fixpoint name_list (names : list string) : string :=
  match names with
  | [] => ""
  | [a] => quote a
  | [a; b] => quote a +:+ " and " +:+ quote b
  | a :: rest =>
      match rest with
      | [b] => quote a +:+ ", and " +:+ quote b
      | _ => quote a +:+ ", " +:+ name_list rest
      end
  end.

Definition missing (sig : signature) (kw : kwargs) : list string :=
  map fst (List.filter (fun p => match snd p, assoc (fst p) kw with
                                 | None, None => true
                                 | _, _ => false
                                 end) sig).

Definition bound_value (kw : kwargs) (p : string * option pyval) : string * pyval :=
  match assoc (fst p) kw, snd p with
  | Some v, _ => (fst p, v)
  | None, Some d => (fst p, d)
  | None, None => (fst p, VNone)
  end.

(** A call with keyword arguments [kw] of a function named [fname] without a catch-all
    parameter: a keyword that is no parameter raises [TypeError], then a
    parameter without default and without argument does; otherwise every
    parameter gets its argument or its default. *)
Definition bind (fname : string) (sig : signature) (kw : kwargs)
  : outcome (list (string * pyval)) :=
  match List.filter (fun k => match assoc k sig with None => true | Some _ => false end)
          (map fst kw) with
  | k :: _ =>
      Raise (PyException "TypeError"
               (fname +:+ "() got an unexpected keyword argument " +:+ quote k))
  | [] =>
      match missing sig kw with
      | [] => Return (map (bound_value kw) sig)
      | ms =>
          Raise (PyException "TypeError"
                   (fname +:+ "() missing " +:+ pretty (length ms)
                      +:+ " required positional argument"
                      +:+ (if Nat.eqb (length ms) 1 then "" else "s")
                      +:+ ": " +:+ name_list ms))
      end
  end.

(** The value bound to parameter [p] after a successful [bind]. *)
Definition arg (p : string) (bound : list (string * pyval)) : pyval :=
  match assoc p bound with Some v => v | None => VNone end.

End Call.

(** ** tool/file_operations.py *)

Module Files.

(** A resolved path: the components below the root [/]. *)
Definition Path : Type := list string.

(** What a file holds: text that decodes as UTF-8, or bytes that do not
    (only their number matters). *)
Inductive file_content : Type :=
  | Text (s : string)
  | Binary (size : nat).

Inductive node : Type :=
  | File (c : file_content)
  | Dir.

(** The file system: the nodes below the root, by path.  There are no
    symbolic links, so resolving a path is normalising it.  The calls on
    the file system are modelled for names and path texts within the
    length limits of the operating system, beyond which they fail with
    [OSError]; the properties that need it ask for [FileSpec.plain]. *)
Abbreviation FS := (gmap (list string) node).

(** [str(path)] *)
Definition path_str (p : Path) : string := "/" +:+ PyStr.join "/" p.

(** The components of a path text, as [pathlib] parses it: empty
    components and [.] are dropped. *)
Definition parts (s : string) : list string :=
  List.filter (fun c => negb (String.eqb c "") && negb (String.eqb c "."))%bool
    (PyStr.split "/" s).

(** [base / s]: an absolute [s] replaces [base]. *)
Definition joinpath (base : Path) (s : string) : Path :=
  if PyStr.startswith s "/" then parts s else (base ++ parts s)%list.

(** [p.resolve()]: [..] steps to the parent, and the parent of the root is
    the root. *)
Definition resolve (p : Path) : Path :=
  fold_left (fun acc c => if String.eqb c ".." then removelast acc else (acc ++ [c])%list) p [].

(** Whether a text holds the NUL character. *)
Fixpoint has_nul (s : string) : bool :=
  match s with
  | EmptyString => false
  | String c r => (Ascii.eqb c Ascii.zero || has_nul r)%bool
  end.

(** [p.resolve()] as a call: the operating system is asked about the path,
    and refuses a path text that holds a NUL character with [ValueError],
    also when the component that holds it is cancelled by a later [..]. *)
Definition resolve_checked (p : Path) : outcome Path :=
  if existsb has_nul p
  then Raise (PyException "ValueError" "embedded null byte")
  else Return (resolve p).

(** [p.parent] *)
Definition parent (p : Path) : Path := removelast p.

(** [p.relative_to(base)]: the text of the relative path, or [ValueError]. *)
Fixpoint strip_prefix (base p : Path) : option Path :=
  match base, p with
  | [], _ => Some p
  | b :: base', c :: p' => if String.eqb b c then strip_prefix base' p' else None
  | _ :: _, [] => None
  end.

Definition relative_to (p base : Path) : outcome string :=
  match strip_prefix base p with
  | Some [] => Return "."
  | Some rel => Return (PyStr.join "/" rel)
  | None =>
      Raise (PyException "ValueError"
               (Call.quote (path_str p) +:+ " is not in the subpath of "
                  +:+ Call.quote (path_str base)))
  end.

Definition stat (fs : FS) (p : Path) : option node :=
  match p with
  | [] => Some Dir
  | _ => fs !! p
  end.

Definition path_exists (fs : FS) (p : Path) : bool :=
  match stat fs p with Some _ => true | None => false end.

Definition is_file (fs : FS) (p : Path) : bool :=
  match stat fs p with Some (File _) => true | _ => false end.

Definition is_dir (fs : FS) (p : Path) : bool :=
  match stat fs p with Some Dir => true | _ => false end.

Definition os_error (cls : string) (errno : string) (what : string) (p : Path) : exn :=
  PyException cls ("[Errno " +:+ errno +:+ "] " +:+ what +:+ ": " +:+ Call.quote (path_str p)).

(** [os.mkdir(p)] *)
Definition mkdir (fs : FS) (p : Path) : outcome unit * FS :=
  match stat fs p with
  | Some _ => (Raise (os_error "FileExistsError" "17" "File exists" p), fs)
  | None =>
      match stat fs (parent p) with
      | Some Dir => (Return tt, <[p := Dir]> fs)
      | Some (File _) => (Raise (os_error "NotADirectoryError" "20" "Not a directory" p), fs)
      | None => (Raise (os_error "FileNotFoundError" "2" "No such file or directory" p), fs)
      end
  end.

(** The proper ancestors of [done ++ todo] below [done], nearest to the
    root first, followed by the path itself. *)
Fixpoint prefixes (done : Path) (todo : list string) : list Path :=
  match todo with
  | [] => []
  | c :: rest => (done ++ [c])%list :: prefixes (done ++ [c])%list rest
  end.

(** [os.makedirs(p, exist_ok=True)]: the ancestors that do not exist are
    made, then the directory itself, where an error is absorbed when the
    directory is there. *)
Fixpoint makedirs_along (fs : FS) (ps : list Path) : outcome unit * FS :=
  match ps with
  | [] => (Return tt, fs)
  | [p] =>
      match mkdir fs p with
      | (Raise e, fs') => if is_dir fs' p then (Return tt, fs') else (Raise e, fs')
      | r => r
      end
  | q :: rest =>
      if path_exists fs q then makedirs_along fs rest
      else match mkdir fs q with
           | (Raise e, fs') => (Raise e, fs')
           | (Return _, fs') => makedirs_along fs' rest
           end
  end.

Definition makedirs (fs : FS) (p : Path) : outcome unit * FS :=
  makedirs_along fs (prefixes [] p).

(** [open(p, "w")] followed by [f.write(content)]: the file is created or
    emptied by the opening, and a content that is no [str] is refused by
    the writing. *)
Definition write_text (fs : FS) (p : Path) (content : pyval) : outcome unit * FS :=
  match stat fs p with
  | Some Dir => (Raise (os_error "IsADirectoryError" "21" "Is a directory" p), fs)
  | _ =>
      match stat fs (parent p) with
      | Some Dir =>
          match content with
          | VStr s => (Return tt, <[p := File (Text s)]> fs)
          | v => (Raise (PyException "TypeError"
                           ("write() argument must be str, not " +:+ Py.type_name v)),
                  <[p := File (Text "")]> fs)
          end
      | Some (File _) => (Raise (os_error "NotADirectoryError" "20" "Not a directory" p), fs)
      | None => (Raise (os_error "FileNotFoundError" "2" "No such file or directory" p), fs)
      end
  end.

(** The entries of a directory ([iterdir]), in the order of the map. *)
Definition children (fs : FS) (p : Path) : list (Path * node) :=
  List.filter (fun kv => bool_decide (fst kv <> [] /\ parent (fst kv) = p)) (map_to_list fs).

Definition is_below (p q : Path) : bool :=
  match strip_prefix p q with
  | Some (_ :: _) => true
  | _ => false
  end.

(** [p.glob] with the pattern of the source, which matches everything
    below [p]: the entries of [p], then what the pattern yields below each
    directory among them in turn, so that a directory comes before what is
    below it.  The depth of the walk is bounded by the number of entries
    of the file system. *)
Fixpoint walk (depth : nat) (fs : FS) (p : Path) : list (Path * node) :=
  match depth with
  | O => []
  | S d =>
      (children fs p
         ++ flat_map (fun kv => match snd kv with
                                | Dir => walk d fs (fst kv)
                                | File _ => []
                                end) (children fs p))%list
  end.

Definition descendants (fs : FS) (p : Path) : list (Path * node) :=
  walk (S (size fs)) fs p.

(** [shutil.rmtree(p)] and [os.remove(p)] *)
Definition rmtree (fs : FS) (p : Path) : FS :=
  filter (fun kv => strip_prefix p (fst kv) = None) fs.

Definition remove (fs : FS) (p : Path) : FS := delete p fs.

Definition st_size (c : file_content) : nat :=
  match c with
  | Text s => String.length s
  | Binary n => n
  end.

Section Tool.
Variable base_dir : Path.

Definition ok (out : string) (d : list (string * pyval)) : outcome Tool.ToolResult :=
  Return (Tool.mkToolResult true out (Some d)).

(** [FileOperationsTool._read_file] *)
Definition _read_file (fs : FS) (path : Path) : outcome Tool.ToolResult * FS :=
  if negb (path_exists fs path) then (Raise (ToolError ("File not found: " +:+ path_str path)), fs)
  else if negb (is_file fs path) then (Raise (ToolError ("Not a file: " +:+ path_str path)), fs)
  else match stat fs path with
       | Some (File (Text stored)) =>
           let content := PyStr.universal_newlines stored in
           (ok ("File content:" +:+ PyStr.newline +:+ PyStr.newline +:+ content)
               [("content", VStr content); ("path", VStr (path_str path))], fs)
       | _ => (Raise (ToolError ("Cannot read binary file: " +:+ path_str path)), fs)
       end.

(** [FileOperationsTool._write_file] *)
Definition _write_file (fs : FS) (path : Path) (content : pyval) : outcome Tool.ToolResult * FS :=
  match content with
  | VNone => (Raise (ToolError "Content is required for write operation"), fs)
  | _ =>
      match makedirs fs (parent path) with
      | (Raise e, fs1) => (Raise e, fs1)
      | (Return _, fs1) =>
          match write_text fs1 path content with
          | (Raise e, fs2) => (Raise e, fs2)
          | (Return _, fs2) =>
              let n := match content with VStr s => String.length s | _ => O end in
              (ok ("Successfully wrote " +:+ pretty n +:+ " characters to " +:+ path_str path)
                  [("path", VStr (path_str path)); ("size", VInt (Z.of_nat n))], fs2)
          end
      end
  end.

(** One entry of a listing: its path relative to [base_dir], its kind and,
    for a file, its size. *)
Definition entry (item : Path * node) : outcome pyval :=
  match relative_to (fst item) base_dir with
  | Raise e => Raise e
  | Return rel =>
      Return (VDict [("path", VStr rel);
                     ("type", VStr (match snd item with File _ => "file" | Dir => "directory" end));
                     ("size", match snd item with
                              | File c => VInt (Z.of_nat (st_size c))
                              | Dir => VNone
                              end)])
  end.

Fixpoint entries (items : list (Path * node)) : outcome (list pyval) :=
  match items with
  | [] => Return []
  | item :: rest =>
      match entry item with
      | Raise e => Raise e
      | Return v =>
          match entries rest with
          | Raise e => Raise e
          | Return vs => Return (v :: vs)
          end
      end
  end.

(** One line of the listing text. *)
Definition entry_line (item : pyval) : string :=
  match item with
  | VDict d =>
      let type_indicator :=
        match assoc "type" d with Some (VStr "directory") => "[DIR]" | _ => "[FILE]" end in
      let size_info :=
        match assoc "size" d with
        | Some (VInt n) => " (" +:+ pretty n +:+ " bytes)"
        | _ => ""
        end in
      let p := match assoc "path" d with Some (VStr p) => p | _ => "" end in
      type_indicator +:+ " " +:+ p +:+ size_info +:+ PyStr.newline
  | _ => ""
  end.

(** [FileOperationsTool._list_files] *)
Definition _list_files (fs : FS) (path : Path) (recursive : pyval) : outcome Tool.ToolResult * FS :=
  if negb (path_exists fs path) then (Raise (ToolError ("Directory not found: " +:+ path_str path)), fs)
  else if negb (is_dir fs path) then (Raise (ToolError ("Not a directory: " +:+ path_str path)), fs)
  else
    let items := if Py.truthy recursive then descendants fs path else children fs path in
    match entries items with
    | Raise e => (Raise e, fs)
    | Return files =>
        (ok (fold_left (fun out item => out +:+ entry_line item) files
               ("Contents of " +:+ path_str path +:+ ":" +:+ PyStr.newline +:+ PyStr.newline))
            [("path", VStr (path_str path)); ("files", VList files)], fs)
    end.

(** [FileOperationsTool._check_exists] *)
Definition _check_exists (fs : FS) (path : Path) : outcome Tool.ToolResult * FS :=
  let exists_ := path_exists fs path in
  let type_str :=
    if exists_ then (if is_file fs path then "file"
                    else if is_dir fs path then "directory" else "")
    else "" in
  (ok ((if exists_ then "Path exists" else "Path does not exist") +:+ ": "
         +:+ path_str path +:+ " "
         +:+ (if String.eqb type_str "" then "" else "(" +:+ type_str +:+ ")"))
      [("exists", VBool exists_); ("type", VStr type_str); ("path", VStr (path_str path))], fs).

(** [FileOperationsTool._delete_file] *)
Definition _delete_file (fs : FS) (path : Path) (recursive : pyval) : outcome Tool.ToolResult * FS :=
  if negb (path_exists fs path) then (Raise (ToolError ("Path not found: " +:+ path_str path)), fs)
  else if is_file fs path
  then (ok ("File deleted: " +:+ path_str path)
           [("path", VStr (path_str path)); ("type", VStr "file")], remove fs path)
  else if is_dir fs path
  then if negb (Py.truthy recursive)
       then (Raise (ToolError ("Cannot delete directory without recursive=True: "
                                 +:+ path_str path)), fs)
       else (ok ("Directory deleted: " +:+ path_str path)
                [("path", VStr (path_str path)); ("type", VStr "directory")], rmtree fs path)
  else (Raise (ToolError ("Unknown file type: " +:+ path_str path)), fs).

(** The [try] of [execute]: a [ToolError] passes, any other exception is
    wrapped into one. *)
Definition wrap_errors (r : outcome Tool.ToolResult * FS) : outcome Tool.ToolResult * FS :=
  match r with
  | (Raise (PyException _ m), fs) => (Raise (ToolError ("Error during file operation: " +:+ m)), fs)
  | _ => r
  end.

(** [FileOperationsTool.execute(operation, path, content, recursive)] *)
Definition execute (operation path content recursive : pyval) (fs : FS)
  : outcome Tool.ToolResult * FS :=
  match makedirs fs base_dir with
  | (Raise e, fs1) => (Raise e, fs1)
  | (Return _, fs1) =>
      match path with
      | VStr path =>
          match resolve_checked (joinpath base_dir path) with
          | Raise e => (Raise e, fs1)
          | Return full_path =>
              if negb (PyStr.startswith (path_str full_path) (path_str base_dir))
              then (Raise (ToolError ("Access denied: Path must be within "
                                        +:+ path_str base_dir)), fs1)
              else wrap_errors
                     match operation with
                     | VStr "read" => _read_file fs1 full_path
                     | VStr "write" => _write_file fs1 full_path content
                     | VStr "list" => _list_files fs1 full_path recursive
                     | VStr "exists" => _check_exists fs1 full_path
                     | VStr "delete" => _delete_file fs1 full_path recursive
                     | v => (Raise (ToolError ("Unknown operation: " +:+ Py.str v)), fs1)
                     end
          end
      | v =>
          (Raise (PyException "TypeError"
                    ("unsupported operand type(s) for /: 'PosixPath' and "
                       +:+ Call.quote (Py.type_name v))), fs1)
      end
  end.

(** The parameters of [execute] and their defaults. *)
Definition execute_signature : Call.signature :=
  [("operation", None); ("path", None); ("content", Some VNone);
   ("recursive", Some (VBool false))].

(** [execute] called with keyword arguments, as the registry and the agent
    call it. *)
Definition execute_kw (kw : kwargs) (fs : FS) : outcome Tool.ToolResult * FS :=
  match Call.bind "FileOperationsTool.execute" execute_signature kw with
  | Raise e => (Raise e, fs)
  | Return b =>
      execute (Call.arg "operation" b) (Call.arg "path" b)
              (Call.arg "content" b) (Call.arg "recursive" b) fs
  end.

(** [FileOperationsTool.get_parameters_schema] *)
Definition parameters_schema : pyval :=
  VDict [("type", VStr "object");
         ("properties",
           VDict [("operation",
                    VDict [("type", VStr "string");
                           ("enum", VList [VStr "read"; VStr "write"; VStr "list";
                                           VStr "exists"; VStr "delete"]);
                           ("description", VStr "The operation to perform")]);
                  ("path",
                    VDict [("type", VStr "string");
                           ("description",
                             VStr "The file or directory path (relative to base_dir)")]);
                  ("content",
                    VDict [("type", VStr "string");
                           ("description", VStr "Content to write (for write operation)")]);
                  ("recursive",
                    VDict [("type", VStr "boolean");
                           ("description",
                             VStr "Whether to operate recursively (for list/delete operations)");
                           ("default", VBool false)])]);
         ("required", VList [VStr "operation"; VStr "path"])].

(** The tool instance, as it is registered. *)
Definition FileOperationsTool : Tool.BaseTool FS :=
  Tool.mkTool "file_operations"
    "Perform file operations like reading, writing, listing files, etc."
    execute_kw (Return parameters_schema).

End Tool.

End Files.

(** ** tool/terminal.py *)

Module Terminal.

(** [os.path.isabs] *)
Definition isabs (path : string) : bool := PyStr.startswith path "/".

Fixpoint endswith_slash (s : string) : bool :=
  match s with
  | EmptyString => false
  | String c EmptyString => Ascii.eqb c "/"
  | String _ r => endswith_slash r
  end.

(** [os.path.join(a, b)] *)
Definition join (a b : string) : string :=
  if PyStr.startswith b "/" then b
  else if (String.eqb a "" || endswith_slash a)%bool then a +:+ b
  else a +:+ "/" +:+ b.

(** The loop of [os.path.normpath] over the components. *)
Definition norm_step (initial_slashes : nat) (new_comps : list string) (comp : string)
  : list string :=
  if (String.eqb comp "" || String.eqb comp ".")%bool then new_comps
  else if (negb (String.eqb comp "..")
           || (Nat.eqb initial_slashes 0 && match new_comps with [] => true | _ => false end)
           || match last new_comps with Some c => String.eqb c ".." | None => false end)%bool
  then (new_comps ++ [comp])%list
  else removelast new_comps.

Fixpoint slashes (n : nat) : string :=
  match n with
  | O => ""
  | S k => "/" +:+ slashes k
  end.

(** [os.path.normpath] *)
Definition normpath (path : string) : string :=
  if String.eqb path "" then "."
  else
    let initial_slashes :=
      if PyStr.startswith path "/"
      then (if (PyStr.startswith path "//" && negb (PyStr.startswith path "///"))%bool
            then 2%nat else 1%nat)
      else 0%nat in
    let comps := fold_left (norm_step initial_slashes) (PyStr.split "/" path) [] in
    let joined := slashes initial_slashes +:+ PyStr.join "/" comps in
    if String.eqb joined "" then "." else joined.

(** What the tool can observe and change outside itself: the file system,
    the working directory of the process ([os.getcwd], [os.chdir]) and the
    commands handed to a subprocess shell, each with its working
    directory, oldest first. *)
Record world : Type := mkWorld {
  fs : Files.FS;
  cwd : string;
  spawned : list (string * string)
}.

(** [os.path.abspath] *)
Definition abspath (w : world) (path : string) : string :=
  normpath (if isabs path then path else join (cwd w) path).

(** The node a path text names: a relative text is read from the working
    directory of the process. *)
Definition locate (w : world) (path : string) : Files.Path :=
  Files.resolve (Files.joinpath (Files.parts (cwd w)) path).

(** [os.path.exists] *)
Definition exists_ (w : world) (path : string) : bool :=
  Files.path_exists (fs w) (locate w path).

(** [os.chdir]: only a directory can become the working directory. *)
Definition chdir (w : world) (path : string) : outcome unit * world :=
  match Files.stat (fs w) (locate w path) with
  | Some Files.Dir =>
      (Return tt, mkWorld (fs w) (Files.path_str (locate w path)) (spawned w))
  | Some (Files.File _) =>
      (Raise (PyException "NotADirectoryError"
                ("[Errno 20] Not a directory: " +:+ Call.quote path)), w)
  | None =>
      (Raise (PyException "FileNotFoundError"
                ("[Errno 2] No such file or directory: " +:+ Call.quote path)), w)
  end.

(** The bytes a subprocess wrote to a pipe: text encoded as UTF-8, or
    bytes (at least one) that do not decode, with the text of the decoding
    error, which names the first offending byte and its position. *)
Inductive pybytes : Type :=
  | Utf8 (s : string)
  | Undecodable (reason : string).

(** [bool(b)] and [b.decode()] *)
Definition nonempty (b : pybytes) : bool :=
  match b with
  | Utf8 s => negb (String.eqb s "")
  | Undecodable _ => true
  end.

Definition decode (b : pybytes) : outcome string :=
  match b with
  | Utf8 s => Return s
  | Undecodable reason => Raise (PyException "UnicodeDecodeError" reason)
  end.

(** What a subprocess leaves behind. *)
Record completed : Type := mkCompleted {
  returncode : Z;
  stdout : pybytes;
  stderr : pybytes
}.

Section Tool.

(** The operating system running a shell command in a working directory:
    spawning can fail, and a command that ran leaves its exit status, its
    two output streams and a file system. *)
Variable shell : string -> string -> Files.FS -> outcome completed * Files.FS.

(** [asyncio.create_subprocess_shell(cmd, ..., cwd=path)] followed by
    [process.communicate()]. *)
Definition subprocess (cmd path : string) (w : world) : outcome completed * world :=
  let w1 := mkWorld (fs w) (cwd w) (spawned w ++ [(cmd, path)])%list in
  match shell cmd path (fs w1) with
  | (r, fs') => (r, mkWorld fs' (cwd w1) (spawned w1))
  end.

(** The variables of the loop of [execute]: the stored path of the tool
    instance, the world, and the two texts collected so far. *)
Record loop : Type := mkLoop {
  current_path : string;
  env : world;
  final_output : string;
  final_error : string
}.

(** The [cd] branch of the loop body. *)
Definition change_directory (cmd : string) (l : loop) : loop :=
  let path := PyStr.strip (PyStr.drop 3 cmd) in
  let path := if negb (isabs path) then join (current_path l) path else path in
  let path := abspath (env l) path in
  if negb (exists_ (env l) path)
  then mkLoop (current_path l) (env l) (final_output l)
         (final_error l +:+ "Directory not found: " +:+ path +:+ PyStr.newline)
  else match chdir (env l) path with
       | (Return _, w') =>
           mkLoop path w'
             (final_output l +:+ "Changed directory to " +:+ path +:+ PyStr.newline)
             (final_error l)
       | (Raise e, w') =>
           mkLoop (current_path l) w' (final_output l)
             (final_error l +:+ "Error changing directory: " +:+ exn_str e +:+ PyStr.newline)
       end.

(** The directory a [cd] segment names: the value of [path] after the
    three assignments of the branch. *)
Definition cd_target (cmd : string) (l : loop) : string :=
  let path := PyStr.strip (PyStr.drop 3 cmd) in
  abspath (env l) (if negb (isabs path) then join (current_path l) path else path).

(** The other branch of the loop body; an exception leaves the loop. *)
Definition run_subprocess (cmd : string) (l : loop) : outcome unit * loop :=
  match subprocess cmd (current_path l) (env l) with
  | (Raise e, w') => (Raise e, mkLoop (current_path l) w' (final_output l) (final_error l))
  | (Return done, w') =>
      let after_stdout :=
        if nonempty (stdout done)
        then match decode (stdout done) with
             | Return s => Return (final_output l +:+ s +:+ PyStr.newline)
             | Raise e => Raise e
             end
        else Return (final_output l) in
      match after_stdout with
      | Raise e => (Raise e, mkLoop (current_path l) w' (final_output l) (final_error l))
      | Return out =>
          if nonempty (stderr done)
          then match decode (stderr done) with
               | Return s =>
                   (Return tt, mkLoop (current_path l) w' out
                                 (final_error l +:+ s +:+ PyStr.newline))
               | Raise e => (Raise e, mkLoop (current_path l) w' out (final_error l))
               end
          else (Return tt, mkLoop (current_path l) w' out (final_error l))
      end
  end.

(** One turn of the loop. *)
Definition segment (cmd : string) (l : loop) : outcome unit * loop :=
  if PyStr.startswith cmd "cd " then (Return tt, change_directory cmd l)
  else run_subprocess cmd l.

(** [for cmd in commands: ...] *)
Fixpoint run_commands (commands : list string) (l : loop) : outcome unit * loop :=
  match commands with
  | [] => (Return tt, l)
  | cmd :: rest =>
      match segment cmd l with
      | (Return _, l') => run_commands rest l'
      | (Raise e, l') => (Raise e, l')
      end
  end.

(** [[cmd.strip() for cmd in command.split("&") if cmd.strip()]] *)
Definition commands_of (command : string) : list string :=
  List.filter (fun c => negb (String.eqb c ""))
    (map PyStr.strip (PyStr.split "&" command)).

(** [TerminalTool.execute(command)] on an instance whose stored path is
    [path]: the result, the stored path afterwards and the world
    afterwards. *)
Definition execute (command : string) (path : string) (w : world)
  : Tool.ToolResult * string * world :=
  match run_commands (commands_of command) (mkLoop path w "" "") with
  | (Return _, l) =>
      (Tool.mkToolResult true (PyStr.strip (final_output l))
         (Some [("error", VStr (PyStr.strip (final_error l)));
                ("current_path", VStr (current_path l))]),
       current_path l, env l)
  | (Raise e, l) =>
      (Tool.mkToolResult false ("Error executing command: " +:+ exn_str e) None,
       current_path l, env l)
  end.

End Tool.

End Terminal.

(** ** tool/python_execute.py *)

Module PythonExecute.

(** What the code text does once the worker runs it: it ends after some
    seconds having printed a text; it raises, after some seconds, an
    exception of a class derived from [Exception]; it ends the worker
    itself after some seconds, by an exception that [except Exception]
    does not catch ([SystemExit]) or by a crash; or it never ends. *)
Inductive course : Type :=
  | Completes (seconds : nat) (printed : string)
  | Fails (seconds : nat) (printed : string) (e : exn)
  | Exits (seconds : nat) (printed : string)
  | Hangs.

(** What running a code text in the worker amounts to: the course it
    takes, and whether it makes the worker ignore the signal SIGTERM.  The
    code is taken to act on its own process only: it leaves the parent
    process, the manager process and the shared dictionary alone. *)
Record behaviour : Type := mkBehaviour {
  run : course;
  ignores_sigterm : bool
}.

(** The shared [result_dict]. *)
Record result_dict : Type := mkResult {
  observation : string;
  success : bool
}.

(** [PythonExecuteTool._run_code]: when the worker ends, after how many
    seconds and what the shared dictionary holds then.  A worker that the
    code itself ends stores nothing. *)
Definition _run_code (c : course) (d : result_dict) : option (nat * result_dict) :=
  match c with
  | Completes t printed => Some (t, mkResult printed true)
  | Fails t _ e => Some (t, mkResult (exn_str e) false)
  | Exits t _ => Some (t, d)
  | Hangs => None
  end.

Inductive status : Type :=
  | Initial
  | Started
  | Exited
  | Killed.

(** A [multiprocessing.Process]: its status, what its target does, for
    how many seconds it has run, and the shared dictionary. *)
Record process : Type := mkProcess {
  stat : status;
  target : behaviour;
  clock : nat;
  shared : result_dict
}.

(** [process.is_alive()] *)
Definition is_alive (p : process) : bool :=
  match stat p with Started => true | _ => false end.

(** [process.terminate()]: the worker is sent SIGTERM, which ends it unless
    it ignores the signal. *)
Definition terminate (p : process) : process :=
  if is_alive p
  then if ignores_sigterm (target p) then p
       else mkProcess Killed (target p) (clock p) (shared p)
  else p.

(** [process.start()]; the operating system may refuse. *)
Definition start (refusal : option exn) (p : process) : outcome unit * process :=
  match refusal with
  | Some e => (Raise e, p)
  | None => (Return tt, mkProcess Started (target p) 0 (shared p))
  end.

(** [process.join(timeout)]: wait until the worker has ended, at most
    [timeout] seconds; a timeout that is not positive does not wait.  A
    worker that needs [t] seconds has ended once more than [t] seconds have
    passed.  Without a timeout the wait for a live worker that never ends
    does not return, which is [None]. *)
Definition join (timeout : option Z) (p : process) : option process :=
  match stat p with
  | Started =>
      match _run_code (run (target p)) (shared p), timeout with
      | Some (t, d), Some n =>
          if (t <? clock p + Z.to_nat n)%nat
          then Some (mkProcess Exited (target p) t d)
          else Some (mkProcess Started (target p) (clock p + Z.to_nat n) (shared p))
      | Some (t, d), None => Some (mkProcess Exited (target p) t d)
      | None, Some n => Some (mkProcess Started (target p) (clock p + Z.to_nat n) (shared p))
      | None, None => None
      end
  | _ => Some p
  end.

Definition failure (out : string) : Tool.ToolResult := Tool.mkToolResult false out None.

Section Tool.

(** What a code text does when it is run with the restricted globals. *)
Variable exec : string -> behaviour.

(** Whether the operating system refuses to start the manager process of
    the shared dictionary, and whether it refuses to start the worker. *)
Variable manager_refusal : option exn.
Variable refusal : option exn.

(** The [try] of [execute]. *)
Definition attempt (timeout : Z) (p : process) : option (outcome Tool.ToolResult * process) :=
  match start refusal p with
  | (Raise e, p1) => Some (Raise e, p1)
  | (Return _, p1) =>
      match join (Some timeout) p1 with
      | None => None
      | Some p2 =>
          if is_alive p2
          then match join None (terminate p2) with
               | None => None
               | Some p3 =>
                   Some (Return (failure ("Execution timed out after " +:+ pretty timeout
                                            +:+ " seconds")), p3)
               end
          else if success (shared p2)
          then Some (Return (Tool.mkToolResult true (observation (shared p2)) None), p2)
          else Some (Return (failure ("Error executing code: " +:+ observation (shared p2))), p2)
      end
  end.

(** [PythonExecuteTool.execute(code, timeout)]: the outcome and the worker
    process afterwards; [None] is a call that does not return.  The manager
    is created before the [try], so that its failure is raised. *)
Definition execute (code : string) (timeout : Z)
  : option (outcome Tool.ToolResult * process) :=
  let p := mkProcess Initial (exec code) 0 (mkResult "" false) in
  match manager_refusal with
  | Some e => Some (Raise e, p)
  | None =>
      match attempt timeout p with
      | None => None
      | Some (r, p') =>
          let r' := match r with
                    | Return res => res
                    | Raise e => failure ("Error: " +:+ exn_str e)
                    end in
          Some (Return r', if is_alive p' then terminate p' else p')
      end
  end.

End Tool.

End PythonExecute.

(** ** agent/base_agent.py and agent/reactive_agent.py *)

Module Agent.

(** The names bound at the top level of agent/base_agent.py: its imports
    and its class. *)
Definition base_agent_globals : list string :=
  ["ABC"; "abstractmethod"; "Dict"; "List"; "Optional"; "Any"; "BaseModel";
   "Field"; "LLM"; "Memory"; "AgentState"; "ToolRegistry"; "BaseAgent"].

(** The names bound at the top level of agent/reactive_agent.py. *)
Definition reactive_agent_globals : list string :=
  ["Dict"; "List"; "Optional"; "Any"; "Field"; "BaseAgent"; "Message";
   "MessageRole"; "logger"; "ReactiveAgent"].

Section WithWorld.
Context {W : Type}.

(** [LLM.ask(messages, system_prompt)], an external capability. *)
Definition LLM : Type := list Schema.Message -> string -> W -> outcome string * W.

(** The fields of [BaseAgent].  [state] is assigned plain strings by the
    source, so it is a [str] here. *)
Record BaseAgent : Type := mkAgent {
  name : string;
  description : string;
  system_prompt : string;
  llm : LLM;
  memory : Schema.Memory;
  tools : Registry.ToolRegistry W;
  state : string
}.

Definition set_state (a : BaseAgent) (s : string) : BaseAgent :=
  mkAgent (name a) (description a) (system_prompt a) (llm a) (memory a) (tools a) s.

(** [self.memory.add_message(Message(role=r, content=c))] *)
Definition remember (a : BaseAgent) (r c : string) : BaseAgent :=
  mkAgent (name a) (description a) (system_prompt a) (llm a)
    (Schema.add_message (memory a) (Schema.mkMessage r c None)) (tools a) (state a).

(** What a coroutine of the agent leaves behind: its outcome, the agent
    object and the world. *)
Definition result : Type := outcome string * BaseAgent * W.

Definition system_keywords : list string :=
  ["system status"; "system info"; "system information"].

(** [any(keyword in input_text.lower() for keyword in [...])] *)
Definition is_system_query (input_text : string) : bool :=
  existsb (PyStr.contains (PyStr.lower input_text)) system_keywords.

(** The tail shared by the tool branches of [next_step]: the response is
    appended to the memory as an assistant message and returned. *)
Definition respond (a : BaseAgent) (tool_response : string) (w : W) : result :=
  (Return tool_response, remember a Schema.MessageRole.ASSISTANT tool_response, w).

(** The browser branches of [next_step] ("search ", "navigate to ", "go to "). *)
Definition browser_search (a : BaseAgent) (input_text : string) (w : W) : result :=
  match Registry.get (tools a) "browser" with
  | Some browser_tool =>
      let search_term := PyStr.strip (PyStr.drop 7 input_text) in
      match Tool.execute browser_tool
              [("action", VStr "search"); ("query", VStr search_term)] w with
      | (Raise e, w') => (Raise e, a, w')
      | (Return tool_result, w') =>
          if Tool.success tool_result
          then respond a ("I've searched for '" +:+ search_term +:+ "' in the browser.") w'
          else (Return ("Failed to search: " +:+ Tool.output tool_result), a, w')
      end
  | None =>
      (Return "Browser tool is not available. Please make sure it's properly registered.", a, w)
  end.

Definition browser_navigate (a : BaseAgent) (input_text : string) (w : W) : result :=
  match Registry.get (tools a) "browser" with
  | Some browser_tool =>
      let url :=
        if PyStr.startswith (PyStr.lower input_text) "navigate to "
        then PyStr.strip (PyStr.drop 11 input_text)
        else PyStr.strip (PyStr.drop 6 input_text) in
      match Tool.execute browser_tool
              [("action", VStr "navigate"); ("url", VStr url)] w with
      | (Raise e, w') => (Raise e, a, w')
      | (Return tool_result, w') =>
          if Tool.success tool_result
          then respond a ("I've opened " +:+ url +:+ " in the browser.") w'
          else (Return ("Failed to navigate: " +:+ Tool.output tool_result), a, w')
      end
  | None =>
      (Return "Browser tool is not available. Please make sure it's properly registered.", a, w)
  end.

(** The "browser.open_url" branch. *)
Definition browser_open_url (a : BaseAgent) (input_text : string) (w : W) : result :=
  match Registry.get (tools a) "browser_use" with
  | Some browser_tool =>
      match PyStr.split_max " " 1 input_text with
      | _ :: rest :: _ =>
          let url := PyStr.strip rest in
          match Tool.execute browser_tool
                  [("action", VStr "navigate"); ("url", VStr url)] w with
          | (Raise e, w') => (Raise e, a, w')
          | (Return tool_result, w') =>
              if Tool.success tool_result
              then respond a ("Navigated to " +:+ url +:+ " in the browser.") w'
              else (Return ("Failed to open URL: " +:+ Tool.output tool_result), a, w')
          end
      | _ => (Return "Please specify a URL to open.", a, w)
      end
  | None =>
      (Return "Browser_use tool is not available. Please make sure it's properly registered.", a, w)
  end.

Definition terminal_words : list string := ["ls"; "pwd"; "whoami"; "date"; "hostname"].
Definition terminal_prefixes : list string :=
  ["echo "; "cat "; "grep "; "find "; "ps "; "mkdir "; "touch "].

(** The terminal branch. *)
Definition terminal_command (a : BaseAgent) (input_text : string) (w : W) : result :=
  match Registry.get (tools a) "terminal" with
  | Some terminal_tool =>
      match Tool.execute terminal_tool [("command", VStr input_text)] w with
      | (Raise e, w') => (Raise e, a, w')
      | (Return tool_result, w') =>
          if Tool.success tool_result
          then
            let tool_response :=
              if String.eqb (Tool.output tool_result) ""
              then "(Command executed successfully with no output)"
              else Tool.output tool_result in
            respond a tool_response w'
          else (Return ("Failed to execute command: " +:+ Tool.output tool_result), a, w')
      end
  | None =>
      (Return "Terminal tool is not available. Please make sure it's properly registered.", a, w)
  end.

(** The file creation branch ("create file", "make a file", "make file"). *)
Definition create_file (a : BaseAgent) (input_text : string) (w : W) : result :=
  match Registry.get (tools a) "file_operations" with
  | Some file_tool =>
      match PyStr.split_max " file " 1 (PyStr.lower input_text) with
      | _ :: rest :: _ =>
          let filename := PyStr.strip rest in
          match Tool.execute file_tool
                  [("action", VStr "create"); ("name", VStr filename);
                   ("content", VStr "")] w with
          | (Raise e, w') => (Raise e, a, w')
          | (Return tool_result, w') =>
              if Tool.success tool_result
              then respond a ("Created file: " +:+ filename) w'
              else (Return ("Failed to create file: " +:+ Tool.output tool_result), a, w')
          end
      | _ => (Return "Please specify a filename.", a, w)
      end
  | None =>
      (Return "File operations tool is not available. Please make sure it's properly registered.", a, w)
  end.

(** The path the listing branch extracts from the input. *)
Definition listing_path (input_text : string) : string :=
  if (PyStr.contains input_text " "
      && negb (String.eqb (PyStr.lower input_text) "ls"))%bool
  then match PyStr.split_max " " 2 input_text with
       | _ :: _ :: third :: _ => PyStr.strip third
       | _ => "."
       end
  else ".".

(** The file listing branch ("list file", "list directory", "ls"). *)
Definition list_files (a : BaseAgent) (input_text : string) (w : W) : result :=
  match Registry.get (tools a) "file_operations" with
  | Some file_tool =>
      let path := listing_path input_text in
      match Tool.execute file_tool
              [("action", VStr "list"); ("path", VStr path)] w with
      | (Raise e, w') => (Raise e, a, w')
      | (Return tool_result, w') =>
          if Tool.success tool_result
          then
            match Tool.data tool_result with
            | None =>
                (Raise (PyException "AttributeError"
                          "'NoneType' object has no attribute 'get'"), a, w')
            | Some d =>
                let files := match assoc "files" d with Some v => v | None => VList [] end in
                if Py.truthy files
                then match Py.str_join PyStr.newline files with
                     | Raise e => (Raise e, a, w')
                     | Return file_list =>
                         respond a ("Files in " +:+ path +:+ ":" +:+ PyStr.newline
                                      +:+ PyStr.newline +:+ file_list) w'
                     end
                else respond a ("No files found in " +:+ path) w'
            end
          else (Return ("Failed to list files: " +:+ Tool.output tool_result), a, w')
      end
  | None =>
      (Return "File operations tool is not available. Please make sure it's properly registered.", a, w)
  end.

(** The last branch: the LLM is asked with the whole memory and the system
    prompt extended by the tool descriptions. *)
Definition ask_llm (a : BaseAgent) (w : W) : result :=
  let enhanced_system_prompt :=
    system_prompt a +:+ PyStr.newline +:+ PyStr.newline
      +:+ "You have access to the following tools:" +:+ PyStr.newline
      +:+ Registry.get_tools_description (tools a) +:+ PyStr.newline +:+ PyStr.newline
      +:+ "To use a tool, respond with the tool name and parameters in a structured format." in
  match llm a (Schema.messages (memory a)) enhanced_system_prompt w with
  | (Raise e, w') => (Raise e, a, w')
  | (Return response, w') => respond a response w'
  end.

(** The branches of [next_step] after the system status branch, in the
    order of the source; each of them returns. *)
Definition dispatch_rest (a : BaseAgent) (input_text : string) (w : W) : result :=
  let low := PyStr.lower input_text in
  if PyStr.startswith low "search " then browser_search a input_text w
  else if (PyStr.startswith low "navigate to " || PyStr.startswith low "go to ")%bool
  then browser_navigate a input_text w
  else if PyStr.startswith low "browser.open_url" then browser_open_url a input_text w
  else if (PyStr.mem low terminal_words || PyStr.startswith_any low terminal_prefixes)%bool
  then terminal_command a input_text w
  else if PyStr.startswith_any low ["create file"; "make a file"; "make file"]
  then create_file a input_text w
  else if (PyStr.startswith_any low ["list file"; "list directory"]
           || String.eqb low "ls")%bool
  then list_files a input_text w
  else ask_llm a w.

(** The body of the [try] of [next_step]: the system status branch returns
    only when the tool is registered and succeeds, and otherwise control
    goes on to the next branches. *)
Definition dispatch (a : BaseAgent) (input_text : string) (w : W) : result :=
  if is_system_query input_text
  then match Registry.get (tools a) "system_info" with
       | Some system_tool =>
           match Tool.execute system_tool [] w with
           | (Raise e, w') => (Raise e, a, w')
           | (Return tool_result, w') =>
               if Tool.success tool_result
               then respond a ("Here's the current system status:" +:+ PyStr.newline
                                 +:+ PyStr.newline +:+ Tool.output tool_result) w'
               else dispatch_rest a input_text w'
           end
       | None => dispatch_rest a input_text w
       end
  else dispatch_rest a input_text w.

(** [ReactiveAgent.next_step] *)
Definition next_step (a : BaseAgent) (input_text : string) (w : W) : result :=
  let a1 := remember a Schema.MessageRole.USER input_text in
  match Registry.to_params (tools a1) with
  | Raise e => (Raise e, a1, w)
  | Return tools_params =>
      match dispatch a1 input_text w with
      | (Raise e, a2, w2) =>
          match Py.load_global reactive_agent_globals "logger" with
          | Raise e' => (Raise e', a2, w2)
          | Return _ => (Return ("Error: " +:+ exn_str e), set_state a2 "ERROR", w2)
          end
      | r => r
      end
  end.

(** [BaseAgent.run], for the [next_step] of the subclass. *)
Definition run (next_step : BaseAgent -> string -> W -> result)
    (a : BaseAgent) (input_text : string) (w : W) : result :=
  let a1 := set_state a "RUNNING" in
  let body :=
    if is_system_query input_text
    then next_step a1 input_text w
    else match next_step a1 input_text w with
         | (Return response, a2, w2) => (Return response, set_state a2 "IDLE", w2)
         | r => r
         end in
  match body with
  | (Raise e, a2, w2) =>
      match Py.load_global base_agent_globals "logger" with
      | Raise e' => (Raise e', a2, w2)
      | Return _ => (Return ("Error: " +:+ exn_str e), set_state a2 "ERROR", w2)
      end
  | r => r
  end.

End WithWorld.
Arguments BaseAgent W : clear implicits.
Arguments LLM W : clear implicits.
Arguments result W : clear implicits.

End Agent.

(** ** Concrete scenarios *)

Module Scenario.

(** The sandbox root of a user [u], and a disk that holds it next to a
    sibling directory whose name extends the name of the root. *)
Definition base_dir : Files.Path := ["home"; "u"; "uranus_workspace"].

Definition disk : Files.FS :=
  list_to_map
    [(["home"], Files.Dir);
     (["home"; "u"], Files.Dir);
     (["home"; "u"; "uranus_workspace"], Files.Dir);
     (["home"; "u"; "uranus_workspace"; "sub"], Files.Dir);
     (["home"; "u"; "uranus_workspace_backup"], Files.Dir);
     (["home"; "u"; "uranus_workspace_backup"; "secret.txt"],
       Files.File (Files.Text "hunter2"))].

Definition secret : Files.Path := ["home"; "u"; "uranus_workspace_backup"; "secret.txt"].

(** A system information tool that succeeds, as the one of
    tool/system_tool.py does on a working machine. *)
Definition system_info : Tool.BaseTool Files.FS :=
  Tool.mkTool "system_info"
    "Get information about the system, such as CPU, memory, disk usage, etc."
    (fun _ w => (Return (Tool.mkToolResult true "System Information: CPU MEMORY DISK PLATFORM"
                           (Some [])), w))
    (Return (VDict [("type", VStr "object"); ("properties", VDict []);
                    ("required", VList [])])).

(** A tool whose [get_parameters_schema] and [execute] raise. *)
Definition faulty : Tool.BaseTool Files.FS :=
  Tool.mkTool "faulty" "A tool that raises."
    (fun _ w => (Raise (PyException "RuntimeError" "boom"), w))
    (Raise (PyException "ValueError" "no schema")).

(** A tool that raises [ToolError]. *)
Definition denied : Tool.BaseTool Files.FS :=
  Tool.mkTool "denied" "A tool that refuses."
    (fun _ w => (Raise (ToolError "refused"), w))
    (Return VNone).

(** The mock of tests/mocks/mock_llm.py: the answer is looked up by the
    last user message. *)
Definition mock_llm : Agent.LLM Files.FS :=
  fun messages _ w =>
    match List.filter (fun m => String.eqb (Schema.role m) "user") (rev messages) with
    | [] => (Return "No user message found.", w)
    | m :: _ =>
        (Return (match assoc (Schema.content m)
                         [("Say 'Test successful'", "Test successful")] with
                 | Some r => r
                 | None => "Mock response to: " +:+ Schema.content m
                 end), w)
    end.

Definition registry : Registry.ToolRegistry Files.FS :=
  Registry.register (Registry.register [] system_info) (Files.FileOperationsTool base_dir).

(** The agent of tests/test_end_to_end.py. *)
Definition agent : Agent.BaseAgent Files.FS :=
  Agent.mkAgent "Uranus" "A helpful assistant that can perform various tasks."
    "You are Uranus, a helpful AI assistant that can perform various tasks."
    mock_llm (Schema.mkMemory [] 100) registry Schema.AgentState.IDLE.

(** The same agent with the faulty tool registered as well. *)
Definition agent_with_faulty : Agent.BaseAgent Files.FS :=
  Agent.mkAgent "Uranus" "A helpful assistant that can perform various tasks."
    "You are Uranus, a helpful AI assistant that can perform various tasks."
    mock_llm (Schema.mkMemory [] 100) (Registry.register registry faulty)
    Schema.AgentState.IDLE.

(** A shell that knows [pwd] and [false] and reports any other command as
    not found. *)
Definition shell (cmd path : string) (fs : Files.FS)
  : outcome Terminal.completed * Files.FS :=
  if String.eqb cmd "pwd"
  then (Return (Terminal.mkCompleted 0 (Terminal.Utf8 (path +:+ PyStr.newline))
                  (Terminal.Utf8 "")), fs)
  else if String.eqb cmd "false"
  then (Return (Terminal.mkCompleted 1 (Terminal.Utf8 "") (Terminal.Utf8 "")), fs)
  else (Return (Terminal.mkCompleted 127 (Terminal.Utf8 "")
                  (Terminal.Utf8 ("/bin/sh: 1: " +:+ cmd +:+ ": not found" +:+ PyStr.newline))),
        fs).

(** A process started in the sandbox root. *)
Definition world : Terminal.world :=
  Terminal.mkWorld disk "/home/u/uranus_workspace" [].

(** A code text that makes the worker ignore SIGTERM and then loops. *)
Definition stubborn_loop : string :=
  "s = print.__self__.__import__('signal'); s.signal(s.SIGTERM, s.SIG_IGN)"
    +:+ PyStr.newline +:+ "while True: pass".

(** Some code texts and what they do. *)
Definition exec (code : string) : PythonExecute.behaviour :=
  if String.eqb code "while True: pass"
  then PythonExecute.mkBehaviour PythonExecute.Hangs false
  else if String.eqb code stubborn_loop
  then PythonExecute.mkBehaviour PythonExecute.Hangs true
  else if String.eqb code "print('hi'); 1/0"
  then PythonExecute.mkBehaviour
         (PythonExecute.Fails 0 ("hi" +:+ PyStr.newline)
            (PyException "ZeroDivisionError" "division by zero")) false
  else if String.eqb code "raise print.__self__.SystemExit"
  then PythonExecute.mkBehaviour (PythonExecute.Exits 0 "") false
  else if String.eqb code "print(1+1)"
  then PythonExecute.mkBehaviour (PythonExecute.Completes 0 ("2" +:+ PyStr.newline)) false
  else PythonExecute.mkBehaviour (PythonExecute.Completes 0 "") false.

End Scenario.

(** ** schema/memory.py: the other methods of [Memory] *)

Module MemoryOps.

(** [Memory.get_messages] *)
Definition get_messages (m : Schema.Memory) : list Schema.Message := Schema.messages m.

(** [Memory.get_recent_messages] *)
Definition get_recent_messages (m : Schema.Memory) (n : Z) : list Schema.Message :=
  if n <? Z.of_nat (length (Schema.messages m))
  then slice_from (- n) (Schema.messages m)
  else Schema.messages m.

(** [Memory.get_last_message] *)
Definition get_last_message (m : Schema.Memory) : option Schema.Message :=
  match Schema.messages m with
  | [] => None
  | _ => last (Schema.messages m)
  end.

(** [Memory.get_last_user_message] *)
Definition get_last_user_message (m : Schema.Memory) : option Schema.Message :=
  List.find (fun message => String.eqb (Schema.role message) "user")
    (rev (Schema.messages m)).

(** [Memory.get_last_assistant_message] *)
Definition get_last_assistant_message (m : Schema.Memory) : option Schema.Message :=
  List.find (fun message => String.eqb (Schema.role message) "assistant")
    (rev (Schema.messages m)).

(** The callables the class [Message] of schema/message.py offers besides
    its constructor, each with the message it builds from its arguments:
    the class statement defines the method [to_dict] only, which is no
    constructor, and the base class defines none of the names asked for
    below. *)
Definition Message_factories : list (string * (list string -> Schema.Message)) := [].

(** A call of the attribute [attr] of the class [Message] with the
    arguments [args]: looking the attribute up on the class fails
    with [AttributeError] when the class has none of that name. *)
Definition call_Message (attr : string) (args : list string) : outcome Schema.Message :=
  match assoc attr Message_factories with
  | Some f => Return (f args)
  | None => Raise (PyException "AttributeError" attr)
  end.

(** [self.add_message] of the message such a call builds. *)
Definition add_built (m : Schema.Memory) (attr : string) (args : list string)
  : outcome unit * Schema.Memory :=
  match call_Message attr args with
  | Raise e => (Raise e, m)
  | Return message => (Return tt, Schema.add_message m message)
  end.

(** [Memory.add_user_message], [add_system_message], [add_assistant_message]
    and [add_tool_message] *)
Definition add_user_message (m : Schema.Memory) (content : string) :=
  add_built m "user_message" [content].

Definition add_system_message (m : Schema.Memory) (content : string) :=
  add_built m "system_message" [content].

Definition add_assistant_message (m : Schema.Memory) (content : string) :=
  add_built m "assistant_message" [content].

Definition add_tool_message (m : Schema.Memory) (content name : string) :=
  add_built m "tool_message" [content; name].

End MemoryOps.

(** ** tool/file_saver.py *)

Module FileSaver.

(** The two values the parameter schema of the tool admits for [mode]. *)
Inductive open_mode : Type :=
  | Write
  | Append.

(** [open(p, mode)] followed by [file.write(content)] for a text content:
    writing replaces what the file holds, appending adds to it, and both
    create the file when it is not there. *)
Definition save_text (fs : Files.FS) (p : Files.Path) (mode : open_mode) (content : string)
  : outcome unit * Files.FS :=
  match Files.stat fs p with
  | Some Files.Dir =>
      (Raise (Files.os_error "IsADirectoryError" "21" "Is a directory" p), fs)
  | old =>
      match Files.stat fs (Files.parent p) with
      | Some Files.Dir =>
          let stored :=
            match mode, old with
            | Append, Some (Files.File (Files.Text s)) => Files.Text (s +:+ content)
            | Append, Some (Files.File (Files.Binary n)) =>
                Files.Binary (n + String.length content)
            | _, _ => Files.Text content
            end in
          (Return tt, <[p := Files.File stored]> fs)
      | Some (Files.File _) =>
          (Raise (Files.os_error "NotADirectoryError" "20" "Not a directory" p), fs)
      | None =>
          (Raise (Files.os_error "FileNotFoundError" "2" "No such file or directory" p), fs)
      end
  end.

Section Tool.
Variable base_dir : Files.Path.

Definition failure (out : string) : Tool.ToolResult := Tool.mkToolResult false out None.

(** The [try] of [execute]. *)
Definition attempt (content file_path : string) (full_path : Files.Path)
    (mode : open_mode) (fs : Files.FS) : outcome Tool.ToolResult * Files.FS :=
  match Files.makedirs fs (Files.parent full_path) with
  | (Raise e, fs1) => (Raise e, fs1)
  | (Return _, fs1) =>
      match save_text fs1 full_path mode content with
      | (Raise e, fs2) => (Raise e, fs2)
      | (Return _, fs2) =>
          (Return (Tool.mkToolResult true ("Content saved to " +:+ file_path)
                     (Some [("path", VStr (Files.path_str full_path))])), fs2)
      end
  end.

(** [FileSaverTool.execute(content, file_path, mode)] *)
Definition execute (content file_path : string) (mode : open_mode) (fs : Files.FS)
  : outcome Tool.ToolResult * Files.FS :=
  match Files.makedirs fs base_dir with
  | (Raise e, fs1) => (Raise e, fs1)
  | (Return _, fs1) =>
      match Files.resolve_checked (Files.joinpath base_dir file_path) with
      | Raise e => (Raise e, fs1)
      | Return full_path =>
          if negb (PyStr.startswith (Files.path_str full_path) (Files.path_str base_dir))
          then (Return (failure ("Access denied: Path must be within "
                                   +:+ Files.path_str base_dir)), fs1)
          else match attempt content file_path full_path mode fs1 with
               | (Raise e, fs2) =>
                   (Return (failure ("Error saving file: " +:+ exn_str e)), fs2)
               | r => r
               end
      end
  end.

End Tool.

End FileSaver.

(** ** flow/base_flow.py and flow/sequential_flow.py *)

Module Flow.

(** [d[key] = value] on a [dict] kept in insertion order. *)
Fixpoint dict_put {A : Type} (key : string) (value : A) (d : list (string * A))
  : list (string * A) :=
  match d with
  | [] => [(key, value)]
  | (k, v) :: rest =>
      if String.eqb k key then (k, value) :: rest else (k, v) :: dict_put key value rest
  end.

Section WithWorld.
Context {W : Type}.

(** The [next_step] of the class of the agents. *)
Variable step : Agent.BaseAgent W -> string -> W -> Agent.result W.

(** What the constructor accepts as [agents]. *)
Inductive agents_arg : Type :=
  | One (a : Agent.BaseAgent W)
  | Many (l : list (Agent.BaseAgent W))
  | Mapping (d : list (string * Agent.BaseAgent W)).

Record SequentialFlow : Type := mkFlow {
  agents : list (string * Agent.BaseAgent W);
  primary_agent_key : option string;
  agent_sequence : list string
}.

(** [BaseFlow.__init__]: the dictionary of the agents and the primary key;
    [given] is the key passed by the caller, if any. *)
Definition init_agents (arg : agents_arg) : list (string * Agent.BaseAgent W) :=
  match arg with
  | One a => [(Agent.name a, a)]
  | Many l => fold_left (fun d a => dict_put (Agent.name a) a d) l []
  | Mapping d => d
  end.

Definition init_primary (arg : agents_arg) (given : option string) : option string :=
  match arg with
  | One a => Some (Agent.name a)
  | Many l =>
      match l, given with
      | a :: _, None => Some (Agent.name a)
      | _, _ => given
      end
  | Mapping d =>
      match d, given with
      | (k, _) :: _, None => Some k
      | _, _ => given
      end
  end.

(** [SequentialFlow.__init__]: an empty sequence becomes the keys of the
    agents. *)
Definition init (arg : agents_arg) (given : option string) (sequence : list string)
  : SequentialFlow :=
  let d := init_agents arg in
  mkFlow d (init_primary arg given)
    (match sequence with [] => map fst d | _ => sequence end).

(** [BaseFlow.primary_agent] *)
Definition primary_agent (f : SequentialFlow) : option (Agent.BaseAgent W) :=
  match primary_agent_key f with
  | None => None
  | Some k => if String.eqb k "" then None else assoc k (agents f)
  end.

(** The loop of [execute]: the agents run hold their new memory and state
    in the dictionary; [results] is kept oldest first. *)
Fixpoint run_sequence (keys : list string) (d : list (string * Agent.BaseAgent W))
    (current_input : string) (results : list string) (w : W)
  : outcome (list string) * list (string * Agent.BaseAgent W) * W :=
  match keys with
  | [] => (Return results, d, w)
  | agent_key :: rest =>
      match assoc agent_key d with
      | None => run_sequence rest d current_input results w
      | Some agent =>
          match Agent.run step agent current_input w with
          | (Raise e, agent', w') => (Raise e, dict_put agent_key agent' d, w')
          | (Return result, agent', w') =>
              run_sequence rest (dict_put agent_key agent' d) result
                (results ++ [result])%list w'
          end
      end
  end.

(** [SequentialFlow.execute] *)
Definition execute (f : SequentialFlow) (input_text : string) (w : W)
  : string * SequentialFlow * W :=
  match agents f with
  | [] =>
      ("Execution failed: No agents available", f, w)
  | _ =>
      match run_sequence (agent_sequence f) (agents f) input_text [] w with
      | (Return results, d, w') =>
          (PyStr.join (PyStr.newline +:+ PyStr.newline) results,
           mkFlow d (primary_agent_key f) (agent_sequence f), w')
      | (Raise e, d, w') =>
          ("Execution failed: " +:+ exn_str e,
           mkFlow d (primary_agent_key f) (agent_sequence f), w')
      end
  end.

End WithWorld.
Arguments SequentialFlow W : clear implicits.
Arguments agents_arg W : clear implicits.

End Flow.

(** ** What [next_step] may leave in the agent *)

Module AgentSpec.

Section WithWorld.
Context {W : Type}.

(** A branch of the dispatch is settled for the agent [a] when it hands
    back [a] itself, or returns a text and hands back [a] with that text
    appended to its memory as an assistant message. *)
Definition settled (a : Agent.BaseAgent W) (r : Agent.result W) : Prop :=
  snd (fst r) = a
  \/ exists out,
       fst (fst r) = Return out
       /\ snd (fst r) = Agent.remember a Schema.MessageRole.ASSISTANT out.

End WithWorld.

End AgentSpec.

(** ** Directories in place *)

Module FileSpec.

(** The directory [p] and all its ancestors are directories of [fs]. *)
Definition dirs (fs : Files.FS) (p : Files.Path) : Prop :=
  Forall (fun q => Files.stat fs q = Some Files.Dir) (Files.prefixes [] p).

(** The limits of the operating system on the length of one name and of a
    whole path text. *)
Definition NAME_MAX : nat := 255.
Definition PATH_MAX : nat := 4096.

(** The paths the operating system takes: no component holds a NUL
    character or is longer than [NAME_MAX], and the text of the path is
    shorter than [PATH_MAX]. *)
Definition plain (p : Files.Path) : Prop :=
  Forall (fun c => Files.has_nul c = false /\ (String.length c <= NAME_MAX)%nat) p
  /\ (String.length (Files.path_str p) < PATH_MAX)%nat.

End FileSpec.

(** ** Further scenarios *)

Module Cases.

(** A second agent, which knows no tool. *)
Definition helper : Agent.BaseAgent Files.FS :=
  Agent.mkAgent "Helper" "An agent without tools." "You are a helper."
    Scenario.mock_llm (Schema.mkMemory [] 100) [] Schema.AgentState.IDLE.

(** A flow of the agent of the scenario followed by the helper. *)
Definition flow : Flow.SequentialFlow Files.FS :=
  Flow.init (Flow.Many [Scenario.agent; helper]) None [].

(** A flow whose sequence names an agent it does not have. *)
Definition flow_with_unknown : Flow.SequentialFlow Files.FS :=
  Flow.init (Flow.Many [Scenario.agent; helper]) None ["Uranus"; "Nobody"; "Helper"].

(** A shell that cannot be spawned for the command [crash]. *)
Definition shell (cmd path : string) (fs : Files.FS)
  : outcome Terminal.completed * Files.FS :=
  if String.eqb cmd "crash"
  then (Raise (PyException "OSError" "cannot spawn"), fs)
  else Scenario.shell cmd path fs.

(** Three messages. *)
Definition conversation : list Schema.Message :=
  [Schema.mkMessage "user" "a" None; Schema.mkMessage "assistant" "b" None;
   Schema.mkMessage "user" "c" None].

End Cases.

(** * Properties *)

Section MemoryFacts.
Import Schema.

Lemma max_messages_add_message m x :
  max_messages (add_message m x) = max_messages m.
Proof.
  unfold add_message, _trim_memory; simpl.
  destruct (_ >? _); reflexivity.
Qed.

Lemma max_messages_add_messages msgs : forall m,
  max_messages (add_messages m msgs) = max_messages m.
Proof.
  induction msgs as [|x xs IH]; intros m; simpl; [reflexivity|].
  unfold add_messages in *; simpl. rewrite IH. apply max_messages_add_message.
Qed.

Lemma slice_from_neg_lastn {A} (k : Z) (l : list A) :
  1 <= k -> slice_from (- k) l = lastn (Z.to_nat k) l.
Proof.
  intros Hk. unfold slice_from, lastn.
  destruct (Z.ltb_spec (- k) 0); [|lia].
  f_equal. lia.
Qed.

Lemma messages_add_message m x :
  1 <= max_messages m ->
  messages (add_message m x) = lastn (Z.to_nat (max_messages m)) (messages m ++ [x]).
Proof.
  intros Hk. unfold add_message, _trim_memory; simpl.
  destruct (Z.gtb_spec (Z.of_nat (length (messages m ++ [x]))) (max_messages m)) as [Hgt|Hle]; simpl.
  - apply slice_from_neg_lastn; assumption.
  - unfold lastn.
    replace (length (messages m ++ [x]) - Z.to_nat (max_messages m))%nat with 0%nat by lia.
    reflexivity.
Qed.

Lemma lastn_app_lastn {A} (k : nat) (l ys : list A) :
  lastn k (lastn k l ++ ys) = lastn k (l ++ ys).
Proof.
  unfold lastn.
  rewrite !length_app, length_drop.
  destruct (Nat.le_gt_cases (length l) k) as [Hle|Hgt].
  - replace (length l - k)%nat with 0%nat by lia. simpl.
    f_equal. lia.
  - rewrite !drop_app.
    rewrite length_drop.
    rewrite drop_drop.
    f_equal; [f_equal; lia|f_equal; lia].
Qed.

Lemma messages_add_messages xs : forall m x,
  1 <= max_messages m ->
  messages (add_messages m (x :: xs))
  = lastn (Z.to_nat (max_messages m)) (messages m ++ x :: xs).
Proof.
  induction xs as [|y ys IH]; intros m x Hk.
  - simpl. apply messages_add_message; assumption.
  - change (add_messages m (x :: y :: ys))
      with (add_messages (add_message m x) (y :: ys)).
    rewrite IH by (rewrite max_messages_add_message; assumption).
    rewrite max_messages_add_message, messages_add_message by assumption.
    rewrite lastn_app_lastn. rewrite <- app_assoc. reflexivity.
Qed.

(** With a maximum of zero nothing is ever trimmed: the slice that starts
    at [-0] is the whole list. *)
Lemma add_message_zero_keeps_all m x :
  max_messages m = 0 -> messages (add_message m x) = (messages m ++ [x])%list.
Proof.
  intros H0. unfold add_message, _trim_memory; simpl. rewrite H0.
  destruct (_ >? 0); [|reflexivity]. simpl.
  unfold slice_from. simpl.
  replace (Z.to_nat _) with 0%nat by lia. reflexivity.
Qed.

End MemoryFacts.


Section TextFacts.

Lemma append_assoc_s (a b c : string) : (a +:+ b) +:+ c = a +:+ (b +:+ c).
Proof.
  induction a as [|x a IH]; [reflexivity|].
  change (String x ((a +:+ b) +:+ c) = String x (a +:+ (b +:+ c))).
  f_equal; exact IH.
Qed.

Lemma append_cons (x : ascii) (a b : string) : String x a +:+ b = String x (a +:+ b).
Proof. reflexivity. Qed.

Lemma append_empty_r (a : string) : a +:+ "" = a.
Proof. induction a as [|x a IH]; [reflexivity|]. rewrite append_cons. f_equal; exact IH. Qed.

Lemma startswith_app (p s : string) : PyStr.startswith (p +:+ s) p = true.
Proof.
  induction p as [|x p IH]; [reflexivity|].
  rewrite append_cons. simpl. rewrite Ascii.eqb_refl. exact IH.
Qed.







End TextFacts.

Section RegistryFacts.
Context {W : Type}.
Implicit Types (reg : Registry.ToolRegistry W) (w : W).

Lemma get_dict_set_eq reg key (t : Tool.BaseTool W) :
  Registry.get (Registry.dict_set key t reg) key = Some t.
Proof.
  unfold Registry.get. induction reg as [|[k u] reg IH]; simpl.
  - now rewrite String.eqb_refl.
  - destruct (String.eqb k key) eqn:E; simpl; rewrite E; [reflexivity | exact IH].
Qed.

Lemma get_register reg (t : Tool.BaseTool W) :
  Registry.get (Registry.register reg t) (Tool.name t) = Some t.
Proof. apply get_dict_set_eq. Qed.

Lemma list_tools_register reg (t : Tool.BaseTool W) :
  In (Tool.name t) (Registry.list_tools (Registry.register reg t)).
Proof.
  unfold Registry.register, Registry.list_tools.
  induction reg as [|[k u] reg IH]; simpl; [now left|].
  destruct (String.eqb_spec k (Tool.name t)) as [->|Hne]; simpl; [now left | now right].
Qed.




End RegistryFacts.




(** C5, as amended.  For a maximum of at least one, after any non-empty
    sequence of appends the memory holds at most [max_messages] messages,
    whatever it held before; and after more appends than the maximum it
    holds exactly [max_messages] messages, the most recently appended ones
    in their order. *)
Theorem C5_memory_bounded (m0 : Schema.Memory) (msgs : list Schema.Message) :
  1 <= Schema.max_messages m0 ->
  (msgs <> [] ->
     Z.of_nat (length (Schema.messages (Schema.add_messages m0 msgs)))
     <= Schema.max_messages m0)
  /\ (Schema.max_messages m0 < Z.of_nat (length msgs) ->
      Schema.messages (Schema.add_messages m0 msgs)
      = Schema.lastn (Z.to_nat (Schema.max_messages m0)) msgs
      /\ Z.of_nat (length (Schema.messages (Schema.add_messages m0 msgs)))
         = Schema.max_messages m0).
Proof.
  intros Hmax. split.
  - destruct msgs as [|x xs]; [congruence|]. intros _.
    rewrite messages_add_messages by assumption.
    unfold Schema.lastn. rewrite length_drop. lia.
  - intros Hlen. destruct msgs as [|x xs]; [simpl in Hlen; lia|].
    rewrite messages_add_messages by assumption.
    assert (Hsuffix :
      Schema.lastn (Z.to_nat (Schema.max_messages m0)) (Schema.messages m0 ++ x :: xs)
      = Schema.lastn (Z.to_nat (Schema.max_messages m0)) (x :: xs)).
    { unfold Schema.lastn. rewrite length_app.
      rewrite drop_app.
      rewrite (drop_ge (Schema.messages m0)) by lia.
      simpl app. f_equal. cbn [length] in *. lia. }
    rewrite Hsuffix. split; [reflexivity|].
    unfold Schema.lastn. rewrite length_drop. lia.
Qed.

(** Witness of C5: three appends to an empty memory of capacity two. *)
Lemma C5_memory_bounded_witness :
  Schema.messages
    (Schema.add_messages (Schema.mkMemory [] 2)
       [Schema.mkMessage "user" "a" None; Schema.mkMessage "assistant" "b" None;
        Schema.mkMessage "user" "c" None])
  = [Schema.mkMessage "assistant" "b" None; Schema.mkMessage "user" "c" None].
Proof.
  destruct (C5_memory_bounded (Schema.mkMemory [] 2)
              [Schema.mkMessage "user" "a" None; Schema.mkMessage "assistant" "b" None;
               Schema.mkMessage "user" "c" None]) as [_ H]; [simpl; lia|].
  destruct H as [H _]; [simpl; lia|]. exact H.
Defined.

(** Counterexample of C5 as stated, for every configured maximum: with a
    maximum of zero one append leaves one message, because the slice
    [messages[-0:]] is the whole list; and with a negative maximum the
    length, which is at least zero, exceeds the maximum. *)
Lemma C5_counterexample :
  let msg := Schema.mkMessage "user" "a" None in
  (Z.of_nat (length (Schema.messages (Schema.add_message (Schema.mkMemory [] 0) msg)))
   > Schema.max_messages (Schema.add_message (Schema.mkMemory [] 0) msg))
  /\ (Z.of_nat (length (Schema.messages (Schema.add_message (Schema.mkMemory [] (-1)) msg)))
      > Schema.max_messages (Schema.add_message (Schema.mkMemory [] (-1)) msg)).
Proof. split; vm_compute; reflexivity. Qed.


Section AgentFacts.
Context {W : Type}.
Implicit Types (a : Agent.BaseAgent W) (w : W).

(** The handler of [BaseAgent.run] evaluates the name [logger], which
    agent/base_agent.py does not bind: whatever [next_step] raises, [run]
    raises [NameError], and the state stays as [next_step] left it. *)
Lemma run_handler_raises (step : Agent.BaseAgent W -> string -> W -> Agent.result W)
    a input_text w e a' w' :
  step (Agent.set_state a "RUNNING") input_text w = (Raise e, a', w') ->
  Agent.run step a input_text w
  = (Raise (PyException "NameError" "name 'logger' is not defined"), a', w').
Proof.
  intros H. unfold Agent.run.
  destruct (Agent.is_system_query input_text); rewrite H; reflexivity.
Qed.

(** For a system status query [run] returns what [next_step] returns and
    leaves the agent as [next_step] left it. *)
Lemma run_system_query (step : Agent.BaseAgent W -> string -> W -> Agent.result W)
    a input_text w r a' w' :
  Agent.is_system_query input_text = true ->
  step (Agent.set_state a "RUNNING") input_text w = (Return r, a', w') ->
  Agent.run step a input_text w = (Return r, a', w').
Proof. intros Hq H. unfold Agent.run. rewrite Hq, H. reflexivity. Qed.

(** For any other input the state is set to IDLE after [next_step] has
    returned, whatever [next_step] did to it. *)
Lemma run_other_query (step : Agent.BaseAgent W -> string -> W -> Agent.result W)
    a input_text w r a' w' :
  Agent.is_system_query input_text = false ->
  step (Agent.set_state a "RUNNING") input_text w = (Return r, a', w') ->
  Agent.run step a input_text w = (Return r, Agent.set_state a' "IDLE", w').
Proof. intros Hq H. unfold Agent.run. rewrite Hq, H. reflexivity. Qed.

(** The responses of [next_step] leave the state alone when no exception
    is caught. *)
Lemma state_respond a out w :
  Agent.state (snd (fst (Agent.respond a out w))) = Agent.state a.
Proof. reflexivity. Qed.

(** The input ls is taken by the terminal branch, before the listing
    branch is reached. *)
Lemma ls_is_a_terminal_command a w :
  Agent.dispatch_rest a "ls" w = Agent.terminal_command a "ls" w.
Proof. reflexivity. Qed.

End AgentFacts.

Section FileToolFacts.
Variable base_dir : Files.Path.

(** The call the creation branch makes is refused when the arguments are
    bound: [execute] has no parameter [action]. *)
Lemma create_call_rejected (filename : string) (fs : Files.FS) :
  Files.execute_kw base_dir
    [("action", VStr "create"); ("name", VStr filename); ("content", VStr "")] fs
  = (Raise (PyException "TypeError"
       "FileOperationsTool.execute() got an unexpected keyword argument 'action'"), fs).
Proof. reflexivity. Qed.

(** So is the call the listing branch makes. *)
Lemma list_call_rejected (path : string) (fs : Files.FS) :
  Files.execute_kw base_dir [("action", VStr "list"); ("path", VStr path)] fs
  = (Raise (PyException "TypeError"
       "FileOperationsTool.execute() got an unexpected keyword argument 'action'"), fs).
Proof. reflexivity. Qed.

(** With the file tool registered the creation branch never reports a
    created file: it asks for a filename or raises. *)
Lemma create_file_never_succeeds (a : Agent.BaseAgent Files.FS) (input_text : string)
    (fs : Files.FS) :
  Registry.get (Agent.tools a) "file_operations" = Some (Files.FileOperationsTool base_dir) ->
  Agent.create_file a input_text fs = (Return "Please specify a filename.", a, fs)
  \/ Agent.create_file a input_text fs
     = (Raise (PyException "TypeError"
          "FileOperationsTool.execute() got an unexpected keyword argument 'action'"), a, fs).
Proof.
  intros Hget. unfold Agent.create_file. rewrite Hget.
  destruct (PyStr.split_max " file " 1 (PyStr.lower input_text)) as [|x [|y l]];
    [left; reflexivity | left; reflexivity | right; reflexivity].
Qed.

(** With the file tool registered the listing branch always raises. *)
Lemma list_files_always_raises (a : Agent.BaseAgent Files.FS) (input_text : string)
    (fs : Files.FS) :
  Registry.get (Agent.tools a) "file_operations" = Some (Files.FileOperationsTool base_dir) ->
  Agent.list_files a input_text fs
  = (Raise (PyException "TypeError"
       "FileOperationsTool.execute() got an unexpected keyword argument 'action'"), a, fs).
Proof. intros Hget. unfold Agent.list_files. rewrite Hget. reflexivity. Qed.

(** A path none of whose components holds a NUL character is resolved. *)
Lemma resolve_checked_no_nul (p : Files.Path) :
  existsb Files.has_nul p = false -> Files.resolve_checked p = Return (Files.resolve p).
Proof. intros H. unfold Files.resolve_checked. now rewrite H. Qed.

Lemma plain_no_nul (p : Files.Path) :
  FileSpec.plain p -> existsb Files.has_nul p = false.
Proof.
  intros [Hall _]. induction Hall as [|c p [Hc _] _ IH]; [reflexivity|].
  simpl. now rewrite Hc, IH.
Qed.

Lemma resolve_checked_plain (p : Files.Path) :
  FileSpec.plain p -> Files.resolve_checked p = Return (Files.resolve p).
Proof. intros H. apply resolve_checked_no_nul, plain_no_nul, H. Qed.

(** A path with a NUL character is refused by the resolution, before the
    handlers of the tools are entered. *)
Lemma execute_raises_on_nul (operation content recursive : pyval) (path : string)
    (fs fs1 : Files.FS) :
  Files.makedirs fs base_dir = (Return tt, fs1) ->
  existsb Files.has_nul (Files.joinpath base_dir path) = true ->
  Files.execute base_dir operation (VStr path) content recursive fs
  = (Raise (PyException "ValueError" "embedded null byte"), fs1).
Proof.
  intros Hmk Hnul. unfold Files.execute, Files.resolve_checked. now rewrite Hmk, Hnul.
Qed.

(** A path whose resolved text does not start with the text of the root is
    refused, and nothing but the root directory has been touched. *)
Lemma execute_denies_other_prefix (operation content recursive : pyval) (path : string)
    (fs fs1 : Files.FS) :
  existsb Files.has_nul (Files.joinpath base_dir path) = false ->
  Files.makedirs fs base_dir = (Return tt, fs1) ->
  PyStr.startswith (Files.path_str (Files.resolve (Files.joinpath base_dir path)))
    (Files.path_str base_dir) = false ->
  Files.execute base_dir operation (VStr path) content recursive fs
  = (Raise (ToolError ("Access denied: Path must be within " +:+ Files.path_str base_dir)),
     fs1).
Proof.
  intros Hnul Hmk Hpre. unfold Files.execute.
  rewrite Hmk, (resolve_checked_no_nul _ Hnul), Hpre. reflexivity.
Qed.

End FileToolFacts.

(** C1 fails on the code.  The sandbox check compares the texts of the two
    paths, so a sibling of the root whose name extends the name of the
    root passes it: the path below resolves outside the root, and the file
    there is read, overwritten and deleted. *)
Theorem C1_sibling_directory_escapes :
  let path := "../uranus_workspace_backup/secret.txt" in
  let full_path := Files.resolve (Files.joinpath Scenario.base_dir path) in
  full_path = Scenario.secret
  /\ Files.strip_prefix Scenario.base_dir full_path = None
  /\ fst (Files.execute Scenario.base_dir (VStr "read") (VStr path) VNone (VBool false)
            Scenario.disk)
     = Return (Tool.mkToolResult true
                 ("File content:" +:+ PyStr.newline +:+ PyStr.newline +:+ "hunter2")
                 (Some [("content", VStr "hunter2");
                        ("path", VStr "/home/u/uranus_workspace_backup/secret.txt")]))
  /\ snd (Files.execute Scenario.base_dir (VStr "write") (VStr path) (VStr "overwritten")
            (VBool false) Scenario.disk) !! Scenario.secret
     = Some (Files.File (Files.Text "overwritten"))
  /\ snd (Files.execute Scenario.base_dir (VStr "delete") (VStr path) VNone (VBool false)
            Scenario.disk) !! Scenario.secret
     = None.
Proof. repeat split; vm_compute; reflexivity. Qed.

(** C2 fails on the code.  A registered tool whose schema cannot be built
    makes [next_step] raise before its own handler is entered; the handler
    of [run] then raises [NameError], which reaches the caller, and the
    state is still RUNNING. *)
Theorem C2_run_raises_NameError :
  let a' := Agent.remember (Agent.set_state Scenario.agent_with_faulty "RUNNING")
              Schema.MessageRole.USER "hello" in
  Agent.next_step (Agent.set_state Scenario.agent_with_faulty "RUNNING") "hello" Scenario.disk
  = (Raise (PyException "ValueError" "no schema"), a', Scenario.disk)
  /\ Agent.run Agent.next_step Scenario.agent_with_faulty "hello" Scenario.disk
     = (Raise (PyException "NameError" "name 'logger' is not defined"), a', Scenario.disk)
  /\ Agent.state a' = "RUNNING".
Proof.
  intros a'.
  assert (H : Agent.next_step (Agent.set_state Scenario.agent_with_faulty "RUNNING")
                "hello" Scenario.disk
              = (Raise (PyException "ValueError" "no schema"), a', Scenario.disk))
    by reflexivity.
  split; [exact H|]. split; [|reflexivity].
  exact (run_handler_raises Agent.next_step _ _ _ _ _ _ H).
Qed.

(** C6 fails on the code.  With the file tool registered, the request to
    create notes.txt ends in the handler of [next_step]: the answer is the
    text of the [TypeError], the disk is unchanged, and the existence check
    of the file reports false. *)
Theorem C6_create_file_is_rejected :
  fst (fst (Agent.next_step Scenario.agent "create file notes.txt" Scenario.disk))
  = Return "Error: FileOperationsTool.execute() got an unexpected keyword argument 'action'"
  /\ Agent.state (snd (fst (Agent.next_step Scenario.agent "create file notes.txt"
                              Scenario.disk))) = "ERROR"
  /\ snd (Agent.next_step Scenario.agent "create file notes.txt" Scenario.disk)
     = Scenario.disk
  /\ fst (Files.execute_kw Scenario.base_dir
            [("operation", VStr "exists"); ("path", VStr "notes.txt")] Scenario.disk)
     = Return (Tool.mkToolResult true
                 "Path does not exist: /home/u/uranus_workspace/notes.txt "
                 (Some [("exists", VBool false); ("type", VStr "");
                        ("path", VStr "/home/u/uranus_workspace/notes.txt")])).
Proof. repeat split; vm_compute; reflexivity. Qed.

(** C7 fails on the code.  With the file tool registered, a listing request
    ends in the handler of [next_step] with the text of the [TypeError];
    the input ls is answered by the terminal branch, here by its message
    for a missing terminal tool; and the path taken from the input is all
    that follows the second space, not the third word. *)
Theorem C7_list_files_is_rejected :
  fst (fst (Agent.next_step Scenario.agent "list files" Scenario.disk))
  = Return "Error: FileOperationsTool.execute() got an unexpected keyword argument 'action'"
  /\ fst (fst (Agent.next_step Scenario.agent "ls" Scenario.disk))
     = Return "Terminal tool is not available. Please make sure it's properly registered."
  /\ Agent.listing_path "list files in docs" = "in docs".
Proof. repeat split; vm_compute; reflexivity. Qed.

(** C8 fails on the code.  After a system status query that succeeds, [run]
    has returned and the state is still RUNNING; and after a request whose
    failure [next_step] caught and marked as ERROR, [run] has set the
    state to IDLE. *)
Theorem C8_state_after_run :
  fst (fst (Agent.run Agent.next_step Scenario.agent "system status" Scenario.disk))
  = Return ("Here's the current system status:" +:+ PyStr.newline +:+ PyStr.newline
              +:+ "System Information: CPU MEMORY DISK PLATFORM")
  /\ Agent.state (snd (fst (Agent.run Agent.next_step Scenario.agent "system status"
                              Scenario.disk))) = "RUNNING"
  /\ fst (fst (Agent.run Agent.next_step Scenario.agent "create file notes.txt"
                 Scenario.disk))
     = Return "Error: FileOperationsTool.execute() got an unexpected keyword argument 'action'"
  /\ Agent.state (snd (fst (Agent.run Agent.next_step Scenario.agent
                              "create file notes.txt" Scenario.disk))) = "IDLE".
Proof. repeat split; vm_compute; reflexivity. Qed.


Section TerminalFacts.
Import Terminal.
Variable shell : string -> string -> Files.FS -> outcome completed * Files.FS.
Implicit Types (l : loop) (cmd : string).

Lemma chdir_frame (w : world) (path : string) :
  fs (snd (chdir w path)) = fs w /\ spawned (snd (chdir w path)) = spawned w.
Proof.
  unfold chdir. destruct (Files.stat (fs w) (locate w path)) as [[c|]|]; split; reflexivity.
Qed.

Lemma change_directory_frame cmd l :
  fs (env (change_directory cmd l)) = fs (env l)
  /\ spawned (env (change_directory cmd l)) = spawned (env l).
Proof.
  unfold change_directory.
  destruct (negb (exists_ (env l) _)); [split; reflexivity|].
  match goal with |- context [chdir ?w ?p] =>
    destruct (chdir_frame w p) as [Hfs Hsp]; destruct (chdir w p) as [[u|e] w'] end;
    simpl in *; auto.
Qed.

Lemma change_directory_enters cmd l :
  Files.is_dir (fs (env l)) (locate (env l) (cd_target cmd l)) = true ->
  current_path (change_directory cmd l) = cd_target cmd l
  /\ cwd (env (change_directory cmd l))
     = Files.path_str (locate (env l) (cd_target cmd l))
  /\ final_output (change_directory cmd l)
     = final_output l +:+ "Changed directory to " +:+ cd_target cmd l +:+ PyStr.newline
  /\ final_error (change_directory cmd l) = final_error l.
Proof.
  unfold Files.is_dir. intros Hdir.
  unfold change_directory. fold (cd_target cmd l).
  unfold exists_, Files.path_exists, chdir.
  destruct (Files.stat (fs (env l)) (locate (env l) (cd_target cmd l))) as [[c|]|];
    try discriminate.
  simpl. repeat split.
Qed.

Lemma change_directory_stays cmd l :
  Files.is_dir (fs (env l)) (locate (env l) (cd_target cmd l)) = false ->
  current_path (change_directory cmd l) = current_path l
  /\ env (change_directory cmd l) = env l
  /\ final_output (change_directory cmd l) = final_output l.
Proof.
  unfold Files.is_dir. intros Hdir.
  unfold change_directory. fold (cd_target cmd l).
  unfold exists_, Files.path_exists, chdir.
  destruct (Files.stat (fs (env l)) (locate (env l) (cd_target cmd l))) as [[c|]|];
    try discriminate; simpl; repeat split.
Qed.

Lemma run_subprocess_spawns cmd l :
  spawned (env (snd (run_subprocess shell cmd l)))
  = (spawned (env l) ++ [(cmd, current_path l)])%list
  /\ current_path (snd (run_subprocess shell cmd l)) = current_path l
  /\ cwd (env (snd (run_subprocess shell cmd l))) = cwd (env l).
Proof.
  unfold run_subprocess, subprocess. simpl.
  destruct (shell cmd (current_path l) (fs (env l))) as [[done|e] fs']; simpl;
    [|repeat split].
  destruct (nonempty (stdout done)); [destruct (decode (stdout done))|];
    simpl; try (repeat split; fail);
    (destruct (nonempty (stderr done)); [destruct (decode (stderr done))|]);
    simpl; repeat split.
Qed.

Lemma segment_spawns cmd l :
  exists new,
    spawned (env (snd (segment shell cmd l))) = (spawned (env l) ++ new)%list
    /\ Forall (fun e => PyStr.startswith (fst e) "cd " = false) new.
Proof.
  unfold segment. destruct (PyStr.startswith cmd "cd ") eqn:Hcd; simpl.
  - exists []. rewrite app_nil_r. split; [apply change_directory_frame | constructor].
  - exists [(cmd, current_path l)]. split; [apply run_subprocess_spawns|].
    repeat constructor. exact Hcd.
Qed.

Lemma run_commands_spawns (commands : list string) : forall l,
  exists new,
    spawned (env (snd (run_commands shell commands l))) = (spawned (env l) ++ new)%list
    /\ Forall (fun e => PyStr.startswith (fst e) "cd " = false) new.
Proof.
  induction commands as [|cmd rest IH]; intros l; simpl.
  - exists []. rewrite app_nil_r. split; [reflexivity | constructor].
  - destruct (segment_spawns cmd l) as (new1 & E1 & F1).
    destruct (segment shell cmd l) as [[u|e] l1]; simpl in *.
    + destruct (IH l1) as (new2 & E2 & F2).
      exists (new1 ++ new2)%list. rewrite E2, E1, app_assoc. split; [reflexivity|].
      apply Forall_app; auto.
    + exists new1. auto.
Qed.

End TerminalFacts.


(** Counterexample of C9 as stated: a [cd] that succeeds changes the
    working directory of the whole process as well, not only the path
    stored in the tool instance. *)
Lemma C9_counterexample :
  Tool.success (fst (fst (Terminal.execute Scenario.shell "cd sub"
                            "/home/u/uranus_workspace" Scenario.world))) = true
  /\ snd (fst (Terminal.execute Scenario.shell "cd sub" "/home/u/uranus_workspace"
                 Scenario.world)) = "/home/u/uranus_workspace/sub"
  /\ Terminal.cwd Scenario.world = "/home/u/uranus_workspace"
  /\ Terminal.cwd (snd (Terminal.execute Scenario.shell "cd sub" "/home/u/uranus_workspace"
                          Scenario.world)) = "/home/u/uranus_workspace/sub"
  /\ Terminal.cwd (snd (Terminal.execute Scenario.shell "cd sub" "/home/u/uranus_workspace"
                          Scenario.world)) <> Terminal.cwd Scenario.world.
Proof. repeat split; try (vm_compute; reflexivity). vm_compute. discriminate. Qed.

(** C9, as amended.  A segment that starts with [cd ] is handled by the
    tool: no subprocess is spawned and the file system is untouched; when
    the directory it names (resolved against the stored path unless
    absolute) exists, the stored path of the instance and the working
    directory of the process both become that directory and a confirmation
    line is added to the output, and otherwise the stored path and the
    world stay as they are.  Any other segment is run in one subprocess
    whose working directory is the stored path, and changes neither the
    stored path nor the working directory of the process.  No command
    handed to a subprocess by a call starts with [cd ], and a later call on
    the same instance runs its subprocess in the path the earlier call
    stored. *)
Theorem C9_cd_is_intercepted
    (shell : string -> string -> Files.FS -> outcome Terminal.completed * Files.FS)
    (cmd : string) (l : Terminal.loop) :
  (PyStr.startswith cmd "cd " = true ->
     fst (Terminal.segment shell cmd l) = Return tt
     /\ Terminal.spawned (Terminal.env (snd (Terminal.segment shell cmd l)))
        = Terminal.spawned (Terminal.env l)
     /\ Terminal.fs (Terminal.env (snd (Terminal.segment shell cmd l)))
        = Terminal.fs (Terminal.env l)
     /\ (Files.is_dir (Terminal.fs (Terminal.env l))
           (Terminal.locate (Terminal.env l) (Terminal.cd_target cmd l)) = true ->
         Terminal.current_path (snd (Terminal.segment shell cmd l))
         = Terminal.cd_target cmd l
         /\ Terminal.cwd (Terminal.env (snd (Terminal.segment shell cmd l)))
            = Files.path_str (Terminal.locate (Terminal.env l) (Terminal.cd_target cmd l))
         /\ Terminal.final_output (snd (Terminal.segment shell cmd l))
            = Terminal.final_output l +:+ "Changed directory to "
                +:+ Terminal.cd_target cmd l +:+ PyStr.newline)
     /\ (Files.is_dir (Terminal.fs (Terminal.env l))
           (Terminal.locate (Terminal.env l) (Terminal.cd_target cmd l)) = false ->
         Terminal.current_path (snd (Terminal.segment shell cmd l))
         = Terminal.current_path l
         /\ Terminal.env (snd (Terminal.segment shell cmd l)) = Terminal.env l
         /\ Terminal.final_output (snd (Terminal.segment shell cmd l))
            = Terminal.final_output l))
  /\ (PyStr.startswith cmd "cd " = false ->
      Terminal.spawned (Terminal.env (snd (Terminal.segment shell cmd l)))
      = (Terminal.spawned (Terminal.env l) ++ [(cmd, Terminal.current_path l)])%list
      /\ Terminal.current_path (snd (Terminal.segment shell cmd l))
         = Terminal.current_path l
      /\ Terminal.cwd (Terminal.env (snd (Terminal.segment shell cmd l)))
         = Terminal.cwd (Terminal.env l))
  /\ (forall command path w,
      exists new,
        Terminal.spawned (snd (Terminal.execute shell command path w))
        = (Terminal.spawned w ++ new)%list
        /\ Forall (fun e => PyStr.startswith (fst e) "cd " = false) new)
  /\ (forall command path w later,
      PyStr.startswith cmd "cd " = false ->
      Terminal.commands_of later = [cmd] ->
      Terminal.spawned
        (snd (Terminal.execute shell later
                (snd (fst (Terminal.execute shell command path w)))
                (snd (Terminal.execute shell command path w))))
      = (Terminal.spawned (snd (Terminal.execute shell command path w))
           ++ [(cmd, snd (fst (Terminal.execute shell command path w)))])%list).
Proof.
  split; [|split; [|split]].
  - intros Hcd. unfold Terminal.segment. rewrite Hcd. simpl.
    destruct (change_directory_frame cmd l) as [Hfs Hsp].
    split; [reflexivity|]. split; [exact Hsp|]. split; [exact Hfs|]. split.
    + intros Hdir. destruct (change_directory_enters cmd l Hdir) as (H1 & H2 & H3 & _).
      auto.
    + intros Hdir. exact (change_directory_stays cmd l Hdir).
  - intros Hcd. unfold Terminal.segment. rewrite Hcd.
    exact (run_subprocess_spawns shell cmd l).
  - intros command path w. unfold Terminal.execute.
    destruct (run_commands_spawns shell (Terminal.commands_of command)
                (Terminal.mkLoop path w "" "")) as (new & E & F).
    destruct (Terminal.run_commands shell (Terminal.commands_of command) _)
      as [[u|e] l1]; simpl in *; eauto.
  - intros command path w later Hcd Hlater.
    set (p1 := snd (fst (Terminal.execute shell command path w))).
    set (w1 := snd (Terminal.execute shell command path w)).
    unfold Terminal.execute at 1. rewrite Hlater. simpl.
    unfold Terminal.segment. rewrite Hcd.
    destruct (run_subprocess_spawns shell cmd (Terminal.mkLoop p1 w1 "" "")) as (Hsp & _).
    destruct (Terminal.run_subprocess shell cmd (Terminal.mkLoop p1 w1 "" ""))
      as [[u|e] l1]; simpl in *; exact Hsp.
Qed.

(** Witness of C9: [cd sub] enters the subdirectory without a subprocess,
    and [pwd] in the next call is run there. *)
Lemma C9_cd_is_intercepted_witness :
  let l0 := Terminal.mkLoop "/home/u/uranus_workspace" Scenario.world "" "" in
  (PyStr.startswith "cd sub" "cd " = true
   /\ Files.is_dir (Terminal.fs (Terminal.env l0))
        (Terminal.locate (Terminal.env l0) (Terminal.cd_target "cd sub" l0)) = true
   /\ Terminal.spawned (Terminal.env (snd (Terminal.segment Scenario.shell "cd sub" l0)))
      = []
   /\ Terminal.current_path (snd (Terminal.segment Scenario.shell "cd sub" l0))
      = "/home/u/uranus_workspace/sub")
  /\ (PyStr.startswith "pwd" "cd " = false
      /\ Terminal.commands_of "pwd" = ["pwd"]
      /\ Terminal.spawned
           (snd (Terminal.execute Scenario.shell "pwd"
                   (snd (fst (Terminal.execute Scenario.shell "cd sub"
                                "/home/u/uranus_workspace" Scenario.world)))
                   (snd (Terminal.execute Scenario.shell "cd sub"
                           "/home/u/uranus_workspace" Scenario.world))))
         = [("pwd", "/home/u/uranus_workspace/sub")]).
Proof.
  intros l0. split.
  - destruct (C9_cd_is_intercepted Scenario.shell "cd sub" l0) as (Hcd & _).
    destruct (Hcd eq_refl) as (_ & Hsp & _ & Henter & _).
    assert (Hdir : Files.is_dir (Terminal.fs (Terminal.env l0))
                     (Terminal.locate (Terminal.env l0) (Terminal.cd_target "cd sub" l0))
                   = true) by (vm_compute; reflexivity).
    destruct (Henter Hdir) as (Hpath & _).
    split; [reflexivity|]. split; [exact Hdir|]. split; [exact Hsp|].
    rewrite Hpath. vm_compute. reflexivity.
  - split; [reflexivity|]. split; [reflexivity|].
    destruct (C9_cd_is_intercepted Scenario.shell "pwd" l0) as (_ & _ & _ & Hlater).
    rewrite (Hlater "cd sub" "/home/u/uranus_workspace" Scenario.world "pwd"
               eq_refl eq_refl).
    vm_compute. reflexivity.
Defined.

(** C10.  When no exception leaves the loop, the result of
    [TerminalTool.execute] has [success] true, and the error text
    collected by the loop is found only under the key [error] of [data].
    A [cd] to a directory that does not exist does not leave the loop: it
    adds a line to the error text.  Nor does a subprocess that writes to
    standard error, whatever its exit status: its error output is added to
    the error text. *)
Theorem C10_failures_are_reported_as_success
    (shell : string -> string -> Files.FS -> outcome Terminal.completed * Files.FS) :
  (forall command path w l',
     Terminal.run_commands shell (Terminal.commands_of command)
       (Terminal.mkLoop path w "" "") = (Return tt, l') ->
     Terminal.execute shell command path w
     = (Tool.mkToolResult true (PyStr.strip (Terminal.final_output l'))
          (Some [("error", VStr (PyStr.strip (Terminal.final_error l')));
                 ("current_path", VStr (Terminal.current_path l'))]),
        Terminal.current_path l', Terminal.env l'))
  /\ (forall cmd l,
      PyStr.startswith cmd "cd " = true ->
      Terminal.exists_ (Terminal.env l) (Terminal.cd_target cmd l) = false ->
      Terminal.segment shell cmd l
      = (Return tt,
         Terminal.mkLoop (Terminal.current_path l) (Terminal.env l)
           (Terminal.final_output l)
           (Terminal.final_error l +:+ "Directory not found: "
              +:+ Terminal.cd_target cmd l +:+ PyStr.newline)))
  /\ (forall cmd l status out err fs',
      PyStr.startswith cmd "cd " = false ->
      shell cmd (Terminal.current_path l) (Terminal.fs (Terminal.env l))
      = (Return (Terminal.mkCompleted status (Terminal.Utf8 out) (Terminal.Utf8 err)), fs') ->
      err <> "" ->
      fst (Terminal.segment shell cmd l) = Return tt
      /\ Terminal.final_error (snd (Terminal.segment shell cmd l))
         = Terminal.final_error l +:+ err +:+ PyStr.newline).
Proof.
  split; [|split].
  - intros command path w l' H. unfold Terminal.execute. rewrite H. reflexivity.
  - intros cmd l Hcd Hex. unfold Terminal.segment. rewrite Hcd.
    unfold Terminal.change_directory. fold (Terminal.cd_target cmd l).
    rewrite Hex. reflexivity.
  - intros cmd l status out err fs' Hcd Hsh Herr.
    unfold Terminal.segment. rewrite Hcd.
    unfold Terminal.run_subprocess, Terminal.subprocess. simpl. rewrite Hsh. simpl.
    assert (Hne : negb (String.eqb err "") = true).
    { destruct (String.eqb_spec err ""); [contradiction | reflexivity]. }
    rewrite Hne. destruct (negb (String.eqb out "")); simpl; split; reflexivity.
Qed.

(** Witness of C10: a call with a [cd] to a missing directory, a command
    that exits with status 1 and a command the shell does not know; and the
    two kinds of failing segment one by one. *)
Lemma C10_failures_are_reported_as_success_witness :
  let l0 := Terminal.mkLoop "/home/u/uranus_workspace" Scenario.world "" "" in
  fst (fst (Terminal.execute Scenario.shell "cd nowhere & false & foo"
              "/home/u/uranus_workspace" Scenario.world))
  = Tool.mkToolResult true ""
      (Some [("error",
               VStr ("Directory not found: /home/u/uranus_workspace/nowhere"
                       +:+ PyStr.newline +:+ "/bin/sh: 1: foo: not found"));
             ("current_path", VStr "/home/u/uranus_workspace")])
  /\ Terminal.final_error (snd (Terminal.segment Scenario.shell "cd nowhere" l0))
     = "Directory not found: /home/u/uranus_workspace/nowhere" +:+ PyStr.newline
  /\ Terminal.final_error (snd (Terminal.segment Scenario.shell "foo" l0))
     = "/bin/sh: 1: foo: not found" +:+ PyStr.newline +:+ PyStr.newline.
Proof.
  intros l0.
  destruct (C10_failures_are_reported_as_success Scenario.shell) as (Hloop & Hcd & Hsub).
  split; [|split].
  - rewrite (Hloop "cd nowhere & false & foo" "/home/u/uranus_workspace" Scenario.world
               (snd (Terminal.run_commands Scenario.shell
                       (Terminal.commands_of "cd nowhere & false & foo") l0)))
      by (vm_compute; reflexivity).
    vm_compute. reflexivity.
  - rewrite (Hcd "cd nowhere" l0) by (vm_compute; reflexivity).
    vm_compute. reflexivity.
  - destruct (Hsub "foo" l0 127 ""
                ("/bin/sh: 1: foo: not found" +:+ PyStr.newline)
                Scenario.disk) as (_ & Herr);
      [reflexivity | reflexivity | discriminate |].
    rewrite Herr. reflexivity.
Defined.


(** A worker that never ends and ignores SIGTERM survives [terminate], and
    the [join] after it does not return: neither does [execute]. *)
Lemma execute_blocks (exec : string -> PythonExecute.behaviour) (code : string)
    (timeout : Z) :
  PythonExecute.run (exec code) = PythonExecute.Hangs ->
  PythonExecute.ignores_sigterm (exec code) = true ->
  PythonExecute.execute exec None None code timeout = None.
Proof.
  intros Hrun Hign.
  unfold PythonExecute.execute, PythonExecute.attempt, PythonExecute.start,
    PythonExecute.join, PythonExecute.terminate, PythonExecute.is_alive.
  cbn. rewrite Hrun. cbn. rewrite Hign. cbn. rewrite Hrun. reflexivity.
Qed.

(** A failure to start the manager process is raised by [execute]. *)
Lemma execute_raises_without_manager (exec : string -> PythonExecute.behaviour)
    (e : exn) (refusal : option exn) (code : string) (timeout : Z) :
  exists p, PythonExecute.execute exec (Some e) refusal code timeout = Some (Raise e, p).
Proof. eexists. reflexivity. Qed.





(** * Further properties *)

Section RegistryMore.
Context {W : Type}.
Implicit Types (reg : Registry.ToolRegistry W) (t : Tool.BaseTool W).

Lemma get_dict_set_ne reg key other t :
  key <> other -> Registry.get (Registry.dict_set key t reg) other = Registry.get reg other.
Proof.
  intros Hne. unfold Registry.get. induction reg as [|[k u] reg IH]; simpl.
  - destruct (String.eqb_spec key other); [contradiction | reflexivity].
  - destruct (String.eqb_spec k key) as [->|Hk]; simpl.
    + destruct (String.eqb_spec key other); [contradiction | reflexivity].
    + destruct (String.eqb k other); [reflexivity | exact IH].
Qed.

Lemma list_tools_dict_set reg key t :
  Registry.list_tools (Registry.dict_set key t reg)
  = if PyStr.mem key (Registry.list_tools reg)
    then Registry.list_tools reg
    else (Registry.list_tools reg ++ [key])%list.
Proof.
  unfold Registry.list_tools, PyStr.mem.
  induction reg as [|[k u] reg IH]; simpl; [reflexivity|].
  rewrite (String.eqb_sym key k).
  destruct (String.eqb_spec k key) as [->|Hk]; simpl; [reflexivity|].
  rewrite IH. destruct (existsb _ _); reflexivity.
Qed.

Lemma mem_In (s : string) (l : list string) : PyStr.mem s l = true <-> In s l.
Proof.
  unfold PyStr.mem. rewrite existsb_exists. split.
  - intros (x & Hin & Heq). apply String.eqb_eq in Heq. now subst.
  - intros Hin. exists s. split; [exact Hin | apply String.eqb_refl].
Qed.

End RegistryMore.

(** X1. Registering a tool and looking its name up gives that tool, also
    when the name was registered before (the last registration wins), and
    the lookup of every other name is unchanged. *)
Theorem X1_register_then_get {W : Type} (reg : Registry.ToolRegistry W)
    (t : Tool.BaseTool W) (other : string) :
  Registry.get (Registry.register reg t) (Tool.name t) = Some t
  /\ (other <> Tool.name t ->
      Registry.get (Registry.register reg t) other = Registry.get reg other).
Proof.
  split; [apply get_register|].
  intros Hne. apply get_dict_set_ne. congruence.
Qed.

Lemma X1_register_then_get_witness :
  Registry.get (Registry.register Scenario.registry Scenario.faulty) "system_info"
  = Some Scenario.system_info.
Proof.
  destruct (X1_register_then_get Scenario.registry Scenario.faulty "system_info")
    as [_ H].
  rewrite H by discriminate. reflexivity.
Defined.

(** X2. The names [list_tools] gives stay in the order of their first
    registration and without repetition: registering a new name puts it
    last, and registering a name again leaves the list as it is. *)
Theorem X2_list_tools_order {W : Type} (reg : Registry.ToolRegistry W)
    (t : Tool.BaseTool W) :
  (In (Tool.name t) (Registry.list_tools reg) ->
   Registry.list_tools (Registry.register reg t) = Registry.list_tools reg)
  /\ (~ In (Tool.name t) (Registry.list_tools reg) ->
      Registry.list_tools (Registry.register reg t)
      = (Registry.list_tools reg ++ [Tool.name t])%list)
  /\ (NoDup (Registry.list_tools reg) ->
      NoDup (Registry.list_tools (Registry.register reg t))).
Proof.
  unfold Registry.register. rewrite list_tools_dict_set.
  destruct (PyStr.mem (Tool.name t) (Registry.list_tools reg)) eqn:E.
  - apply mem_In in E. repeat split; auto. intros H; contradiction.
  - assert (Hn : ~ In (Tool.name t) (Registry.list_tools reg)).
    { intros Hin. apply mem_In in Hin. congruence. }
    repeat split; auto; [intros H; contradiction|].
    intros Hnd. apply NoDup_app. repeat split; auto.
    + intros x Hx Hx'. apply list_elem_of_In in Hx, Hx'.
      destruct Hx' as [<-|[]]. contradiction.
    + apply NoDup_singleton.
Qed.

Lemma X2_list_tools_order_witness :
  Registry.list_tools (Registry.register Scenario.registry Scenario.system_info)
  = ["system_info"; "file_operations"]
  /\ Registry.list_tools (Registry.register Scenario.registry Scenario.faulty)
     = ["system_info"; "file_operations"; "faulty"]
  /\ NoDup (Registry.list_tools (Registry.register Scenario.registry Scenario.faulty)).
Proof.
  split; [|split].
  - destruct (X2_list_tools_order Scenario.registry Scenario.system_info) as (H & _).
    rewrite H; [reflexivity | simpl; tauto].
  - destruct (X2_list_tools_order Scenario.registry Scenario.faulty) as (_ & H & _).
    rewrite H; [reflexivity|]. simpl. intros [H1|[H1|[]]]; discriminate.
  - destruct (X2_list_tools_order Scenario.registry Scenario.faulty) as (_ & _ & H).
    apply H. simpl.
    repeat (apply NoDup_cons_2; [rewrite list_elem_of_In; simpl; intuition discriminate|]).
    apply NoDup_nil_2.
Defined.

(** X3. [to_params] gives one description per registered tool, in the
    order of the registry, when every tool can build its schema; when some
    tool cannot, [to_params] raises what the first such tool raises. *)
Theorem X3_to_params {W : Type} (reg : Registry.ToolRegistry W) :
  (Forall (fun kt => exists s, Tool.get_parameters_schema (snd kt) = Return s) reg ->
   exists ps,
     Registry.to_params reg = Return ps
     /\ length ps = length reg
     /\ Forall2 (fun kt p => Tool.to_param (snd kt) = Return p) reg ps)
  /\ (forall before kt after e,
      reg = (before ++ kt :: after)%list ->
      Forall (fun kt => exists s, Tool.get_parameters_schema (snd kt) = Return s) before ->
      Tool.get_parameters_schema (snd kt) = Raise e ->
      Registry.to_params reg = Raise e).
Proof.
  split.
  - intros Hschemas.
    induction Hschemas as [|[k t] reg (s & Hs) Hall (ps & Hps & Hlen & Hall2)]; simpl.
    + exists []. repeat split. constructor.
    + simpl in Hs. unfold Tool.to_param at 1. rewrite Hs, Hps.
      eexists. split; [reflexivity|]. split; [simpl; congruence|].
      constructor; [|exact Hall2]. unfold Tool.to_param. simpl. now rewrite Hs.
  - intros before kt after e -> Hall He.
    induction Hall as [|[k t] before (s & Hs) Hall IH]; simpl.
    + destruct kt as [k t]. unfold Tool.to_param. simpl in He. now rewrite He.
    + simpl in Hs. unfold Tool.to_param at 1. rewrite Hs. now rewrite IH.
Qed.

Lemma X3_to_params_witness :
  (exists ps, Registry.to_params Scenario.registry = Return ps /\ length ps = 2%nat)
  /\ Registry.to_params (Registry.register Scenario.registry Scenario.faulty)
     = Raise (PyException "ValueError" "no schema").
Proof.
  split.
  - destruct (X3_to_params Scenario.registry) as [H _].
    destruct H as (ps & Hps & Hlen & _).
    + repeat constructor; eexists; reflexivity.
    + exists ps. split; [exact Hps | exact Hlen].
  - destruct (X3_to_params (Registry.register Scenario.registry Scenario.faulty))
      as [_ H].
    apply (H Scenario.registry ("faulty", Scenario.faulty) []).
    + reflexivity.
    + repeat constructor; eexists; reflexivity.
    + reflexivity.
Defined.


Section MemoryMore.

Lemma last_lastn {A} (k : nat) (l : list A) (x : A) :
  (1 <= k)%nat -> last (Schema.lastn k (l ++ [x])) = Some x.
Proof.
  intros Hk. unfold Schema.lastn. rewrite length_app. simpl.
  rewrite drop_app_le by lia. rewrite last_snoc. reflexivity.
Qed.

Lemma find_rev_Some {A} (p : A -> bool) (l : list A) (x : A) :
  List.find p (rev l) = Some x <->
  exists before after,
    l = (before ++ x :: after)%list /\ p x = true /\ Forall (fun y => p y = false) after.
Proof.
  induction l as [|y l IH] using rev_ind.
  - simpl. split; [discriminate|]. intros (b & a & H & _). destruct b; discriminate.
  - rewrite rev_app_distr. simpl. destruct (p y) eqn:Hy.
    + split.
      * intros [= <-]. exists l, []. repeat split; auto.
      * intros (b & a & H & Hx & Ha).
        destruct a as [|z a _] using rev_ind.
        -- apply app_inj_tail in H. destruct H as [_ ->]. reflexivity.
        -- rewrite app_comm_cons, app_assoc in H. apply app_inj_tail in H.
           destruct H as [_ ->]. apply Forall_app in Ha. destruct Ha as [_ Ha].
           inversion Ha; congruence.
    + rewrite IH. split.
      * intros (b & a & -> & Hx & Ha). exists b, (a ++ [y])%list.
        rewrite <- app_assoc. repeat split; auto.
        apply Forall_app. split; auto.
      * intros (b & a & H & Hx & Ha).
        destruct a as [|z a _] using rev_ind.
        -- apply app_inj_tail in H. destruct H as [_ ->]. congruence.
        -- rewrite app_comm_cons, app_assoc in H. apply app_inj_tail in H.
           destruct H as [-> _]. apply Forall_app in Ha. destruct Ha as [Ha _].
           eauto.
Qed.

Lemma find_rev_None {A} (p : A -> bool) (l : list A) :
  List.find p (rev l) = None <-> Forall (fun y => p y = false) l.
Proof.
  rewrite Forall_forall. split.
  - intros H y Hy. apply list_elem_of_In, in_rev in Hy.
    exact (find_none _ _ H y Hy).
  - intros H. destruct (List.find p (rev l)) eqn:E; [|reflexivity].
    apply find_some in E. destruct E as [Hin Hp].
    apply in_rev, list_elem_of_In, H in Hin. congruence.
Qed.

End MemoryMore.

(** X4. [get_recent_messages(n)] gives the last [n] messages in their
    order, all of them when there are fewer, for a positive [n]; for zero
    it gives the whole history, not an empty list, and for a negative [n]
    it gives the history without its first [-n] messages. *)
Theorem X4_get_recent_messages (m : Schema.Memory) (n : Z) :
  (1 <= n ->
   MemoryOps.get_recent_messages m n = Schema.lastn (Z.to_nat n) (Schema.messages m)
   /\ length (MemoryOps.get_recent_messages m n)
      = Nat.min (Z.to_nat n) (length (Schema.messages m)))
  /\ (n <= 0 ->
      MemoryOps.get_recent_messages m n = drop (Z.to_nat (- n)) (Schema.messages m)).
Proof.
  unfold MemoryOps.get_recent_messages. split.
  - intros Hn.
    assert (E : (if n <? Z.of_nat (length (Schema.messages m))
                 then slice_from (- n) (Schema.messages m) else Schema.messages m)
                = Schema.lastn (Z.to_nat n) (Schema.messages m)).
    { destruct (Z.ltb_spec n (Z.of_nat (length (Schema.messages m)))).
      - apply slice_from_neg_lastn; assumption.
      - unfold Schema.lastn.
        replace (length (Schema.messages m) - Z.to_nat n)%nat with 0%nat by lia.
        reflexivity. }
    rewrite E. split; [reflexivity|].
    unfold Schema.lastn. rewrite length_drop. lia.
  - intros Hn. destruct (Z.ltb_spec n (Z.of_nat (length (Schema.messages m)))).
    + unfold slice_from. destruct (Z.ltb_spec (- n) 0); [lia|].
      destruct (Z.min_spec (- n) (Z.of_nat (length (Schema.messages m))))
        as [[_ ->]|[Hle ->]]; [reflexivity|].
      rewrite Nat2Z.id. rewrite !drop_ge by lia. reflexivity.
    + replace (Z.to_nat (- n)) with 0%nat by lia. reflexivity.
Qed.

Lemma X4_get_recent_messages_witness :
  MemoryOps.get_recent_messages (Schema.mkMemory Cases.conversation 100) 2
  = [Schema.mkMessage "assistant" "b" None; Schema.mkMessage "user" "c" None]
  /\ MemoryOps.get_recent_messages (Schema.mkMemory Cases.conversation 100) 0
     = Cases.conversation.
Proof.
  split.
  - destruct (X4_get_recent_messages (Schema.mkMemory Cases.conversation 100) 2)
      as [H _].
    destruct H as [H _]; [lia|]. rewrite H. reflexivity.
  - destruct (X4_get_recent_messages (Schema.mkMemory Cases.conversation 100) 0)
      as [_ H].
    rewrite H by lia. reflexivity.
Defined.

(** X5. After [add_message] the last message is the one just added, for
    every maximum that is not negative; with a negative maximum the
    message just added can be trimmed away at once. *)
Theorem X5_get_last_message_after_add (m : Schema.Memory) (msg : Schema.Message) :
  (0 <= Schema.max_messages m ->
   MemoryOps.get_last_message (Schema.add_message m msg) = Some msg)
  /\ MemoryOps.get_last_message (Schema.add_message (Schema.mkMemory [] (-1)) msg) = None.
Proof.
  split; [|reflexivity].
  intros Hmax. unfold MemoryOps.get_last_message.
  assert (Hlast : last (Schema.messages (Schema.add_message m msg)) = Some msg).
  { destruct (Z.eq_dec (Schema.max_messages m) 0) as [H0|Hne].
    - rewrite add_message_zero_keeps_all by assumption. apply last_snoc.
    - rewrite messages_add_message by lia. apply last_lastn. lia. }
  destruct (Schema.messages (Schema.add_message m msg)); [discriminate | exact Hlast].
Qed.

Lemma X5_get_last_message_after_add_witness :
  MemoryOps.get_last_message
    (Schema.add_message (Schema.mkMemory Cases.conversation 2)
       (Schema.mkMessage "assistant" "d" None))
  = Some (Schema.mkMessage "assistant" "d" None).
Proof.
  destruct (X5_get_last_message_after_add (Schema.mkMemory Cases.conversation 2)
              (Schema.mkMessage "assistant" "d" None)) as [H _].
  apply H. simpl. lia.
Defined.

(** X6. [get_last_user_message] gives a message exactly when it is a user
    message of the memory after which no user message follows, and gives
    nothing exactly when the memory holds no user message; the same holds
    of [get_last_assistant_message] and the assistant messages. *)
Theorem X6_get_last_message_of_role (m : Schema.Memory) (x : Schema.Message) :
  (MemoryOps.get_last_user_message m = Some x <->
   exists before after,
     Schema.messages m = (before ++ x :: after)%list
     /\ Schema.role x = "user"
     /\ Forall (fun y => Schema.role y <> "user") after)
  /\ (MemoryOps.get_last_user_message m = None <->
      Forall (fun y => Schema.role y <> "user") (Schema.messages m))
  /\ (MemoryOps.get_last_assistant_message m = Some x <->
      exists before after,
        Schema.messages m = (before ++ x :: after)%list
        /\ Schema.role x = "assistant"
        /\ Forall (fun y => Schema.role y <> "assistant") after)
  /\ (MemoryOps.get_last_assistant_message m = None <->
      Forall (fun y => Schema.role y <> "assistant") (Schema.messages m)).
Proof.
  unfold MemoryOps.get_last_user_message, MemoryOps.get_last_assistant_message.
  rewrite !find_rev_Some, !find_rev_None.
  assert (Hneq : forall r (y : Schema.Message),
            String.eqb (Schema.role y) r = false <-> Schema.role y <> r).
  { intros r y. apply String.eqb_neq. }
  assert (Hall : forall r (l : list Schema.Message),
            Forall (fun y => String.eqb (Schema.role y) r = false) l
            <-> Forall (fun y => Schema.role y <> r) l).
  { intros r l. apply Forall_iff. intros y. apply Hneq. }
  repeat split.
  - intros (b & a & H1 & H2 & H3). exists b, a.
    apply String.eqb_eq in H2. apply Hall in H3. auto.
  - intros (b & a & H1 & H2 & H3). exists b, a.
    apply String.eqb_eq in H2. apply Hall in H3. auto.
  - apply Hall.
  - apply Hall.
  - intros (b & a & H1 & H2 & H3). exists b, a.
    apply String.eqb_eq in H2. apply Hall in H3. auto.
  - intros (b & a & H1 & H2 & H3). exists b, a.
    apply String.eqb_eq in H2. apply Hall in H3. auto.
  - apply Hall.
  - apply Hall.
Qed.

Lemma X6_get_last_message_of_role_witness :
  MemoryOps.get_last_assistant_message (Schema.mkMemory Cases.conversation 100)
  = Some (Schema.mkMessage "assistant" "b" None).
Proof.
  destruct (X6_get_last_message_of_role (Schema.mkMemory Cases.conversation 100)
              (Schema.mkMessage "assistant" "b" None)) as (_ & _ & [_ H] & _).
  apply H.
  exists [Schema.mkMessage "user" "a" None], [Schema.mkMessage "user" "c" None].
  split; [reflexivity|]. split; [reflexivity|].
  repeat constructor. discriminate.
Defined.

(** X7. The four convenience methods [add_user_message],
    [add_system_message], [add_assistant_message] and [add_tool_message]
    always raise [AttributeError] and add nothing to the memory: the class
    [Message] has none of the constructors they call. *)
Theorem X7_convenience_methods_raise (m : Schema.Memory) (content name : string) :
  MemoryOps.add_user_message m content
  = (Raise (PyException "AttributeError" "user_message"), m)
  /\ MemoryOps.add_system_message m content
     = (Raise (PyException "AttributeError" "system_message"), m)
  /\ MemoryOps.add_assistant_message m content
     = (Raise (PyException "AttributeError" "assistant_message"), m)
  /\ MemoryOps.add_tool_message m content name
     = (Raise (PyException "AttributeError" "tool_message"), m).
Proof. repeat split. Qed.


Section FileFacts.
Import Files.
Implicit Types (fs : FS) (p q base : Path).

Lemma strip_prefix_app base p rel :
  strip_prefix base p = Some rel <-> p = (base ++ rel)%list.
Proof.
  revert p. induction base as [|b base IH]; intros p; simpl.
  - split; congruence.
  - destruct p as [|c p]; [split; discriminate|].
    destruct (String.eqb_spec b c) as [->|Hne].
    + rewrite IH. split; congruence.
    + split; [discriminate | congruence].
Qed.

Lemma join_app_prefix (sep : string) (a b : list string) :
  exists s, PyStr.join sep (a ++ b) = PyStr.join sep a +:+ s.
Proof.
  induction a as [|x a IH].
  - exists (PyStr.join sep b). reflexivity.
  - destruct a as [|y a].
    + destruct b as [|z b].
      * exists "". simpl. now rewrite append_empty_r.
      * exists (sep +:+ PyStr.join sep (z :: b)). reflexivity.
    + destruct IH as [s IH]. exists s.
      change (PyStr.join sep ((x :: y :: a) ++ b))
        with (x +:+ sep +:+ PyStr.join sep ((y :: a) ++ b)).
      rewrite IH.
      change (PyStr.join sep (x :: y :: a)) with (x +:+ sep +:+ PyStr.join sep (y :: a)).
      now rewrite !append_assoc_s.
Qed.

Lemma check_passes_inside base rel :
  PyStr.startswith (path_str (base ++ rel)%list) (path_str base) = true.
Proof.
  unfold path_str. destruct (join_app_prefix "/" base rel) as [s ->].
  rewrite <- append_assoc_s. apply startswith_app.
Qed.

Lemma prefixes_In (done todo : list string) :
  todo <> [] -> In (done ++ todo)%list (prefixes done todo).
Proof.
  revert done. induction todo as [|c rest IH]; intros done Hne; [congruence|].
  simpl. destruct rest as [|d rest].
  - now left.
  - right.
    replace (done ++ c :: d :: rest)%list with ((done ++ [c]) ++ d :: rest)%list
      by (rewrite <- app_assoc; reflexivity).
    apply IH. discriminate.
Qed.

Lemma prefixes_nonempty (done todo : list string) :
  Forall (fun q => q <> []) (prefixes done todo).
Proof.
  revert done. induction todo as [|c rest IH]; intros done; simpl; constructor.
  - destruct done; discriminate.
  - apply IH.
Qed.

Lemma dirs_stat fs p : FileSpec.dirs fs p -> stat fs p = Some Dir.
Proof.
  intros H. destruct p as [|c p]; [reflexivity|].
  unfold FileSpec.dirs in H. rewrite Forall_forall in H. apply H.
  apply list_elem_of_In. apply (prefixes_In [] (c :: p)). discriminate.
Qed.

Lemma makedirs_along_dirs fs (ps : list Path) :
  Forall (fun q => stat fs q = Some Dir) ps -> makedirs_along fs ps = (Return tt, fs).
Proof.
  induction ps as [|q ps IH]; intros H; [reflexivity|].
  inversion H as [|? ? Hq Hps]; subst.
  destruct ps as [|r ps].
  - simpl. unfold mkdir, is_dir. rewrite Hq. simpl. rewrite Hq. reflexivity.
  - change (makedirs_along fs (q :: r :: ps))
      with (if path_exists fs q then makedirs_along fs (r :: ps)
            else match mkdir fs q with
                 | (Raise e, fs') => (Raise e, fs')
                 | (Return _, fs') => makedirs_along fs' (r :: ps)
                 end).
    unfold path_exists. rewrite Hq. apply IH, Hps.
Qed.

Lemma makedirs_dirs fs p : FileSpec.dirs fs p -> makedirs fs p = (Return tt, fs).
Proof. apply makedirs_along_dirs. Qed.

Lemma stat_insert_ne fs p q (n : node) :
  p <> q -> stat (<[p := n]> fs) q = stat fs q.
Proof.
  intros Hne. destruct q as [|c q]; [reflexivity|]. simpl.
  now rewrite lookup_insert_ne.
Qed.

Lemma stat_insert_eq fs p (n : node) :
  p <> [] -> stat (<[p := n]> fs) p = Some n.
Proof.
  intros Hne. destruct p as [|c p]; [congruence|]. simpl. apply lookup_insert_eq.
Qed.

Lemma stat_delete_ne fs p q :
  p <> q -> stat (delete p fs) q = stat fs q.
Proof.
  intros Hne. destruct q as [|c q]; [reflexivity|]. simpl.
  now rewrite lookup_delete_ne.
Qed.

Lemma dirs_insert fs p q (n : node) :
  stat fs q <> Some Dir -> FileSpec.dirs fs p -> FileSpec.dirs (<[q := n]> fs) p.
Proof.
  intros Hq Hd. unfold FileSpec.dirs. eapply Forall_impl; [exact Hd|]. intros r Hr. simpl.
  rewrite stat_insert_ne; [exact Hr|]. intros ->. contradiction.
Qed.

Lemma dirs_delete fs p q :
  stat fs q <> Some Dir -> FileSpec.dirs fs p -> FileSpec.dirs (delete q fs) p.
Proof.
  intros Hq Hd. unfold FileSpec.dirs. eapply Forall_impl; [exact Hd|]. intros r Hr. simpl.
  rewrite stat_delete_ne; [exact Hr|]. intros ->. contradiction.
Qed.

Lemma wrap_errors_raise (r : outcome Tool.ToolResult * FS) e fs :
  wrap_errors r = (Raise e, fs) -> exists m, e = ToolError m.
Proof.
  destruct r as [[res|[m|c m]] fs0]; simpl; intros [= <- <-]; eauto.
Qed.

Lemma wrap_errors_snd (r : outcome Tool.ToolResult * FS) : snd (wrap_errors r) = snd r.
Proof. destruct r as [[res|[m|c m]] fs0]; reflexivity. Qed.

Lemma rmtree_lookup fs p q :
  rmtree fs p !! q = match strip_prefix p q with Some _ => None | None => fs !! q end.
Proof.
  unfold rmtree. destruct (strip_prefix p q) as [rel|] eqn:E.
  - apply map_lookup_filter_None. right. intros x _ H. simpl in H. congruence.
  - destruct (fs !! q) as [x|] eqn:Hq.
    + apply map_lookup_filter_Some. split; [exact Hq | exact E].
    + apply map_lookup_filter_None. now left.
Qed.

End FileFacts.


Section FileChecks.

(** A test that decides [FileSpec.dirs] on a concrete file system. *)
Lemma dirs_check (fs : Files.FS) (p : Files.Path) :
  forallb (Files.is_dir fs) (Files.prefixes [] p) = true -> FileSpec.dirs fs p.
Proof.
  intros H. unfold FileSpec.dirs. rewrite Forall_forall. intros q Hq.
  rewrite forallb_forall in H. apply list_elem_of_In, H in Hq.
  unfold Files.is_dir in Hq. destruct (Files.stat fs q) as [[c|]|]; congruence.
Qed.

Lemma pair_of_fst {A B} (x : A * B) (a : A) : fst x = a -> x = (a, snd x).
Proof. intros <-. apply surjective_pairing. Qed.

(** A test that decides [FileSpec.plain] on a concrete path. *)
Lemma plain_check (p : Files.Path) :
  forallb (fun c => negb (Files.has_nul c)
                    && (String.length c <=? FileSpec.NAME_MAX)%nat) p = true ->
  (String.length (Files.path_str p) <? FileSpec.PATH_MAX)%nat = true ->
  FileSpec.plain p.
Proof.
  intros Hall Hlen. split; [|now apply Nat.ltb_lt].
  rewrite Forall_forall. intros c Hc. rewrite forallb_forall in Hall.
  apply list_elem_of_In, Hall in Hc. apply andb_true_iff in Hc as [Hnul Hmax].
  apply negb_true_iff in Hnul. apply Nat.leb_le in Hmax. now split.
Qed.

(** A text without a carriage return is read as it is stored. *)
Lemma universal_newlines_without_CR (s : string) :
  PyStr.contains s (String PyStr.CR "") = false -> PyStr.universal_newlines s = s.
Proof.
  unfold PyStr.contains. induction s as [|c r IH]; [reflexivity|].
  cbn [PyStr.partition PyStr.startswith].
  rewrite Ascii.eqb_sym.
  destruct (Ascii.eqb c PyStr.CR) eqn:Hc; [discriminate|].
  destruct (PyStr.partition (String PyStr.CR "") r) as [[a b]|] eqn:Hp; [discriminate|].
  intros _. cbn [PyStr.universal_newlines]. rewrite Hc. f_equal. now apply IH.
Qed.

End FileChecks.

(** X8. A path that resolves to the sandbox root or below it is never
    denied: the text of the resolved path starts with the text of the
    root.  For such a path, when it holds no NUL character and no name
    beyond the limits of the operating system, the operation exists
    succeeds whatever is or is not at the path, and reports whether
    something is there. *)
Theorem X8_inside_paths_are_accepted (base_dir : Files.Path) (path : string)
    (rel : Files.Path) (content recursive : pyval) (fs fs1 : Files.FS) :
  let full_path := Files.resolve (Files.joinpath base_dir path) in
  FileSpec.plain (Files.joinpath base_dir path) ->
  Files.strip_prefix base_dir full_path = Some rel ->
  Files.makedirs fs base_dir = (Return tt, fs1) ->
  PyStr.startswith (Files.path_str full_path) (Files.path_str base_dir) = true
  /\ exists out kind,
       Files.execute base_dir (VStr "exists") (VStr path) content recursive fs
       = (Return (Tool.mkToolResult true out
                    (Some [("exists", VBool (Files.path_exists fs1 full_path));
                           ("type", VStr kind);
                           ("path", VStr (Files.path_str full_path))])), fs1).
Proof.
  intros full_path Hplain Hrel Hmk.
  assert (Hcheck : PyStr.startswith (Files.path_str full_path) (Files.path_str base_dir)
                   = true).
  { apply strip_prefix_app in Hrel. rewrite Hrel. apply check_passes_inside. }
  split; [exact Hcheck|].
  unfold Files.execute. rewrite Hmk, (resolve_checked_plain _ Hplain).
  fold full_path. rewrite Hcheck. simpl.
  unfold Files._check_exists, Files.ok. simpl. eauto.
Qed.

Lemma X8_inside_paths_are_accepted_witness :
  let full_path := Files.resolve (Files.joinpath Scenario.base_dir "sub/../sub/missing.txt") in
  Files.path_str full_path = "/home/u/uranus_workspace/sub/missing.txt"
  /\ Files.path_exists Scenario.disk full_path = false
  /\ exists out kind,
       Files.execute Scenario.base_dir (VStr "exists") (VStr "sub/../sub/missing.txt")
         VNone (VBool false) Scenario.disk
       = (Return (Tool.mkToolResult true out
                    (Some [("exists", VBool (Files.path_exists Scenario.disk full_path));
                           ("type", VStr kind);
                           ("path", VStr (Files.path_str full_path))])), Scenario.disk).
Proof.
  intros full_path. split; [vm_compute; reflexivity|]. split; [vm_compute; reflexivity|].
  destruct (X8_inside_paths_are_accepted Scenario.base_dir "sub/../sub/missing.txt"
              ["sub"; "missing.txt"] VNone (VBool false) Scenario.disk Scenario.disk)
    as [_ H].
  - apply plain_check; vm_compute; reflexivity.
  - vm_compute. reflexivity.
  - apply makedirs_dirs, dirs_check. vm_compute. reflexivity.
  - exact H.
Defined.

(** X9. Once the root directory is in place, every exception that leaves
    [FileOperationsTool.execute] for a text path that holds no NUL
    character is a [ToolError]: the errors of the operations and of the
    file system are wrapped.  A path that holds a NUL character is refused
    by the resolution of the path, outside the handlers, with
    [ValueError]. *)
Theorem X9_errors_are_tool_errors (base_dir : Files.Path)
    (operation content recursive : pyval) (path : string) (fs fs1 : Files.FS) :
  Files.makedirs fs base_dir = (Return tt, fs1) ->
  (existsb Files.has_nul (Files.joinpath base_dir path) = false ->
   forall e fs',
     Files.execute base_dir operation (VStr path) content recursive fs = (Raise e, fs') ->
     exists m, e = ToolError m)
  /\ (existsb Files.has_nul (Files.joinpath base_dir path) = true ->
      Files.execute base_dir operation (VStr path) content recursive fs
      = (Raise (PyException "ValueError" "embedded null byte"), fs1)).
Proof.
  intros Hmk. split.
  - intros Hnul e fs'. unfold Files.execute.
    rewrite Hmk, (resolve_checked_no_nul _ Hnul).
    destruct (negb _).
    + intros [= <- _]. eauto.
    + apply wrap_errors_raise.
  - intros Hnul. now apply execute_raises_on_nul.
Qed.

Lemma X9_errors_are_tool_errors_witness :
  exists m,
    fst (Files.execute Scenario.base_dir (VStr "write") (VStr "sub") (VStr "text")
           (VBool false) Scenario.disk)
    = Raise (ToolError m).
Proof.
  assert (Hf : fst (Files.execute Scenario.base_dir (VStr "write") (VStr "sub")
                      (VStr "text") (VBool false) Scenario.disk)
               = Raise (ToolError
                   "Error during file operation: [Errno 21] Is a directory: '/home/u/uranus_workspace/sub'"))
    by (vm_compute; reflexivity).
  assert (Hmk : Files.makedirs Scenario.disk Scenario.base_dir
                = (Return tt, Scenario.disk)).
  { apply makedirs_dirs, dirs_check. vm_compute. reflexivity. }
  destruct (X9_errors_are_tool_errors Scenario.base_dir (VStr "write") (VStr "text")
              (VBool false) "sub" Scenario.disk Scenario.disk Hmk) as [Hwrap _].
  assert (Hnul : existsb Files.has_nul (Files.joinpath Scenario.base_dir "sub") = false)
    by (vm_compute; reflexivity).
  destruct (Hwrap Hnul _ _ (pair_of_fst _ _ Hf)) as [m Hm].
  exists m. rewrite Hf. f_equal. exact Hm.
Defined.

(** X10. The operations read, list and exists change nothing in the file
    system: what is there after the call is what the creation of the root
    directory left. *)
Theorem X10_queries_leave_files_alone (base_dir : Files.Path) (operation : string)
    (path : string) (content recursive : pyval) (fs : Files.FS) :
  In operation ["read"; "list"; "exists"] ->
  snd (Files.execute base_dir (VStr operation) (VStr path) content recursive fs)
  = snd (Files.makedirs fs base_dir).
Proof.
  intros Hop. unfold Files.execute.
  destruct (Files.makedirs fs base_dir) as [[u|e] fs1]; [|reflexivity].
  destruct (Files.resolve_checked _) as [full_path|e]; [|reflexivity].
  destruct (negb _); [reflexivity|]. rewrite wrap_errors_snd.
  destruct Hop as [<-|[<-|[<-|[]]]]; simpl.
  - unfold Files._read_file.
    destruct (negb (Files.path_exists fs1 _)); [reflexivity|].
    destruct (negb (Files.is_file fs1 _)); [reflexivity|].
    destruct (Files.stat fs1 _) as [[[s|n]|]|]; reflexivity.
  - unfold Files._list_files.
    destruct (negb (Files.path_exists fs1 _)); [reflexivity|].
    destruct (negb (Files.is_dir fs1 _)); [reflexivity|].
    destruct (Files.entries _ _); reflexivity.
  - reflexivity.
Qed.

Lemma X10_queries_leave_files_alone_witness :
  snd (Files.execute Scenario.base_dir (VStr "list") (VStr ".") VNone (VBool true)
         Scenario.disk)
  = snd (Files.makedirs Scenario.disk Scenario.base_dir).
Proof.
  apply X10_queries_leave_files_alone. simpl. tauto.
Defined.

(** X11. Writing and reading back: when the path holds no NUL character
    and no name beyond the limits of the operating system, the root and
    the parent directory of the target are in place, the path passes the
    check and the target is no directory, write stores the text at the
    resolved path and nowhere else, and a read of the same path afterwards
    returns that text as text mode reads it: with every carriage return,
    alone or followed by a line feed, read as a line feed, which is the
    text itself when it holds no carriage return. *)
Theorem X11_write_then_read (base_dir : Files.Path) (path content : string)
    (recursive : pyval) (fs : Files.FS) :
  let full_path := Files.resolve (Files.joinpath base_dir path) in
  let read_back := PyStr.universal_newlines content in
  FileSpec.plain (Files.joinpath base_dir path) ->
  FileSpec.dirs fs base_dir ->
  FileSpec.dirs fs (Files.parent full_path) ->
  PyStr.startswith (Files.path_str full_path) (Files.path_str base_dir) = true ->
  Files.stat fs full_path <> Some Files.Dir ->
  Files.execute base_dir (VStr "write") (VStr path) (VStr content) recursive fs
  = (Return (Tool.mkToolResult true
               ("Successfully wrote " +:+ pretty (String.length content)
                  +:+ " characters to " +:+ Files.path_str full_path)
               (Some [("path", VStr (Files.path_str full_path));
                      ("size", VInt (Z.of_nat (String.length content)))])),
     <[full_path := Files.File (Files.Text content)]> fs)
  /\ Files.execute base_dir (VStr "read") (VStr path) VNone recursive
       (<[full_path := Files.File (Files.Text content)]> fs)
     = (Return (Tool.mkToolResult true
                  ("File content:" +:+ PyStr.newline +:+ PyStr.newline +:+ read_back)
                  (Some [("content", VStr read_back);
                         ("path", VStr (Files.path_str full_path))])),
        <[full_path := Files.File (Files.Text content)]> fs)
  /\ (PyStr.contains content (String PyStr.CR "") = false -> read_back = content).
Proof.
  intros full_path read_back Hplain Hbase Hparent Hcheck Hnodir.
  assert (Hne : full_path <> []) by (intros E; rewrite E in Hnodir; now apply Hnodir).
  split; [|split].
  - unfold Files.execute.
    rewrite (makedirs_dirs _ _ Hbase), (resolve_checked_plain _ Hplain).
    fold full_path. rewrite Hcheck. simpl.
    unfold Files._write_file. rewrite (makedirs_dirs _ _ Hparent).
    unfold Files.write_text. rewrite (dirs_stat _ _ Hparent).
    destruct (Files.stat fs full_path) as [[c|]|]; try reflexivity. congruence.
  - unfold Files.execute.
    rewrite (makedirs_dirs _ _ (dirs_insert _ _ _ _ Hnodir Hbase)),
      (resolve_checked_plain _ Hplain).
    fold full_path. rewrite Hcheck. simpl.
    unfold Files._read_file, Files.path_exists, Files.is_file.
    rewrite (stat_insert_eq _ _ _ Hne). reflexivity.
  - apply universal_newlines_without_CR.
Qed.

(** Witness of X11: a text of two lines, the first ended by a carriage
    return and a line feed, is read back with a line feed alone. *)
Lemma X11_write_then_read_witness :
  let full_path := Files.resolve (Files.joinpath Scenario.base_dir "sub/notes.txt") in
  let content := "a" +:+ String PyStr.CR PyStr.newline +:+ "b" in
  let read_back := "a" +:+ PyStr.newline +:+ "b" in
  Files.path_str full_path = "/home/u/uranus_workspace/sub/notes.txt"
  /\ Files.execute Scenario.base_dir (VStr "read") (VStr "sub/notes.txt") VNone (VBool false)
       (<[full_path := Files.File (Files.Text content)]> Scenario.disk)
     = (Return (Tool.mkToolResult true
                  ("File content:" +:+ PyStr.newline +:+ PyStr.newline +:+ read_back)
                  (Some [("content", VStr read_back);
                         ("path", VStr (Files.path_str full_path))])),
        <[full_path := Files.File (Files.Text content)]> Scenario.disk).
Proof.
  intros full_path content read_back. split; [vm_compute; reflexivity|].
  destruct (X11_write_then_read Scenario.base_dir "sub/notes.txt" content (VBool false)
              Scenario.disk) as (_ & Hr & _).
  - apply plain_check; vm_compute; reflexivity.
  - apply dirs_check. vm_compute. reflexivity.
  - apply dirs_check. vm_compute. reflexivity.
  - vm_compute. reflexivity.
  - intros H. vm_compute in H. discriminate.
  - exact Hr.
Defined.

(** X12. Deleting a directory, for a path text that holds no NUL
    character: without the recursive flag the call raises a [ToolError]
    and the file system stays as it is; with the flag the directory and
    everything below it are gone and every other path keeps what it
    held. *)
Theorem X12_delete_directory (base_dir : Files.Path) (path : string)
    (content recursive : pyval) (fs : Files.FS) :
  let full_path := Files.resolve (Files.joinpath base_dir path) in
  existsb Files.has_nul (Files.joinpath base_dir path) = false ->
  FileSpec.dirs fs base_dir ->
  PyStr.startswith (Files.path_str full_path) (Files.path_str base_dir) = true ->
  Files.stat fs full_path = Some Files.Dir ->
  (Py.truthy recursive = false ->
   Files.execute base_dir (VStr "delete") (VStr path) content recursive fs
   = (Raise (ToolError ("Cannot delete directory without recursive=True: "
                          +:+ Files.path_str full_path)), fs))
  /\ (Py.truthy recursive = true ->
      exists r fs',
        Files.execute base_dir (VStr "delete") (VStr path) content recursive fs
        = (Return r, fs')
        /\ Tool.success r = true
        /\ forall q,
             fs' !! q = match Files.strip_prefix full_path q with
                        | Some _ => None
                        | None => fs !! q
                        end).
Proof.
  intros full_path Hnul Hbase Hcheck Hdir.
  assert (Hex : Files.execute base_dir (VStr "delete") (VStr path) content recursive fs
                = Files.wrap_errors (Files._delete_file fs full_path recursive)).
  { unfold Files.execute.
    rewrite (makedirs_dirs _ _ Hbase), (resolve_checked_no_nul _ Hnul).
    fold full_path. rewrite Hcheck. reflexivity. }
  rewrite Hex. unfold Files._delete_file, Files.path_exists, Files.is_file, Files.is_dir.
  rewrite Hdir. simpl. split; intros Hrec; rewrite Hrec; simpl.
  - reflexivity.
  - do 2 eexists. split; [reflexivity|]. split; [reflexivity|].
    intros q. apply rmtree_lookup.
Qed.

Lemma X12_delete_directory_witness :
  let full_path := Files.resolve (Files.joinpath Scenario.base_dir "sub") in
  Files.execute Scenario.base_dir (VStr "delete") (VStr "sub") VNone (VBool false)
    Scenario.disk
  = (Raise (ToolError ("Cannot delete directory without recursive=True: "
                         +:+ Files.path_str full_path)), Scenario.disk)
  /\ exists r fs',
       Files.execute Scenario.base_dir (VStr "delete") (VStr "sub") VNone (VBool true)
         Scenario.disk = (Return r, fs')
       /\ fs' !! ["home"; "u"; "uranus_workspace"; "sub"] = None
       /\ fs' !! ["home"; "u"; "uranus_workspace"] = Some Files.Dir.
Proof.
  intros full_path. split.
  - destruct (X12_delete_directory Scenario.base_dir "sub" VNone (VBool false)
                Scenario.disk) as [H _].
    + vm_compute. reflexivity.
    + apply dirs_check. vm_compute. reflexivity.
    + vm_compute. reflexivity.
    + vm_compute. reflexivity.
    + apply H. reflexivity.
  - destruct (X12_delete_directory Scenario.base_dir "sub" VNone (VBool true)
                Scenario.disk) as [_ H].
    + vm_compute. reflexivity.
    + apply dirs_check. vm_compute. reflexivity.
    + vm_compute. reflexivity.
    + vm_compute. reflexivity.
    + destruct (H eq_refl) as (r & fs' & E & _ & Hq).
      exists r, fs'. split; [exact E|].
      split; rewrite Hq; vm_compute; reflexivity.
Defined.

(** X13. For a path text that holds no NUL character, deleting a file
    removes that path and no other, and an exists check of the same path
    afterwards succeeds and reports that nothing is there. *)
Theorem X13_delete_file_then_exists (base_dir : Files.Path) (path : string)
    (content recursive : pyval) (c : Files.file_content) (fs : Files.FS) :
  let full_path := Files.resolve (Files.joinpath base_dir path) in
  existsb Files.has_nul (Files.joinpath base_dir path) = false ->
  FileSpec.dirs fs base_dir ->
  PyStr.startswith (Files.path_str full_path) (Files.path_str base_dir) = true ->
  Files.stat fs full_path = Some (Files.File c) ->
  Files.execute base_dir (VStr "delete") (VStr path) content recursive fs
  = (Return (Tool.mkToolResult true ("File deleted: " +:+ Files.path_str full_path)
               (Some [("path", VStr (Files.path_str full_path)); ("type", VStr "file")])),
     delete full_path fs)
  /\ (forall q, q <> full_path -> delete full_path fs !! q = fs !! q)
  /\ Files.execute base_dir (VStr "exists") (VStr path) content recursive
       (delete full_path fs)
     = (Return (Tool.mkToolResult true
                  ("Path does not exist: " +:+ Files.path_str full_path +:+ " ")
                  (Some [("exists", VBool false); ("type", VStr "");
                         ("path", VStr (Files.path_str full_path))])),
        delete full_path fs).
Proof.
  intros full_path Hnul Hbase Hcheck Hfile.
  assert (Hne : full_path <> []) by (intros E; rewrite E in Hfile; discriminate).
  assert (Hnodir : Files.stat fs full_path <> Some Files.Dir) by congruence.
  split; [|split].
  - unfold Files.execute.
    rewrite (makedirs_dirs _ _ Hbase), (resolve_checked_no_nul _ Hnul).
    fold full_path. rewrite Hcheck. simpl.
    unfold Files._delete_file, Files.path_exists, Files.is_file. rewrite Hfile.
    reflexivity.
  - intros q Hq. now apply lookup_delete_ne.
  - unfold Files.execute.
    rewrite (makedirs_dirs _ _ (dirs_delete _ _ _ Hnodir Hbase)),
      (resolve_checked_no_nul _ Hnul).
    fold full_path. rewrite Hcheck. simpl.
    unfold Files._check_exists, Files.path_exists, Files.is_file, Files.is_dir.
    assert (Hgone : Files.stat (delete full_path fs) full_path = None).
    { destruct full_path; [congruence|]. simpl. apply lookup_delete_eq. }
    rewrite Hgone. reflexivity.
Qed.

Lemma X13_delete_file_then_exists_witness :
  let full_path := Files.resolve (Files.joinpath Scenario.base_dir "notes.txt") in
  let fs := <[full_path := Files.File (Files.Text "hi")]> Scenario.disk in
  Files.execute Scenario.base_dir (VStr "exists") (VStr "notes.txt") VNone (VBool false)
    (delete full_path fs)
  = (Return (Tool.mkToolResult true
               ("Path does not exist: " +:+ Files.path_str full_path +:+ " ")
               (Some [("exists", VBool false); ("type", VStr "");
                      ("path", VStr (Files.path_str full_path))])),
     delete full_path fs).
Proof.
  intros full_path fs.
  destruct (X13_delete_file_then_exists Scenario.base_dir "notes.txt" VNone (VBool false)
              (Files.Text "hi") fs) as (_ & _ & He).
  - vm_compute. reflexivity.
  - apply dirs_check. vm_compute. reflexivity.
  - vm_compute. reflexivity.
  - vm_compute. reflexivity.
  - exact He.
Defined.


(** X14. Once the root directory is in place [FileSaverTool.execute]
    returns a result and does not raise, for a path text that holds no NUL
    character; such a path whose resolved text does not start with the
    text of the root is answered by a failure result, not by an exception,
    and nothing is written.  A path that holds a NUL character is refused
    by the resolution of the path, which is outside the handler: the call
    raises [ValueError]. *)
Theorem X14_file_saver_returns (base_dir : Files.Path) (content file_path : string)
    (mode : FileSaver.open_mode) (fs fs1 : Files.FS) :
  Files.makedirs fs base_dir = (Return tt, fs1) ->
  (existsb Files.has_nul (Files.joinpath base_dir file_path) = false ->
   (exists r fs', FileSaver.execute base_dir content file_path mode fs = (Return r, fs'))
   /\ (PyStr.startswith
         (Files.path_str (Files.resolve (Files.joinpath base_dir file_path)))
         (Files.path_str base_dir) = false ->
       FileSaver.execute base_dir content file_path mode fs
       = (Return (FileSaver.failure ("Access denied: Path must be within "
                                       +:+ Files.path_str base_dir)), fs1)))
  /\ (existsb Files.has_nul (Files.joinpath base_dir file_path) = true ->
      FileSaver.execute base_dir content file_path mode fs
      = (Raise (PyException "ValueError" "embedded null byte"), fs1)).
Proof.
  intros Hmk. unfold FileSaver.execute. rewrite Hmk. split.
  - intros Hnul. rewrite (resolve_checked_no_nul _ Hnul). split.
    + destruct (negb _); [eauto|].
      destruct (FileSaver.attempt _ _ _ _ _) as [[r|e] fs2]; eauto.
    + intros ->. reflexivity.
  - intros Hnul. unfold Files.resolve_checked. now rewrite Hnul.
Qed.

Lemma X14_file_saver_returns_witness :
  FileSaver.execute Scenario.base_dir "text" "../../etc/passwd" FileSaver.Write
    Scenario.disk
  = (Return (FileSaver.failure ("Access denied: Path must be within "
                                  +:+ Files.path_str Scenario.base_dir)),
     Scenario.disk).
Proof.
  destruct (X14_file_saver_returns Scenario.base_dir "text" "../../etc/passwd"
              FileSaver.Write Scenario.disk Scenario.disk) as [H _].
  - apply makedirs_dirs, dirs_check. vm_compute. reflexivity.
  - destruct H as [_ H].
    + vm_compute. reflexivity.
    + apply H. vm_compute. reflexivity.
Defined.

(** X15. Saving in write mode and then in append mode leaves the two
    texts one after the other in the file, when the path holds no NUL
    character and no name beyond the limits of the operating system, the
    root and the parent directory of the target are in place, the path
    passes the check and the target is no directory; no other path is
    changed. *)
Theorem X15_save_then_append (base_dir : Files.Path) (first second file_path : string)
    (fs : Files.FS) :
  let full_path := Files.resolve (Files.joinpath base_dir file_path) in
  let saved := Tool.mkToolResult true ("Content saved to " +:+ file_path)
                 (Some [("path", VStr (Files.path_str full_path))]) in
  FileSpec.plain (Files.joinpath base_dir file_path) ->
  FileSpec.dirs fs base_dir ->
  FileSpec.dirs fs (Files.parent full_path) ->
  PyStr.startswith (Files.path_str full_path) (Files.path_str base_dir) = true ->
  Files.stat fs full_path <> Some Files.Dir ->
  FileSaver.execute base_dir first file_path FileSaver.Write fs
  = (Return saved, <[full_path := Files.File (Files.Text first)]> fs)
  /\ FileSaver.execute base_dir second file_path FileSaver.Append
       (<[full_path := Files.File (Files.Text first)]> fs)
     = (Return saved, <[full_path := Files.File (Files.Text (first +:+ second))]> fs).
Proof.
  intros full_path saved Hplain Hbase Hparent Hcheck Hnodir.
  assert (Hne : full_path <> []) by (intros E; rewrite E in Hnodir; now apply Hnodir).
  split.
  - unfold FileSaver.execute.
    rewrite (makedirs_dirs _ _ Hbase), (resolve_checked_plain _ Hplain).
    fold full_path. rewrite Hcheck. simpl.
    unfold FileSaver.attempt. rewrite (makedirs_dirs _ _ Hparent).
    unfold FileSaver.save_text. rewrite (dirs_stat _ _ Hparent).
    destruct (Files.stat fs full_path) as [[c|]|]; try reflexivity. congruence.
  - unfold FileSaver.execute.
    rewrite (makedirs_dirs _ _ (dirs_insert _ _ _ _ Hnodir Hbase)),
      (resolve_checked_plain _ Hplain).
    fold full_path. rewrite Hcheck. simpl.
    unfold FileSaver.attempt.
    rewrite (makedirs_dirs _ _ (dirs_insert _ _ _ _ Hnodir Hparent)).
    unfold FileSaver.save_text.
    rewrite (stat_insert_eq _ _ _ Hne).
    rewrite (dirs_stat _ _ (dirs_insert _ _ _ _ Hnodir Hparent)).
    rewrite insert_insert_eq. reflexivity.
Qed.

Lemma X15_save_then_append_witness :
  let full_path := Files.resolve (Files.joinpath Scenario.base_dir "log.txt") in
  snd (FileSaver.execute Scenario.base_dir "b" "log.txt" FileSaver.Append
         (<[full_path := Files.File (Files.Text "a")]> Scenario.disk))
  = <[full_path := Files.File (Files.Text "ab")]> Scenario.disk.
Proof.
  intros full_path.
  destruct (X15_save_then_append Scenario.base_dir "a" "b" "log.txt" Scenario.disk)
    as [_ Ha].
  - apply plain_check; vm_compute; reflexivity.
  - apply dirs_check. vm_compute. reflexivity.
  - apply dirs_check. vm_compute. reflexivity.
  - vm_compute. reflexivity.
  - intros H. vm_compute in H. discriminate.
  - fold full_path in Ha. rewrite Ha. reflexivity.
Defined.


Section TerminalMore.
Import Terminal.
Variable shell : string -> string -> Files.FS -> outcome completed * Files.FS.
Implicit Types (l : loop) (cmd : string).

Lemma run_commands_app (before after : list string) : forall l,
  run_commands shell (before ++ after) l
  = match run_commands shell before l with
    | (Return _, l1) => run_commands shell after l1
    | (Raise e, l1) => (Raise e, l1)
    end.
Proof.
  induction before as [|c before IH]; intros l; simpl.
  - reflexivity.
  - destruct (segment shell c l) as [[u|e] l1]; [apply IH | reflexivity].
Qed.

Lemma run_commands_without_cd (commands : list string) : forall l,
  Forall (fun c => PyStr.startswith c "cd " = false) commands ->
  current_path (snd (run_commands shell commands l)) = current_path l
  /\ cwd (env (snd (run_commands shell commands l))) = cwd (env l).
Proof.
  induction commands as [|c rest IH]; intros l Hall; simpl; [split; reflexivity|].
  inversion Hall as [|? ? Hc Hrest]; subst.
  unfold segment. rewrite Hc.
  destruct (run_subprocess_spawns shell c l) as (_ & Hp & Hw).
  destruct (run_subprocess shell c l) as [[u|e] l1]; simpl in *.
  - destruct (IH l1 Hrest) as [Hp' Hw']. split; congruence.
  - split; assumption.
Qed.

Lemma startswith_slash_app (a b : string) :
  PyStr.startswith a "/" = true -> PyStr.startswith (a +:+ b) "/" = true.
Proof. destruct a as [|c a]; [discriminate|]. rewrite append_cons. simpl. auto. Qed.

Lemma isabs_join (a b : string) : isabs a = true -> isabs (join a b) = true.
Proof.
  unfold isabs, join. intros Ha.
  destruct (PyStr.startswith b "/") eqn:Hb; [exact Hb|].
  destruct (_ || _)%bool; now apply startswith_slash_app.
Qed.

Lemma isabs_normpath (p : string) : isabs p = true -> isabs (normpath p) = true.
Proof.
  unfold isabs, normpath. intros Hp.
  destruct p as [|c p]; [discriminate|]. simpl String.eqb at 1. cbv iota.
  rewrite Hp.
  destruct (PyStr.startswith (String c p) "//" && negb (PyStr.startswith (String c p) "///"))%bool;
    reflexivity.
Qed.

Lemma isabs_cd_target cmd l : isabs (current_path l) = true -> isabs (cd_target cmd l) = true.
Proof.
  intros Hcur. unfold cd_target, abspath.
  set (p := PyStr.strip (PyStr.drop 3 cmd)).
  destruct (isabs p) eqn:Hp; simpl.
  - rewrite Hp. now apply isabs_normpath.
  - rewrite (isabs_join _ p Hcur). apply isabs_normpath, isabs_join, Hcur.
Qed.

Lemma isabs_change_directory cmd l :
  isabs (current_path l) = true -> isabs (current_path (change_directory cmd l)) = true.
Proof.
  intros Hcur. unfold change_directory. fold (cd_target cmd l).
  destruct (negb (exists_ (env l) (cd_target cmd l))); [exact Hcur|].
  destruct (chdir (env l) (cd_target cmd l)) as [[u|e] w']; simpl;
    [now apply isabs_cd_target | exact Hcur].
Qed.

Lemma isabs_run_commands (commands : list string) : forall l,
  isabs (current_path l) = true ->
  isabs (current_path (snd (run_commands shell commands l))) = true.
Proof.
  induction commands as [|c rest IH]; intros l Hcur; simpl; [exact Hcur|].
  unfold segment. destruct (PyStr.startswith c "cd ").
  - apply IH, isabs_change_directory, Hcur.
  - destruct (run_subprocess_spawns shell c l) as (_ & Hp & _).
    destruct (run_subprocess shell c l) as [[u|e] l1]; simpl in *.
    + apply IH. now rewrite Hp.
    + now rewrite Hp.
Qed.

End TerminalMore.

(** X16. A call whose segments are all handed to subprocesses (none starts
    with [cd ]) changes neither the path stored in the tool instance nor
    the working directory of the process, whatever the subprocesses do and
    also when one of them cannot be spawned. *)
Theorem X16_only_cd_moves
    (shell : string -> string -> Files.FS -> outcome Terminal.completed * Files.FS)
    (command path : string) (w : Terminal.world) :
  Forall (fun c => PyStr.startswith c "cd " = false) (Terminal.commands_of command) ->
  snd (fst (Terminal.execute shell command path w)) = path
  /\ Terminal.cwd (snd (Terminal.execute shell command path w)) = Terminal.cwd w.
Proof.
  intros Hall. unfold Terminal.execute.
  destruct (run_commands_without_cd shell (Terminal.commands_of command)
              (Terminal.mkLoop path w "" "") Hall) as [Hp Hw].
  destruct (Terminal.run_commands shell (Terminal.commands_of command) _)
    as [[u|e] l1]; simpl in *; auto.
Qed.

Lemma X16_only_cd_moves_witness :
  snd (fst (Terminal.execute Cases.shell "pwd & crash & false"
              "/home/u/uranus_workspace/sub" Scenario.world))
  = "/home/u/uranus_workspace/sub"
  /\ Terminal.cwd (snd (Terminal.execute Cases.shell "pwd & crash & false"
                          "/home/u/uranus_workspace/sub" Scenario.world))
     = "/home/u/uranus_workspace".
Proof.
  destruct (X16_only_cd_moves Cases.shell "pwd & crash & false"
              "/home/u/uranus_workspace/sub" Scenario.world) as [Hp Hw].
  - repeat constructor.
  - split; [exact Hp | rewrite Hw; reflexivity].
Defined.

(** X17. When the subprocess of a segment raises (it cannot be spawned, or
    its output does not decode), the segments after it are not run: the
    result is the failure that carries the message, the output collected
    so far is dropped, and the stored path is the one the earlier segments
    left. *)
Theorem X17_exception_ends_the_call
    (shell : string -> string -> Files.FS -> outcome Terminal.completed * Files.FS)
    (command path : string) (w : Terminal.world)
    (before after : list string) (cmd : string) (l1 l2 : Terminal.loop) (e : exn) :
  Terminal.commands_of command = (before ++ cmd :: after)%list ->
  Terminal.run_commands shell before (Terminal.mkLoop path w "" "") = (Return tt, l1) ->
  Terminal.segment shell cmd l1 = (Raise e, l2) ->
  Terminal.execute shell command path w
  = (Tool.mkToolResult false ("Error executing command: " +:+ exn_str e) None,
     Terminal.current_path l2, Terminal.env l2)
  /\ Terminal.current_path l2 = Terminal.current_path l1
  /\ Terminal.spawned (Terminal.env l2)
     = (Terminal.spawned (Terminal.env l1) ++ [(cmd, Terminal.current_path l1)])%list.
Proof.
  intros Hcmds Hbefore Hseg. split.
  - unfold Terminal.execute. rewrite Hcmds, run_commands_app, Hbefore. simpl.
    rewrite Hseg. reflexivity.
  - unfold Terminal.segment in Hseg.
    destruct (PyStr.startswith cmd "cd "); [discriminate|].
    destruct (run_subprocess_spawns shell cmd l1) as (Hsp & Hp & _).
    rewrite Hseg in Hsp, Hp. simpl in Hsp, Hp. auto.
Qed.

Lemma X17_exception_ends_the_call_witness :
  let l1 := snd (Terminal.run_commands Cases.shell ["cd sub"]
                   (Terminal.mkLoop "/home/u/uranus_workspace" Scenario.world "" "")) in
  let l2 := snd (Terminal.segment Cases.shell "crash" l1) in
  Terminal.execute Cases.shell "cd sub & crash & pwd" "/home/u/uranus_workspace"
    Scenario.world
  = (Tool.mkToolResult false "Error executing command: cannot spawn" None,
     Terminal.current_path l2, Terminal.env l2)
  /\ Terminal.current_path l2 = "/home/u/uranus_workspace/sub"
  /\ Terminal.spawned (Terminal.env l2) = [("crash", "/home/u/uranus_workspace/sub")].
Proof.
  intros l1 l2.
  destruct (X17_exception_ends_the_call Cases.shell "cd sub & crash & pwd"
              "/home/u/uranus_workspace" Scenario.world ["cd sub"] ["pwd"] "crash"
              l1 l2 (PyException "OSError" "cannot spawn"))
    as (Hex & Hp & Hsp).
  - vm_compute. reflexivity.
  - apply pair_of_fst. vm_compute. reflexivity.
  - apply pair_of_fst. vm_compute. reflexivity.
  - split; [exact Hex|]. split; [rewrite Hp | rewrite Hsp]; vm_compute; reflexivity.
Defined.

(** X18. The path stored in the tool instance stays absolute: when it is
    absolute before a call it is absolute after it, whatever the command
    is. *)
Theorem X18_stored_path_stays_absolute
    (shell : string -> string -> Files.FS -> outcome Terminal.completed * Files.FS)
    (command path : string) (w : Terminal.world) :
  Terminal.isabs path = true ->
  Terminal.isabs (snd (fst (Terminal.execute shell command path w))) = true.
Proof.
  intros Hp. unfold Terminal.execute.
  assert (H := isabs_run_commands shell (Terminal.commands_of command)
                 (Terminal.mkLoop path w "" "") Hp).
  destruct (Terminal.run_commands shell (Terminal.commands_of command) _)
    as [[u|e] l1]; exact H.
Qed.

Lemma X18_stored_path_stays_absolute_witness :
  Terminal.isabs
    (snd (fst (Terminal.execute Scenario.shell "cd ../../.. & cd uranus_workspace/sub"
                 "/home/u/uranus_workspace" Scenario.world))) = true.
Proof.
  apply X18_stored_path_stays_absolute. reflexivity.
Defined.


Section AgentMore.
Context {W : Type}.
Implicit Types (a : Agent.BaseAgent W) (w : W).

Ltac settle :=
  unfold AgentSpec.settled; simpl;
  first [left; reflexivity | right; eexists; split; reflexivity].

Lemma settled_browser_search a input_text w :
  AgentSpec.settled a (Agent.browser_search a input_text w).
Proof.
  unfold Agent.browser_search.
  destruct (Registry.get (Agent.tools a) "browser") as [t|]; [|settle].
  destruct (Tool.execute t _ w) as [[r|e] w']; [|settle].
  destruct (Tool.success r); settle.
Qed.

Lemma settled_browser_navigate a input_text w :
  AgentSpec.settled a (Agent.browser_navigate a input_text w).
Proof.
  unfold Agent.browser_navigate.
  destruct (Registry.get (Agent.tools a) "browser") as [t|]; [|settle].
  destruct (Tool.execute t _ w) as [[r|e] w']; [|settle].
  destruct (Tool.success r); settle.
Qed.

Lemma settled_browser_open_url a input_text w :
  AgentSpec.settled a (Agent.browser_open_url a input_text w).
Proof.
  unfold Agent.browser_open_url.
  destruct (Registry.get (Agent.tools a) "browser_use") as [t|]; [|settle].
  destruct (PyStr.split_max " " 1 input_text) as [|x [|y l]]; try settle.
  destruct (Tool.execute t _ w) as [[r|e] w']; [|settle].
  destruct (Tool.success r); settle.
Qed.

Lemma settled_terminal_command a input_text w :
  AgentSpec.settled a (Agent.terminal_command a input_text w).
Proof.
  unfold Agent.terminal_command.
  destruct (Registry.get (Agent.tools a) "terminal") as [t|]; [|settle].
  destruct (Tool.execute t _ w) as [[r|e] w']; [|settle].
  destruct (Tool.success r); settle.
Qed.

Lemma settled_create_file a input_text w :
  AgentSpec.settled a (Agent.create_file a input_text w).
Proof.
  unfold Agent.create_file.
  destruct (Registry.get (Agent.tools a) "file_operations") as [t|]; [|settle].
  destruct (PyStr.split_max " file " 1 (PyStr.lower input_text)) as [|x [|y l]];
    try settle.
  destruct (Tool.execute t _ w) as [[r|e] w']; [|settle].
  destruct (Tool.success r); settle.
Qed.

Lemma settled_list_files a input_text w :
  AgentSpec.settled a (Agent.list_files a input_text w).
Proof.
  unfold Agent.list_files.
  destruct (Registry.get (Agent.tools a) "file_operations") as [t|]; [|settle].
  destruct (Tool.execute t _ w) as [[r|e] w']; [|settle].
  destruct (Tool.success r); [|settle].
  destruct (Tool.data r) as [d|]; [|settle].
  destruct (Py.truthy _); [|settle].
  destruct (Py.str_join _ _); settle.
Qed.

Lemma settled_ask_llm a w : AgentSpec.settled a (Agent.ask_llm a w).
Proof.
  unfold Agent.ask_llm.
  destruct (Agent.llm a _ _ w) as [[r|e] w']; settle.
Qed.

Lemma settled_dispatch_rest a input_text w :
  AgentSpec.settled a (Agent.dispatch_rest a input_text w).
Proof.
  unfold Agent.dispatch_rest.
  repeat match goal with
         | |- AgentSpec.settled _ (if ?c then _ else _) => destruct c
         end;
    auto using settled_browser_search, settled_browser_navigate,
      settled_browser_open_url, settled_terminal_command, settled_create_file,
      settled_list_files, settled_ask_llm.
Qed.

Lemma settled_dispatch a input_text w :
  AgentSpec.settled a (Agent.dispatch a input_text w).
Proof.
  unfold Agent.dispatch.
  destruct (Agent.is_system_query input_text); [|apply settled_dispatch_rest].
  destruct (Registry.get (Agent.tools a) "system_info") as [t|];
    [|apply settled_dispatch_rest].
  destruct (Tool.execute t [] w) as [[r|e] w']; [|settle].
  destruct (Tool.success r); [settle | apply settled_dispatch_rest].
Qed.

(** What [next_step] leaves in the agent when the tool descriptions can be
    built. *)
Lemma next_step_cases a input_text w ps :
  Registry.to_params (Agent.tools a) = Return ps ->
  let a1 := Agent.remember a Schema.MessageRole.USER input_text in
  exists out,
    fst (fst (Agent.next_step a input_text w)) = Return out
    /\ (snd (fst (Agent.next_step a input_text w)) = a1
        \/ snd (fst (Agent.next_step a input_text w))
           = Agent.remember a1 Schema.MessageRole.ASSISTANT out
        \/ (exists e, out = "Error: " +:+ exn_str e)
           /\ snd (fst (Agent.next_step a input_text w)) = Agent.set_state a1 "ERROR").
Proof.
  intros Hps a1. unfold Agent.next_step. fold a1.
  change (Agent.tools a1) with (Agent.tools a). rewrite Hps.
  destruct (settled_dispatch a1 input_text w) as [Hsame|(out & Hout & Hadd)];
    destruct (Agent.dispatch a1 input_text w) as [[[out'|e] a2] w2]; simpl in *; subst.
  - eauto.
  - eexists. split; [reflexivity|]. right. right. eauto.
  - injection Hout as ->. eauto.
  - discriminate.
Qed.

End AgentMore.

(** X19. When the descriptions of the registered tools can be built,
    [next_step] returns a text and never raises.  It first appends the
    input to the memory as a user message; after that it either leaves the
    agent alone, or appends one assistant message whose content is the
    text it returns, or (after an exception in a tool or in the LLM) sets
    the state to ERROR and returns a text that starts with the error
    prefix.  The tools, the LLM and the prompts of the agent are never
    changed. *)
Theorem X19_next_step_memory_discipline {W : Type} (a : Agent.BaseAgent W)
    (input_text : string) (w : W) (ps : list pyval) :
  Registry.to_params (Agent.tools a) = Return ps ->
  let a1 := Agent.remember a Schema.MessageRole.USER input_text in
  let a' := snd (fst (Agent.next_step a input_text w)) in
  exists out,
    fst (fst (Agent.next_step a input_text w)) = Return out
    /\ (a' = a1
        \/ a' = Agent.remember a1 Schema.MessageRole.ASSISTANT out
        \/ (exists e, out = "Error: " +:+ exn_str e) /\ a' = Agent.set_state a1 "ERROR")
    /\ Agent.tools a' = Agent.tools a
    /\ Agent.llm a' = Agent.llm a
    /\ Agent.system_prompt a' = Agent.system_prompt a
    /\ Agent.name a' = Agent.name a.
Proof.
  intros Hps a1 a'.
  destruct (next_step_cases a input_text w ps Hps) as (out & Hout & Hcases).
  exists out. split; [exact Hout|]. split; [exact Hcases|].
  fold a' in Hcases. destruct Hcases as [->|[->|[_ ->]]]; repeat split.
Qed.

Lemma X19_next_step_memory_discipline_witness :
  Schema.messages
    (Agent.memory (snd (fst (Agent.next_step Scenario.agent "Say 'Test successful'"
                               Scenario.disk))))
  = [Schema.mkMessage "user" "Say 'Test successful'" None;
     Schema.mkMessage "assistant" "Test successful" None].
Proof.
  destruct (X19_next_step_memory_discipline Scenario.agent "Say 'Test successful'"
              Scenario.disk) with (ps := match Registry.to_params Scenario.registry with
                                         | Return ps => ps
                                         | Raise _ => []
                                         end)
    as (out & Hout & _ & _); [reflexivity|].
  vm_compute. reflexivity.
Defined.

(** X20. When the descriptions of the registered tools can be built,
    [run] with the [next_step] of [ReactiveAgent] returns a text for every
    input and never raises.  Afterwards the state is IDLE for an input
    without a system status keyword, and RUNNING or ERROR for an input
    with one. *)
Theorem X20_run_returns_text {W : Type} (a : Agent.BaseAgent W) (input_text : string)
    (w : W) (ps : list pyval) :
  Registry.to_params (Agent.tools a) = Return ps ->
  exists out a' w',
    Agent.run Agent.next_step a input_text w = (Return out, a', w')
    /\ (Agent.is_system_query input_text = false -> Agent.state a' = "IDLE")
    /\ (Agent.is_system_query input_text = true ->
        Agent.state a' = "RUNNING" \/ Agent.state a' = "ERROR").
Proof.
  intros Hps.
  destruct (next_step_cases (Agent.set_state a "RUNNING") input_text w ps Hps)
    as (out & Hout & Hcases).
  destruct (Agent.next_step (Agent.set_state a "RUNNING") input_text w)
    as [[o a2] w2] eqn:E. simpl in Hout, Hcases. subst o.
  destruct (Agent.is_system_query input_text) eqn:Hq.
  - exists out, a2, w2. split; [apply (run_system_query _ _ _ _ _ _ _ Hq E)|].
    split; [discriminate|]. intros _.
    destruct Hcases as [->|[->|[_ ->]]]; auto.
  - exists out, (Agent.set_state a2 "IDLE"), w2.
    split; [apply (run_other_query _ _ _ _ _ _ _ Hq E)|].
    split; [reflexivity | discriminate].
Qed.

Lemma X20_run_returns_text_witness :
  exists out a' w',
    Agent.run Agent.next_step Scenario.agent "search cats" Scenario.disk
    = (Return out, a', w')
    /\ Agent.state a' = "IDLE".
Proof.
  destruct (X20_run_returns_text Scenario.agent "search cats" Scenario.disk)
    with (ps := match Registry.to_params Scenario.registry with
                | Return ps => ps
                | Raise _ => []
                end)
    as (out & a' & w' & Hrun & Hidle & _); [reflexivity|].
  exists out, a', w'. split; [exact Hrun | apply Hidle; reflexivity].
Defined.

(** X21. With no browser tool registered, an input without a system status
    keyword that starts with search, navigate to or go to (in any case of
    letters) is answered by the sentence that the browser tool is not
    available; the input has been appended to the memory, the answer has
    not, and the world is untouched. *)
Theorem X21_missing_browser_tool {W : Type} (a : Agent.BaseAgent W) (input_text : string)
    (w : W) (ps : list pyval) :
  Registry.to_params (Agent.tools a) = Return ps ->
  Agent.is_system_query input_text = false ->
  Registry.get (Agent.tools a) "browser" = None ->
  PyStr.startswith_any (PyStr.lower input_text) ["search "; "navigate to "; "go to "] = true ->
  Agent.next_step a input_text w
  = (Return "Browser tool is not available. Please make sure it's properly registered.",
     Agent.remember a Schema.MessageRole.USER input_text, w).
Proof.
  intros Hps Hq Hget Htrig. unfold Agent.next_step.
  change (Agent.tools (Agent.remember a Schema.MessageRole.USER input_text))
    with (Agent.tools a).
  rewrite Hps. unfold Agent.dispatch. rewrite Hq. unfold Agent.dispatch_rest.
  unfold PyStr.startswith_any in Htrig. cbn [existsb] in Htrig.
  destruct (PyStr.startswith (PyStr.lower input_text) "search ") eqn:H1.
  - unfold Agent.browser_search.
    change (Agent.tools (Agent.remember a Schema.MessageRole.USER input_text))
      with (Agent.tools a).
    rewrite Hget. reflexivity.
  - rewrite orb_false_l, orb_false_r in Htrig. rewrite Htrig.
    unfold Agent.browser_navigate.
    change (Agent.tools (Agent.remember a Schema.MessageRole.USER input_text))
      with (Agent.tools a).
    rewrite Hget. reflexivity.
Qed.

Lemma X21_missing_browser_tool_witness :
  fst (fst (Agent.next_step Scenario.agent "Go To example.org" Scenario.disk))
  = Return "Browser tool is not available. Please make sure it's properly registered.".
Proof.
  rewrite (X21_missing_browser_tool Scenario.agent "Go To example.org" Scenario.disk
             (match Registry.to_params Scenario.registry with
              | Return ps => ps
              | Raise _ => []
              end)); reflexivity.
Defined.

(** X22. An input that matches no trigger is answered by the LLM: the LLM
    is asked with the memory that already holds the input and with the
    system prompt extended by the tool descriptions, and its answer is
    returned as it is and appended to the memory as an assistant message.
    The same happens for a system status query when no system information
    tool is registered and no other trigger matches. *)
Theorem X22_llm_fallback {W : Type} (a : Agent.BaseAgent W) (input_text : string)
    (w w' : W) (ps : list pyval) (response : string) :
  let low := PyStr.lower input_text in
  let a1 := Agent.remember a Schema.MessageRole.USER input_text in
  Registry.to_params (Agent.tools a) = Return ps ->
  Agent.is_system_query input_text = false
    \/ Registry.get (Agent.tools a) "system_info" = None ->
  PyStr.startswith_any low
    ["search "; "navigate to "; "go to "; "browser.open_url";
     "create file"; "make a file"; "make file"; "list file"; "list directory"] = false ->
  PyStr.mem low Agent.terminal_words = false ->
  PyStr.startswith_any low Agent.terminal_prefixes = false ->
  Agent.llm a (Schema.messages (Agent.memory a1))
    (Agent.system_prompt a +:+ PyStr.newline +:+ PyStr.newline
       +:+ "You have access to the following tools:" +:+ PyStr.newline
       +:+ Registry.get_tools_description (Agent.tools a) +:+ PyStr.newline
       +:+ PyStr.newline
       +:+ "To use a tool, respond with the tool name and parameters in a structured format.")
    w = (Return response, w') ->
  Agent.next_step a input_text w
  = (Return response, Agent.remember a1 Schema.MessageRole.ASSISTANT response, w').
Proof.
  intros low a1 Hps Hsys Htrig Hwords Hprefixes Hllm.
  assert (Hrest : Agent.dispatch_rest a1 input_text w
                  = (Return response,
                     Agent.remember a1 Schema.MessageRole.ASSISTANT response, w')).
  { unfold Agent.dispatch_rest. fold low.
    unfold PyStr.startswith_any in Htrig. cbn [existsb] in Htrig.
    repeat (apply orb_false_elim in Htrig; destruct Htrig as [? Htrig]).
    assert (Hls : String.eqb low "ls" = false).
    { unfold PyStr.mem, Agent.terminal_words in Hwords. cbn [existsb] in Hwords.
      apply orb_false_elim in Hwords. tauto. }
    rewrite Hwords, Hprefixes, Hls.
    unfold PyStr.startswith_any. cbn [existsb].
    repeat match goal with H : PyStr.startswith low _ = false |- _ => rewrite H; clear H end.
    cbn [orb].
    unfold Agent.ask_llm.
    change (Agent.llm a1) with (Agent.llm a).
    change (Agent.system_prompt a1) with (Agent.system_prompt a).
    change (Agent.tools a1) with (Agent.tools a).
    rewrite Hllm. reflexivity. }
  unfold Agent.next_step. fold a1.
  change (Agent.tools a1) with (Agent.tools a). rewrite Hps.
  unfold Agent.dispatch.
  change (Agent.tools a1) with (Agent.tools a).
  destruct Hsys as [Hq|Hnone].
  - rewrite Hq, Hrest. reflexivity.
  - rewrite Hnone. destruct (Agent.is_system_query input_text); rewrite Hrest; reflexivity.
Qed.

Lemma X22_llm_fallback_witness :
  fst (fst (Agent.next_step Cases.helper "system status" Scenario.disk))
  = Return "Mock response to: system status".
Proof.
  rewrite (X22_llm_fallback Cases.helper "system status" Scenario.disk Scenario.disk []
             "Mock response to: system status");
    try reflexivity.
  right. reflexivity.
Defined.


Section FlowMore.
Context {W : Type}.
Variable step : Agent.BaseAgent W -> string -> W -> Agent.result W.

Lemma run_sequence_unknown (keys : list string) (d : list (string * Agent.BaseAgent W))
    (current_input : string) (results : list string) (w : W) :
  Forall (fun k => assoc k d = None) keys ->
  Flow.run_sequence step keys d current_input results w = (Return results, d, w).
Proof.
  induction 1 as [|k keys Hk Hall IH]; simpl; [reflexivity|].
  rewrite Hk. exact IH.
Qed.

Lemma assoc_dict_put_eq {A} (key : string) (v : A) (d : list (string * A)) :
  assoc key (Flow.dict_put key v d) = Some v.
Proof.
  induction d as [|[k u] d IH]; simpl.
  - now rewrite String.eqb_refl.
  - destruct (String.eqb k key) eqn:E; simpl; rewrite E; [reflexivity | exact IH].
Qed.

Lemma assoc_dict_put_ne {A} (key other : string) (v : A) (d : list (string * A)) :
  key <> other -> assoc other (Flow.dict_put key v d) = assoc other d.
Proof.
  intros Hne. induction d as [|[k u] d IH]; simpl.
  - destruct (String.eqb_spec key other); [contradiction | reflexivity].
  - destruct (String.eqb_spec k key) as [->|Hk]; simpl.
    + destruct (String.eqb_spec key other); [contradiction | reflexivity].
    + destruct (String.eqb k other); [reflexivity | exact IH].
Qed.

Lemma execute_nonempty (f : Flow.SequentialFlow W) (input_text : string) (w : W) :
  Flow.agents f <> [] ->
  Flow.execute step f input_text w
  = match Flow.run_sequence step (Flow.agent_sequence f) (Flow.agents f) input_text [] w with
    | (Return results, d, w') =>
        (PyStr.join (PyStr.newline +:+ PyStr.newline) results,
         Flow.mkFlow d (Flow.primary_agent_key f) (Flow.agent_sequence f), w')
    | (Raise e, d, w') =>
        ("Execution failed: " +:+ exn_str e,
         Flow.mkFlow d (Flow.primary_agent_key f) (Flow.agent_sequence f), w')
    end.
Proof.
  intros Hne. unfold Flow.execute. destruct (Flow.agents f); [congruence | reflexivity].
Qed.

End FlowMore.

Section FlowDict.
Context {W : Type}.

Lemma keys_dict_put {A} (key : string) (v : A) (d : list (string * A)) :
  map fst (Flow.dict_put key v d)
  = if PyStr.mem key (map fst d) then map fst d else (map fst d ++ [key])%list.
Proof.
  unfold PyStr.mem. induction d as [|[k u] d IH]; simpl; [reflexivity|].
  rewrite (String.eqb_sym key k).
  destruct (String.eqb_spec k key) as [->|Hk]; simpl; [reflexivity|].
  rewrite IH. destruct (existsb _ _); reflexivity.
Qed.

Lemma assoc_keys {A} (key : string) (d : list (string * A)) :
  In key (map fst d) <-> exists v, assoc key d = Some v.
Proof.
  induction d as [|[k u] d IH]; simpl.
  - split; [intros [] | intros [v Hv]; discriminate].
  - destruct (String.eqb_spec k key) as [->|Hk].
    + split; eauto.
    + rewrite <- IH. split; [intros [H|H]; [contradiction | exact H] | auto].
Qed.

(** Every agent of the dictionary is kept under its own name, and no name
    occurs twice. *)
Lemma named_dict_put (b : Agent.BaseAgent W) (d : list (string * Agent.BaseAgent W)) :
  NoDup (map fst d) /\ (forall k c, assoc k d = Some c -> Agent.name c = k) ->
  NoDup (map fst (Flow.dict_put (Agent.name b) b d))
  /\ (forall k c, assoc k (Flow.dict_put (Agent.name b) b d) = Some c -> Agent.name c = k).
Proof.
  intros [Hnd Hnamed]. split.
  - rewrite keys_dict_put.
    destruct (PyStr.mem (Agent.name b) (map fst d)) eqn:E; [exact Hnd|].
    apply NoDup_app. repeat split; auto.
    + intros x Hx Hx'. apply list_elem_of_In in Hx, Hx'. destruct Hx' as [<-|[]].
      apply mem_In in Hx. congruence.
    + apply NoDup_singleton.
  - intros k c. destruct (String.eqb_spec (Agent.name b) k) as [<-|Hne].
    + rewrite assoc_dict_put_eq. now intros [= <-].
    + rewrite assoc_dict_put_ne by assumption. apply Hnamed.
Qed.

Lemma named_fold (l : list (Agent.BaseAgent W)) :
  forall d : list (string * Agent.BaseAgent W),
  NoDup (map fst d) /\ (forall k c, assoc k d = Some c -> Agent.name c = k) ->
  let d' := fold_left (fun d a => Flow.dict_put (Agent.name a) a d) l d in
  (NoDup (map fst d') /\ (forall k c, assoc k d' = Some c -> Agent.name c = k))
  /\ (forall k, In k (map fst d) \/ In k (map Agent.name l) -> In k (map fst d')).
Proof.
  induction l as [|b l IH]; intros d Hd; simpl.
  - split; [exact Hd|]. intros k [H|[]]. exact H.
  - destruct (IH _ (named_dict_put b d Hd)) as [Hinv Hkeys]. split; [exact Hinv|].
    intros k Hk. apply Hkeys.
    rewrite keys_dict_put.
    destruct (PyStr.mem (Agent.name b) (map fst d)) eqn:E.
    + apply mem_In in E. destruct Hk as [H|[<-|H]]; auto.
    + rewrite in_app_iff. simpl. tauto.
Qed.

End FlowDict.

(** X23. A flow without agents answers every input with the text that no
    agents are available, and a flow whose sequence names none of its
    agents answers with the empty text; in both cases no agent is run and
    nothing changes. *)
Theorem X23_flow_without_work {W : Type}
    (step : Agent.BaseAgent W -> string -> W -> Agent.result W)
    (f : Flow.SequentialFlow W) (input_text : string) (w : W) :
  (Flow.agents f = [] ->
   Flow.execute step f input_text w = ("Execution failed: No agents available", f, w))
  /\ (Flow.agents f <> [] ->
      Forall (fun k => assoc k (Flow.agents f) = None) (Flow.agent_sequence f) ->
      Flow.execute step f input_text w = ("", f, w)).
Proof.
  unfold Flow.execute. split.
  - intros ->. reflexivity.
  - intros Hne Hall. fold (Flow.execute step f input_text w).
    rewrite execute_nonempty by assumption.
    rewrite (run_sequence_unknown step _ _ _ _ _ Hall).
    destruct f as [d k s]. reflexivity.
Qed.

Lemma X23_flow_without_work_witness :
  fst (fst (Flow.execute Agent.next_step
              (Flow.init (Flow.Many []) None ["Uranus"]) "hello" Scenario.disk))
  = "Execution failed: No agents available"
  /\ fst (fst (Flow.execute Agent.next_step
                 (Flow.init (Flow.Many [Cases.helper]) None ["Nobody"]) "hello"
                 Scenario.disk))
     = "".
Proof.
  split.
  - destruct (X23_flow_without_work Agent.next_step
                (Flow.init (Flow.Many []) None ["Uranus"]) "hello" Scenario.disk)
      as [H _].
    rewrite H; reflexivity.
  - destruct (X23_flow_without_work Agent.next_step
                (Flow.init (Flow.Many [Cases.helper]) None ["Nobody"]) "hello"
                Scenario.disk) as [_ H].
    rewrite H; [reflexivity | discriminate | repeat constructor].
Defined.

(** X24. In a flow of two agents the second agent is run on the answer of
    the first, in the world the first left, and the flow returns the two
    answers separated by an empty line; each agent is stored back with the
    memory and state its run left.  When the run of the second agent
    raises, the flow returns the failure text with the message and the
    answer of the first agent is lost. *)
Theorem X24_flow_pipes_answers {W : Type}
    (step : Agent.BaseAgent W -> string -> W -> Agent.result W)
    (f : Flow.SequentialFlow W) (k1 k2 : string) (a1 a2 a1' a2' : Agent.BaseAgent W)
    (input_text r1 : string) (o2 : outcome string) (w w1 w2 : W) :
  Flow.agent_sequence f = [k1; k2] ->
  k1 <> k2 ->
  assoc k1 (Flow.agents f) = Some a1 ->
  assoc k2 (Flow.agents f) = Some a2 ->
  Agent.run step a1 input_text w = (Return r1, a1', w1) ->
  Agent.run step a2 r1 w1 = (o2, a2', w2) ->
  Flow.execute step f input_text w
  = (match o2 with
     | Return r2 => r1 +:+ (PyStr.newline +:+ PyStr.newline) +:+ r2
     | Raise e => "Execution failed: " +:+ exn_str e
     end,
     Flow.mkFlow (Flow.dict_put k2 a2' (Flow.dict_put k1 a1' (Flow.agents f)))
       (Flow.primary_agent_key f) (Flow.agent_sequence f),
     w2).
Proof.
  intros Hseq Hne H1 H2 Hrun1 Hrun2.
  rewrite execute_nonempty by (intros E; rewrite E in H1; discriminate).
  rewrite Hseq. cbn [Flow.run_sequence]. rewrite H1, Hrun1.
  rewrite (assoc_dict_put_ne k1 k2 a1' _ Hne), H2, Hrun2.
  destruct o2 as [r2|e]; reflexivity.
Qed.

Lemma X24_flow_pipes_answers_witness :
  fst (fst (Flow.execute Agent.next_step Cases.flow "Say 'Test successful'" Scenario.disk))
  = "Test successful" +:+ PyStr.newline +:+ PyStr.newline
      +:+ "Mock response to: Test successful".
Proof.
  rewrite (X24_flow_pipes_answers Agent.next_step Cases.flow "Uranus" "Helper"
             Scenario.agent Cases.helper
             (snd (fst (Agent.run Agent.next_step Scenario.agent "Say 'Test successful'"
                          Scenario.disk)))
             (snd (fst (Agent.run Agent.next_step Cases.helper "Test successful"
                          Scenario.disk)))
             "Say 'Test successful'" "Test successful"
             (Return "Mock response to: Test successful")
             Scenario.disk Scenario.disk Scenario.disk);
    try reflexivity.
  discriminate.
Defined.

(** X25. A flow built from a list of agents keeps its agents under their
    names, one agent per name, and every agent of the list is represented
    by an agent of its name; when no sequence is given the flow runs the
    names it keeps, in their order; and when no key is given and the list
    is not empty the primary agent exists and carries the name of the
    first agent of the list (if that name is not empty). *)
Theorem X25_flow_from_list {W : Type} (a : Agent.BaseAgent W)
    (l : list (Agent.BaseAgent W)) :
  let f := Flow.init (Flow.Many (a :: l)) None [] in
  Flow.agent_sequence f = map fst (Flow.agents f)
  /\ NoDup (map fst (Flow.agents f))
  /\ (forall k c, assoc k (Flow.agents f) = Some c -> Agent.name c = k)
  /\ (forall b, In b (a :: l) ->
      exists c, assoc (Agent.name b) (Flow.agents f) = Some c)
  /\ (Agent.name a <> "" ->
      exists c, Flow.primary_agent f = Some c /\ Agent.name c = Agent.name a).
Proof.
  intros f.
  assert (Hd0 : NoDup (map fst (@nil (string * Agent.BaseAgent W)))
                /\ (forall k c, assoc k (@nil (string * Agent.BaseAgent W)) = Some c ->
                    Agent.name c = k)).
  { split; [apply NoDup_nil_2 | intros k c H; discriminate]. }
  destruct (named_fold (a :: l) [] Hd0) as [[Hnd Hnamed] Hkeys].
  change (fold_left (fun d a => Flow.dict_put (Agent.name a) a d) (a :: l) [])
    with (Flow.agents f) in *.
  assert (Hall : forall b, In b (a :: l) ->
                 exists c, assoc (Agent.name b) (Flow.agents f) = Some c).
  { intros b Hb. apply assoc_keys, Hkeys. right. now apply in_map. }
  split; [|split; [exact Hnd | split; [exact Hnamed | split; [exact Hall|]]]].
  - reflexivity.
  - intros Hne. destruct (Hall a (or_introl eq_refl)) as [c Hc].
    exists c. split; [|exact (Hnamed _ _ Hc)].
    unfold Flow.primary_agent. change (Flow.primary_agent_key f) with (Some (Agent.name a)).
    cbv iota beta. apply String.eqb_neq in Hne. rewrite Hne. exact Hc.
Qed.

Lemma X25_flow_from_list_witness :
  Flow.agent_sequence Cases.flow = ["Uranus"; "Helper"]
  /\ exists c, Flow.primary_agent Cases.flow = Some c /\ Agent.name c = "Uranus".
Proof.
  destruct (X25_flow_from_list Scenario.agent [Cases.helper])
    as (Hseq & _ & _ & _ & Hprimary).
  unfold Cases.flow. split; [rewrite Hseq; reflexivity|].
  apply Hprimary. discriminate.
Defined.
